(** * mssql_dataframe: conversion engine and MERGE statement builder

    A shallow embedding of [mssql_dataframe/core/conversion_rules.py],
    [mssql_dataframe/core/conversion.py] and
    [mssql_dataframe/core/write/merge.py], followed by the properties
    established about them.

    Conventions of the embedding:
    - a pandas [DataFrame] is an ordered association list of named columns
      together with its named index levels; a column ([Series]) is a dtype
      name and a list of cells;
    - [pd.Timedelta] and [pd.Timestamp] are their integer nanosecond counts;
    - a Python exception is the [Raise] outcome of a [result];
    - [logger.warning] appends to a list of warnings, the state of the
      conversion functions;
    - the pandas, Python and pyodbc operations whose behaviour is not
      defined by this repository are fields of the classes [Host] and
      [Database]. *)

From Stdlib Require Import String Ascii List ZArith QArith Bool Lia DecimalString.
From Stdlib Require Import Permutation Sorted.
From Stdlib Require Strings.Byte.
From Stdlib Require OrderedTypeEx.
Import ListNotations.
Open Scope string_scope.
Open Scope Z_scope.

Set Implicit Arguments.

(* ===================================================================== *)
(** ** Python built-ins used by the source *)
(* ===================================================================== *)

(** [str(x)] for an [int]. *)
Definition str (x : Z) : string := NilEmpty.string_of_int (Z.to_int x).

(** [xs + ys] for lists; [++] is kept for strings. *)
Infix "+++" := app (right associativity, at level 60) : list_scope.

(** [list(range(0, n))]. *)
Definition range (n : nat) : list Z := map Z.of_nat (seq 0 n).

(** [sep.join(xs)]. *)
Definition join (sep : string) (xs : list string) : string := String.concat sep xs.

(** The line feed inside a triple-quoted literal or an escape. *)
Definition LF : string := String (ascii_of_nat 10) EmptyString.

(** Truth value of a [str]: only the empty string is falsy. *)
Definition truthy (s : string) : bool := negb (String.eqb s "").

(** [any(names)] over a sequence of column names. *)
Definition any_name (names : list string) : bool := existsb truthy names.

(** [any(flags)] over a sequence of booleans. *)
Definition any (flags : list bool) : bool := existsb (fun b => b) flags.

(** [x in xs] for strings. *)
Definition isin (x : string) (xs : list string) : bool :=
  existsb (String.eqb x) xs.

(** [s[i:j]] for [0 <= i <= j]. *)
Definition slice (i j : nat) (s : string) : string := substring i (j - i) s.

(** [s.startswith(p)]. *)
Definition startswith (p s : string) : bool := prefix p s.

(** [round(n / d)] for integers [n >= 0], [d > 0]: the quotient is a binary64
    value, exact at the halves and never across one otherwise, and Python
    rounds halves to the even neighbour. *)
Definition round_div (n d : Z) : Z :=
  let q := n / d in
  let r := n mod d in
  if 2 * r <? d then q
  else if d <? 2 * r then q + 1
  else if Z.even q then q else q + 1.

(* ===================================================================== *)
(** ** Exceptions, results and the logger *)
(* ===================================================================== *)

(** The exception classes raised by the source ([custom_errors] and Python's
    own).  A formatted message keeps its literal part and the interpolated
    column list apart; [Error] is any class the source never names. *)
Inductive exception : Type :=
| ValueError (message : string) (columns : list string)
| TypeError
| KeyError (key : string)
| Error (class_name message : string)
| SQLTableDoesNotExist
| SQLColumnDoesNotExist (missing : list string)
| UndefinedConversionRule (missing : list string)
| DataframeColumnInvalidValue (columns : list string)
| SQLInsufficientColumnSize (columns : list string)
| SQLNonUnicodeTypeColumn.

Inductive result (A : Type) : Type :=
| Ok (a : A)
| Raise (e : exception).
Arguments Ok {A} a.
Arguments Raise {A} e.

(** A computation over a state [S] that may raise; the state reached when an
    exception is raised is kept, as Python keeps side effects. *)
Definition M (S A : Type) : Type := S -> result A * S.

Definition ret {S A} (a : A) : M S A := fun s => (Ok a, s).

Definition raise {S A} (e : exception) : M S A := fun s => (Raise e, s).

Definition bind {S A B} (m : M S A) (k : A -> M S B) : M S B :=
  fun s => match m s with
           | (Ok a, s') => k a s'
           | (Raise e, s') => (Raise e, s')
           end.

Declare Scope py_scope.
Delimit Scope py_scope with py.
Notation "x <- m ;; k" := (bind m (fun x => k))
  (at level 61, m at next level, right associativity) : py_scope.
Notation "' p <- m ;; k" := (bind m (fun x => match x with p => k end))
  (at level 61, p pattern, m at next level, right associativity) : py_scope.
Notation "m ;;; k" := (bind m (fun _ => k))
  (at level 61, right associativity) : py_scope.
Open Scope py_scope.

(** A pure computation that may raise, run inside any state. *)
Definition lift {S A} (r : result A) : M S A := fun s => (r, s).

(** What pandas, Python or pyodbc may raise: never a class of
    [custom_errors]. *)
Inductive foreign : Type :=
| ForeignTypeError
| ForeignValueError (message : string)
| ForeignError (class_name message : string).

Definition reraise (e : foreign) : exception :=
  match e with
  | ForeignTypeError => TypeError
  | ForeignValueError message => ValueError message []
  | ForeignError class_name message => Error class_name message
  end.

(** The outcome of a pure library call, as a result. *)
Definition called {A} (r : foreign + A) : result A :=
  match r with
  | inl e => Raise (reraise e)
  | inr a => Ok a
  end.

(** A library call on a state [S], and its run as a computation. *)
Definition Call (S A : Type) : Type := S -> (foreign + A) * S.

Definition run {S A} (c : Call S A) : M S A :=
  fun s => let '(r, s') := c s in (called r, s').

(** [for x in xs: acc = f(acc, x)]. *)
Fixpoint for_each {S A B} (xs : list A) (f : B -> A -> M S B) (acc : B) : M S B :=
  match xs with
  | [] => ret acc
  | x :: xs' => acc' <- f acc x ;; for_each xs' f acc'
  end.

(** [[f(x) for x in xs]] where [f] may raise. *)
Fixpoint map_result {A B} (f : A -> result B) (xs : list A) : result (list B) :=
  match xs with
  | [] => Ok []
  | x :: xs' =>
      match f x with
      | Raise e => Raise e
      | Ok y => match map_result f xs' with
                | Raise e => Raise e
                | Ok ys => Ok (y :: ys)
                end
      end
  end.

(** The records [logger.warning] receives: which adjustment, for which
    columns. *)
Inductive warning : Type :=
| NanosecondRounded (sql_type : string) (columns : list string)
| MillisecondRounded (columns : list string)
| DecimalRounded (column : string) (decimal_digits : Z).

Definition logger_warning {S} (put : warning -> S -> S) (w : warning) : M S unit :=
  fun s => (Ok tt, put w s).

(** The logger used by the conversion functions: the warnings issued so far. *)
Definition Log : Type := list warning.

Definition warn (w : warning) : M Log unit := logger_warning (fun w l => l +++ [w]) w.

(** Sequencing for pure code that may raise. *)
Definition and_then {A B} (r : result A) (k : A -> result B) : result B :=
  match r with
  | Ok a => k a
  | Raise e => Raise e
  end.

Notation "x <~ r ;; k" := (and_then r (fun x => k))
  (at level 61, r at next level, right associativity) : py_scope.
Notation "' p <~ r ;; k" := (and_then r (fun x => match x with p => k end))
  (at level 61, p pattern, r at next level, right associativity) : py_scope.

(* ===================================================================== *)
(** ** pandas values, columns and tables *)
(* ===================================================================== *)

(** A cell.  [NA] stands for every null pandas knows ([None], [NaN],
    [pd.NA], [pd.NaT]); [Float q] is the real number a finite float denotes;
    [Timedelta ns] and [Timestamp ns tz] carry their nanosecond count (for a
    timestamp, of its wall-clock reading) and the UTC offset, in minutes, of
    the attached [tzinfo]. *)
Inductive value : Type :=
| NA
| Bool (b : bool)
| Int (z : Z)
| Float (q : Q)
| Str (s : string)
| Timedelta (ns : Z)
| Timestamp (ns : Z) (tzinfo : option Z).

(** [pd.notnull(x)]. *)
Definition notnull (x : value) : bool :=
  match x with NA => false | _ => true end.

Definition option_eqb {A} (eqb : A -> A -> bool) (a b : option A) : bool :=
  match a, b with
  | None, None => true
  | Some x, Some y => eqb x y
  | _, _ => false
  end.

Definition value_eqb (x y : value) : bool :=
  match x, y with
  | NA, NA => true
  | Bool a, Bool b => Bool.eqb a b
  | Int a, Int b => Z.eqb a b
  | Float a, Float b => Qeq_bool a b
  | Str a, Str b => String.eqb a b
  | Timedelta a, Timedelta b => Z.eqb a b
  | Timestamp a ta, Timestamp b tb => Z.eqb a b && option_eqb Z.eqb ta tb
  | _, _ => false
  end.

Fixpoint list_eqb {A} (eqb : A -> A -> bool) (xs ys : list A) : bool :=
  match xs, ys with
  | [], [] => true
  | x :: xs', y :: ys' => eqb x y && list_eqb eqb xs' ys'
  | _, _ => false
  end.

(** A column: its dtype name and its cells. *)
Record Series : Type := { dtype : string; values : list value }.

(** [a.equals(b)]. *)
Definition Series_equals (a b : Series) : bool :=
  String.eqb (dtype a) (dtype b) && list_eqb value_eqb (values a) (values b).

(** [series.apply(f)] where [f] keeps the kind of the cells. *)
Definition apply (f : value -> value) (s : Series) : Series :=
  {| dtype := dtype s; values := map f (values s) |}.

(** Named columns in order. *)
Definition Frame : Type := list (string * Series).

(** A table: its named index levels (none for the default index) and its
    columns. *)
Record DataFrame : Type := { index : Frame; columns : Frame }.

Fixpoint lookup {A} (k : string) (l : list (string * A)) : option A :=
  match l with
  | [] => None
  | (k', v) :: l' => if String.eqb k k' then Some v else lookup k l'
  end.

(** [l[k] = v] on an ordered mapping: in place when [k] is present, appended
    otherwise. *)
Fixpoint assign {A} (k : string) (v : A) (l : list (string * A)) : list (string * A) :=
  match l with
  | [] => [(k, v)]
  | (k', v') :: l' =>
      if String.eqb k k' then (k, v) :: l' else (k', v') :: assign k v l'
  end.

Definition names {A} (l : list (string * A)) : list string := map fst l.

(** [dataframe[col]]. *)
Definition getitem (col : string) (df : DataFrame) : result Series :=
  match lookup col (columns df) with
  | Some s => Ok s
  | None => Raise (KeyError col)
  end.

(** [dataframe[cols]] for a list of names. *)
Definition getitems (cols : list string) (df : DataFrame) : result Frame :=
  map_result (fun col => s <~ getitem col df ;; Ok (col, s)) cols.

(** [dataframe[col] = series]. *)
Definition setitem (col : string) (s : Series) (df : DataFrame) : DataFrame :=
  {| index := index df; columns := assign col s (columns df) |}.

(** [dataframe.reset_index()]: the index levels become the leading columns. *)
Definition reset_index (df : DataFrame) : DataFrame :=
  {| index := []; columns := index df +++ columns df |}.

(** [dataframe.set_index(keys, drop=drop)]. *)
Definition set_index (keys : list string) (drop : bool) (df : DataFrame) : result DataFrame :=
  levels <~ getitems keys df ;;
  Ok {| index := levels;
        columns := if drop
                   then filter (fun c => negb (isin (fst c) keys)) (columns df)
                   else columns df |}.

(** [dataframe.values.tolist()]: the rows. *)
Fixpoint transpose (n : nat) (cols : list (list value)) : list (list value) :=
  match n with
  | O => []
  | S n' => map (hd NA) cols :: transpose n' (map (@tl value) cols)
  end.

Definition tolist (df : DataFrame) : list (list value) :=
  match columns df with
  | [] => []
  | (_, s) :: _ => transpose (length (values s)) (map (fun c => values (snd c)) (columns df))
  end.

(* ===================================================================== *)
(** ** Timedelta and Timestamp fields *)
(* ===================================================================== *)

Definition ns_per_us : Z := 1000.
Definition ns_per_ms : Z := 1000000.
Definition ns_per_s : Z := 1000000000.
Definition ns_per_minute : Z := 60 * ns_per_s.
Definition ns_per_hour : Z := 3600 * ns_per_s.
Definition ns_per_day : Z := 86400 * ns_per_s.

(** [timedelta.components]. *)
Record Components : Type :=
  { days : Z; hours : Z; minutes : Z; seconds : Z;
    milliseconds : Z; microseconds : Z; nanoseconds : Z }.

Definition components (ns : Z) : Components :=
  {| days := ns / ns_per_day;
     hours := ns mod ns_per_day / ns_per_hour;
     minutes := ns mod ns_per_hour / ns_per_minute;
     seconds := ns mod ns_per_minute / ns_per_s;
     milliseconds := ns mod ns_per_s / ns_per_ms;
     microseconds := ns mod ns_per_ms / ns_per_us;
     nanoseconds := ns mod ns_per_us |}.

(** [pd.Timedelta(days=.., hours=.., minutes=.., seconds=.., milliseconds=..,
    microseconds=.., nanoseconds=..)]: the keyword amounts add up; a keyword
    left out counts as zero. *)
Definition Timedelta_kw (d h m s ms us ns : Z) : Z :=
  d * ns_per_day + h * ns_per_hour + m * ns_per_minute + s * ns_per_s
  + ms * ns_per_ms + us * ns_per_us + ns.

(** [timestamp.microsecond] (0 to 999999) and [timestamp.nanosecond]
    (0 to 999). *)
Definition microsecond (ns : Z) : Z := ns mod ns_per_s / ns_per_us.
Definition nanosecond (ns : Z) : Z := ns mod ns_per_us.

(** [timestamp.floor("s")]. *)
Definition floor_s (ns : Z) : Z := ns - ns mod ns_per_s.

(** [pd.Timestamp(x.year, x.month, x.day, x.hour, x.minute, x.second,
    x.microsecond, n)]: the reading of [x] with its nanosecond field replaced
    by [n]. *)
Definition Timestamp_with_nanosecond (ns n : Z) : Z := ns - nanosecond ns + n.

(** [pd.Timestamp.min], [pd.Timestamp.max] and the day a timestamp falls on. *)
Definition Timestamp_min : Z := - (2 ^ 63 - 1).
Definition Timestamp_max : Z := 2 ^ 63 - 1.
Definition date (ns : Z) : Z := ns - ns mod ns_per_day.

(* ===================================================================== *)
(** ** conversion_rules.py *)
(* ===================================================================== *)

(** The pyodbc type codes the rules name. *)
Inductive odbc : Type :=
| SQL_BIT | SQL_TINYINT | SQL_SMALLINT | SQL_INTEGER | SQL_BIGINT | SQL_FLOAT
| SQL_SS_TIME2 | SQL_TYPE_DATE | SQL_TYPE_TIMESTAMP | SQL_VARCHAR | SQL_WVARCHAR.

(** One record of [rules], without its key [sql_type]. *)
Record Rule : Type :=
  { sql_category : string;
    min_value : value;
    max_value : value;
    pandas_type : string;
    odbc_type : odbc;
    odbc_size : Z;
    odbc_precision : Z }.

(** [rules], keyed by [sql_type], in the order of the source. *)
Definition rules : list (string * Rule) :=
  [ ("bit",
     {| sql_category := "boolean";
        min_value := Bool false; max_value := Bool true;
        pandas_type := "boolean";
        odbc_type := SQL_BIT; odbc_size := 1; odbc_precision := 0 |});
    ("tinyint",
     {| sql_category := "exact numeric";
        min_value := Int 0; max_value := Int 255;
        pandas_type := "UInt8";
        odbc_type := SQL_TINYINT; odbc_size := 1; odbc_precision := 0 |});
    ("smallint",
     {| sql_category := "exact numeric";
        min_value := Int (- 2 ^ 15); max_value := Int (2 ^ 15 - 1);
        pandas_type := "Int16";
        odbc_type := SQL_SMALLINT; odbc_size := 2; odbc_precision := 0 |});
    ("int",
     {| sql_category := "exact numeric";
        min_value := Int (- 2 ^ 31); max_value := Int (2 ^ 31 - 1);
        pandas_type := "Int32";
        odbc_type := SQL_INTEGER; odbc_size := 4; odbc_precision := 0 |});
    ("bigint",
     {| sql_category := "exact numeric";
        min_value := Int (- 2 ^ 63); max_value := Int (2 ^ 63 - 1);
        pandas_type := "Int64";
        odbc_type := SQL_BIGINT; odbc_size := 8; odbc_precision := 0 |});
    ("float",
     {| sql_category := "approximate numeric";
        min_value := Float (Qopp (Qpower (179 # 100) 308));
        max_value := Float (Qpower (179 # 100) 308);
        pandas_type := "float64";
        odbc_type := SQL_FLOAT; odbc_size := 8; odbc_precision := 53 |});
    ("time",
     {| sql_category := "date time";
        min_value := Timedelta 0;
        max_value := Timedelta (Timedelta_kw 0 23 59 59 999 999 900);
        pandas_type := "timedelta64[ns]";
        odbc_type := SQL_SS_TIME2; odbc_size := 16; odbc_precision := 7 |});
    ("date",
     {| sql_category := "date time";
        min_value := Timestamp (date (Timestamp_min + ns_per_day)) None;
        max_value := Timestamp (date Timestamp_max) None;
        pandas_type := "datetime64[ns]";
        odbc_type := SQL_TYPE_DATE; odbc_size := 10; odbc_precision := 0 |});
    ("datetime2",
     {| sql_category := "date time";
        min_value := Timestamp Timestamp_min None;
        max_value := Timestamp Timestamp_max None;
        pandas_type := "datetime64[ns]";
        odbc_type := SQL_TYPE_TIMESTAMP; odbc_size := 27; odbc_precision := 7 |});
    ("varchar",
     {| sql_category := "character string";
        min_value := Int 1; max_value := Int 0;
        pandas_type := "string";
        odbc_type := SQL_VARCHAR; odbc_size := 0; odbc_precision := 0 |});
    ("nvarchar",
     {| sql_category := "character string";
        min_value := Int 1; max_value := Int 0;
        pandas_type := "string";
        odbc_type := SQL_WVARCHAR; odbc_size := 0; odbc_precision := 0 |}) ].

(* ===================================================================== *)
(** ** The schema table and the collaborators *)
(* ===================================================================== *)

(** One row of the schema [get_schema] returns; its key is the column name.
    [conversion] holds the fields joined from [rules], [None] when the left
    join found no rule (the fields are then all missing). *)
Record Column : Type :=
  { data_type : Z;
    column_size : Z;
    decimal_digits : Z;
    sql_type : string;
    is_nullable : bool;
    ss_is_identity : bool;
    pk_seq : option Z;
    pk_name : option string;
    conversion : option Rule }.

Definition Schema : Type := list (string * Column).

(** [schema.loc[col]]. *)
Definition loc (col : string) (schema : Schema) : result Column :=
  match lookup col schema with
  | Some c => Ok c
  | None => Raise (KeyError col)
  end.

(** [schema[schema[...] ...].index]: the keys of the rows that satisfy [p]. *)
Definition index_where (p : Column -> bool) (schema : Schema) : list string :=
  names (filter (fun r => p (snd r)) schema).

(** A field joined from [rules]: missing when no rule was joined. *)
Definition category (c : Column) : option string := option_map sql_category (conversion c).
Definition minimum (c : Column) : value :=
  match conversion c with Some r => min_value r | None => NA end.
Definition maximum (c : Column) : value :=
  match conversion c with Some r => max_value r | None => NA end.

(** pandas and Python operations the source calls and does not define. *)
Class Host : Type :=
  { (** [series.astype(dtype)] *)
    astype : string -> Series -> foreign + Series;
    (** the text [series.astype("str")] gives one cell of the column
        [series]: pandas formats a column of timestamps or of timedeltas as a
        whole, with the digits its values need *)
    astype_str : Series -> value -> string;
    (** [flags[flags]] where [flags] is a table without rows: whether pandas
        takes such a table as its own boolean mask *)
    masks_itself : Frame -> foreign + unit;
    (** [series.str] on a column of dtype object (or category), where pandas
        decides by the kinds of the cells *)
    str_of_object : Series -> foreign + unit;
    (** [round(x, ndigits)] *)
    round_ndigits : value -> Z -> value;
    (** [series.str.replace(pattern, repl, regex=True)] on one cell *)
    str_replace : string -> string -> string -> string;
    (** [pd.Timestamp(x)] *)
    to_Timestamp : value -> foreign + value;
    (** [series.fillna(np.nan).replace([np.nan], [None])] *)
    nan_to_None : Series -> Series;
    (** [series.replace([pd.NA], None)] *)
    replace_NA : Series -> Series }.

(** A row of [cursor.columns(...)] and of [cursor.primaryKeys(...)], with the
    fields the source reads. *)
Record ColumnRow : Type :=
  { column_name : string;
    odbc_data_type : Z;
    odbc_column_size : Z;
    odbc_decimal_digits : option Z;
    type_name : string;
    odbc_is_nullable : string;
    odbc_ss_is_identity : Z }.

Record KeyRow : Type :=
  { key_column_name : string; key_seq : Z; key_pk_name : string }.

(** The pyodbc connection and cursor, [dynamic.escape] and
    [insert._source_table]: the state [session] is whatever the database and
    the driver hold. *)
Class Database : Type :=
  { session : Type;
    (** [cursor.columns(table=.., catalog=.., schema=..)] *)
    cursor_columns : string -> option string -> option string -> Call session (list ColumnRow);
    (** [cursor.primaryKeys(table=.., catalog=..).fetchall()] *)
    cursor_primaryKeys : string -> option string -> Call session (list KeyRow);
    (** [cursor.setinputsizes(..)] *)
    cursor_setinputsizes : list (option odbc * Z * Z) -> Call session unit;
    (** [cursor.execute(statement, args)] *)
    cursor_execute : string -> list string -> Call session unit;
    (** [cursor.executemany(statement, values)] *)
    cursor_executemany : string -> list (list value) -> Call session unit;
    (** [cursor.commit()] *)
    cursor_commit : Call session unit;
    (** [dynamic.escape(cursor, name)] and [dynamic.escape(cursor, names)] *)
    escape : string -> Call session string;
    escape_all : list string -> Call session (list string);
    (** [self._source_table(table_name, dataframe, cursor, match_columns,
        additional_columns)] *)
    _source_table : string -> DataFrame -> option (list string) -> option (list string) ->
                    M (session * Log) (Schema * DataFrame * list string * string) }.

(** Running a computation on one component of a paired state. *)
Definition on_fst {S T A} (m : M S A) : M (S * T) A :=
  fun st => let '(r, s') := m (fst st) in (r, (s', snd st)).
Definition on_snd {S T A} (m : M T A) : M (S * T) A :=
  fun st => let '(r, t') := m (snd st) in (r, (fst st, t')).

(* ===================================================================== *)
(** ** conversion.py: schema and coercion *)
(* ===================================================================== *)

(** [s.split(".")]. *)
Fixpoint split_dot_aux (s : string) (current : string) : list string :=
  match s with
  | EmptyString => [current]
  | String c s' =>
      if Ascii.eqb c "."%char
      then current :: split_dot_aux s' ""
      else split_dot_aux s' (current ++ String c EmptyString)
  end.
Definition split_dot (s : string) : list string := split_dot_aux s "".

(** [how="left"] join of the schema rows with the primary key rows. *)
Definition merge_primary_key (pk : list KeyRow) (row : ColumnRow) : list (string * Column) :=
  let base seq name :=
    (column_name row,
     {| data_type := odbc_data_type row;
        column_size := odbc_column_size row;
        decimal_digits := match odbc_decimal_digits row with Some d => d | None => 0 end;
        sql_type := type_name row;
        is_nullable := String.eqb (odbc_is_nullable row) "YES";
        ss_is_identity := Z.eqb (odbc_ss_is_identity row) 1;
        pk_seq := seq; pk_name := name; conversion := None |}) in
  match filter (fun k => String.eqb (key_column_name k) (column_name row)) pk with
  | [] => [base None None]
  | keys => map (fun k => base (Some (key_seq k)) (Some (key_pk_name k))) keys
  end.

(** Lines 125-131: the identity designation is set aside, the rules are
    joined on [sql_type] ([how="left"]), the designation is put back.  The
    keys of [rules] are distinct, so every row is joined with at most one
    rule. *)
Definition add_conversion_rules (c : Column) : Column :=
  let identity := String.eqb (sql_type c) "int identity" in
  let key := if identity then "int" else sql_type c in
  {| data_type := data_type c; column_size := column_size c;
     decimal_digits := decimal_digits c;
     sql_type := if identity then "int identity" else key;
     is_nullable := is_nullable c; ss_is_identity := ss_is_identity c;
     pk_seq := pk_seq c; pk_name := pk_name c;
     conversion := lookup key rules |}.

(** Columns of [wanted] that are not among [present]. *)
Definition not_in (present wanted : list string) : list string :=
  filter (fun c => negb (isin c present)) wanted.

(** [with_max_value v c]: the row [c] with [max_value] set to [v]. *)
Definition with_max_value (v : value) (c : Column) : Column :=
  {| data_type := data_type c; column_size := column_size c;
     decimal_digits := decimal_digits c; sql_type := sql_type c;
     is_nullable := is_nullable c; ss_is_identity := ss_is_identity c;
     pk_seq := pk_seq c; pk_name := pk_name c;
     conversion :=
       match conversion c with
       | Some r => Some {| sql_category := sql_category r; min_value := min_value r;
                           max_value := v; pandas_type := pandas_type r;
                           odbc_type := odbc_type r; odbc_size := odbc_size r;
                           odbc_precision := odbc_precision r |}
       | None => None
       end |}.

(** [except (TypeError, ValueError): raise DataframeColumnInvalidValue(.., columns)]. *)
Definition except_invalid {A} (columns : list string) (r : result A) : result A :=
  match r with
  | Raise TypeError => Raise (DataframeColumnInvalidValue columns)
  | Raise (ValueError _ _) => Raise (DataframeColumnInvalidValue columns)
  | _ => r
  end.

(** [dataframe[columns] = f(dataframe[columns])], column by column. *)
Definition convert (columns : list string) (f : Series -> result Series) (dataframe : DataFrame)
  : result DataFrame :=
  converted <~ map_result (fun col => s <~ getitem col dataframe ;; s' <~ f s ;; Ok (col, s')) columns ;;
  Ok (fold_left (fun df cs => setitem (fst cs) (snd cs) df) converted dataframe).

(** [convert[schema.loc[convert, ..] ...]]: the names of [convert] whose
    schema row satisfies [p]. *)
Definition where_schema (schema : Schema) (p : Column -> bool) (convert : list string)
  : result (list string) :=
  flags <~ map_result (fun col => c <~ loc col schema ;; Ok (col, p c)) convert ;;
  Ok (names (filter (fun cf => snd cf) flags)).

Definition category_is (name : string) (c : Column) : bool :=
  option_eqb String.eqb (category c) (Some name).

(** Convert objects to allow for comparison without truncation. *)
Definition convert_largest_sql_category {H : Host} (dataframe : DataFrame) (schema : Schema)
  : result DataFrame :=
  let convert_ := names (filter (fun c => String.eqb (dtype (snd c)) "object") (columns dataframe)) in
  (* exact_whole_numeric *)
  columns1 <~ where_schema schema (category_is "exact_whole_numeric") convert_ ;;
  dataframe <~ except_invalid columns1
    (convert columns1
       (fun s => s1 <~ called (astype "float" (nan_to_None s)) ;; called (astype "Int64" s1))
       dataframe) ;;
  (* approximate_decimal_numeric *)
  columns2 <~ where_schema schema (category_is "approximate_decimal_numeric") convert_ ;;
  dataframe <~ except_invalid columns2 (convert columns2 (fun s => called (astype "float64" s)) dataframe) ;;
  (* date_time *)
  columns3 <~ where_schema schema
    (fun c => category_is "date_time" c && negb (String.eqb (sql_type c) "datetimeoffset")) convert_ ;;
  dataframe <~ except_invalid columns3 (convert columns3 (fun s => called (astype "datetime64[ns]" s)) dataframe) ;;
  (* datetime offset *)
  columns4 <~ where_schema schema
    (fun c => category_is "date_time" c && String.eqb (sql_type c) "datetimeoffset") convert_ ;;
  dataframe <~ except_invalid columns4
    (convert columns4
       (fun s => vs <~ map_result (fun x => called (to_Timestamp x)) (values s) ;;
                 Ok {| dtype := dtype s; values := vs |})
       dataframe) ;;
  (* character string *)
  columns5 <~ where_schema schema (category_is "character string") convert_ ;;
  dataframe <~ except_invalid columns5 (convert columns5 (fun s => called (astype "string" s)) dataframe) ;;
  Ok dataframe.

(** A cell as a number, when it is one ([bool], [int] or [float]). *)
Definition number (x : value) : option Q :=
  match x with
  | Bool b => Some (inject_Z (if b then 1 else 0))
  | Int z => Some (inject_Z z)
  | Float q => Some q
  | _ => None
  end.

(** The instant of a timestamp cell: its reading less its UTC offset. *)
Definition instant (ns : Z) (offset : Z) : Z := ns - offset * ns_per_minute.

(** [x < y] between cells: comparisons with a null are false, cells of
    unrelated kinds raise [TypeError]. *)
Definition value_lt (x y : value) : result bool :=
  match x, y with
  | NA, _ | _, NA => Ok false
  | Str a, Str b => Ok (String.ltb a b)
  | Timedelta a, Timedelta b => Ok (a <? b)
  | Timestamp a None, Timestamp b None => Ok (a <? b)
  | Timestamp a (Some oa), Timestamp b (Some ob) => Ok (instant a oa <? instant b ob)
  | _, _ =>
      match number x, number y with
      | Some a, Some b => Ok (negb (Qle_bool b a))
      | _, _ => Raise TypeError
      end
  end.

(** The column aggregates [min] and [max] of [agg]: nulls are skipped, a
    column without values gives a null. *)
Fixpoint agg_best (better : value -> value -> result bool) (xs : list value) (best : value)
  : result value :=
  match xs with
  | [] => Ok best
  | x :: xs' =>
      if notnull x
      then if notnull best
           then b <~ better x best ;; agg_best better xs' (if b then x else best)
           else agg_best better xs' x
      else agg_best better xs' best
  end.
Definition agg_min (xs : list value) : result value := agg_best value_lt xs NA.
Definition agg_max (xs : list value) : result value :=
  agg_best (fun x y => value_lt y x) xs NA.

(** Python's [min(xs)] and [max(xs)] over the cells of a column. *)
Fixpoint builtin_best (better : value -> value -> result bool) (xs : list value) (best : value)
  : result value :=
  match xs with
  | [] => Ok best
  | x :: xs' => b <~ better x best ;; builtin_best better xs' (if b then x else best)
  end.
Definition builtin_min (xs : list value) : result value :=
  match xs with
  | [] => Raise (ValueError "min() arg is an empty sequence" [])
  | x :: xs' => builtin_best value_lt xs' x
  end.
Definition builtin_max (xs : list value) : result value :=
  match xs with
  | [] => Raise (ValueError "max() arg is an empty sequence" [])
  | x :: xs' => builtin_best (fun a b => value_lt b a) xs' x
  end.

(** [series.str.len()] on one cell. *)
Definition str_len (x : value) : value :=
  match x with
  | Str s => Int (Z.of_nat (String.length s))
  | _ => NA
  end.

(** One row of the frame [check]: a column's observed and allowed range. *)
Record Range : Type :=
  { min : value; max : value; min_allowed : value; max_allowed : value }.

(** Raise exception if dataframe value is too large for SQL data type
    specification. *)
Definition check_column_size (dataframe : DataFrame) (schema : Schema) : result unit :=
  let check := columns dataframe in
  let strings := names (filter (fun c => String.eqb (dtype (snd c)) "string") check) in
  '(schema, check) <~
    (if any_name strings
     then
       schema' <~ map_result
         (fun col => c <~ loc col schema ;; Ok (col, with_max_value (Int (column_size c)) c))
         strings ;;
       Ok (fold_left (fun sc r => assign (fst r) (snd r) sc) schema' schema,
           map (fun c => if isin (fst c) strings then (fst c, apply str_len (snd c)) else c) check)
     else Ok (schema, check)) ;;
  let datetimeoffset := index_where (fun c => String.eqb (sql_type c) "datetimeoffset") schema in
  _ <~ map_result (fun col => match lookup col check with
                              | Some s => Ok s
                              | None => Raise (KeyError col)
                              end) datetimeoffset ;;
  let standard := filter (fun c => negb (isin (fst c) datetimeoffset)) check in
  check <~ map_result
    (fun c => lo <~ agg_min (values (snd c)) ;; hi <~ agg_max (values (snd c)) ;;
              Ok (fst c, (lo, hi)))
    standard ;;
  (* calculate min/max for object pd.Timestamp seperately *)
  offsets <~ map_result
    (fun col => s <~ getitem col dataframe ;;
                lo <~ builtin_min (values s) ;; hi <~ builtin_max (values s) ;;
                Ok (col, (lo, hi)))
    datetimeoffset ;;
  let check := check +++ offsets in
  let check :=
    flat_map (fun r => match lookup (fst r) schema with
                       | Some c => [(fst r, {| min := fst (snd r); max := snd (snd r);
                                               min_allowed := minimum c;
                                               max_allowed := maximum c |})]
                       | None => []
                       end) check in
  invalid <~
    match map_result
            (fun r => below <~ value_lt (min (snd r)) (min_allowed (snd r)) ;;
                      above <~ value_lt (max_allowed (snd r)) (max (snd r)) ;;
                      Ok (fst r, below || above))
            check with
    | Raise TypeError => Raise (DataframeColumnInvalidValue [])
    | r => r
    end ;;
  let invalid := names (filter (fun r => snd r) invalid) in
  if (0 <? length invalid)%nat
  then Raise (SQLInsufficientColumnSize invalid)
  else Ok tt.

(** [c] is an ASCII character: the cells of the embedding hold one-byte
    characters, those from 128 up stand for the non-ASCII ones. *)
Definition is_ascii (c : ascii) : bool := (nat_of_ascii c <? 128)%nat.

Fixpoint encode_ascii_ignore (s : string) : string :=
  match s with
  | EmptyString => EmptyString
  | String c s' => if is_ascii c then String c (encode_ascii_ignore s') else encode_ascii_ignore s'
  end.

(** [series.str]: a column of dtype string has the accessor; for a column
    of dtype object or category pandas decides by its cells; for any other
    dtype it raises [AttributeError]. *)
Definition str_accessor {H : Host} (series : Series) : result unit :=
  if String.eqb (dtype series) "string" then Ok tt
  else if isin (dtype series) ["object"; "category"] then called (str_of_object series)
  else Raise (Error "AttributeError" "Can only use .str accessor with string values!").

(** Determine if a string contains unicode. *)
Definition contains_unicode {H : Host} (series : Series) : result bool :=
  _ <~ str_accessor series ;;
  (* check if encodidng removes characeters *)
  Ok (any (map (fun x => match x with
                         | Str s => negb (Nat.eqb (String.length s)
                                                  (String.length (encode_ascii_ignore s)))
                         | _ => false
                         end) (values series))).

(** Raise error if string contains unicode for SQL char/varchar column. *)
Definition check_unicode {H : Host} (dataframe : DataFrame) (schema : Schema) : result unit :=
  let columns := index_where (fun c => isin (sql_type c) ["char"; "varchar"]) schema in
  _ <~ map_result (fun col => s <~ getitem col dataframe ;;
                              check <~ contains_unicode s ;;
                              if check then Raise SQLNonUnicodeTypeColumn else Ok tt)
                  columns ;;
  Ok tt.

(** [pk.sort_values()] followed by [pk[pk.notna()].index]: the key columns
    by ascending sequence. *)
Fixpoint insert_by_seq (k : string * Z) (l : list (string * Z)) : list (string * Z) :=
  match l with
  | [] => [k]
  | k' :: l' => if snd k <? snd k' then k :: l else k' :: insert_by_seq k l'
  end.

Definition primary_key (schema : Schema) : list string :=
  names (fold_right insert_by_seq []
           (flat_map (fun r => match pk_seq (snd r) with
                               | Some q => [(fst r, q)]
                               | None => []
                               end) schema)).

(** Check the contents of the dataframe for the ability to write to the SQL
    table. *)
Definition _precheck_dataframe {H : Host} (schema : Schema) (dataframe : DataFrame)
  : result DataFrame :=
  (* temporarily set dataframe index (primary key) as a column *)
  let index_ := names (index dataframe) in
  let dataframe := if any_name index_ then reset_index dataframe else dataframe in
  (* only apply to columns in dataframe *)
  let schema := filter (fun r => isin (fst r) (names (columns dataframe))) schema in
  dataframe <~ convert_largest_sql_category dataframe schema ;;
  _ <~ check_column_size dataframe schema ;;
  _ <~ check_unicode dataframe schema ;;
  (* convert dataframe based on SQL type *)
  dataframe <~
    match fold_left
            (fun acc r =>
               df <~ acc ;;
               match conversion (snd r) with
               | Some rule => convert [fst r] (fun s => called (astype (pandas_type rule) s)) df
               | None => Raise TypeError
               end)
            schema (Ok dataframe) with
    | Raise TypeError => Raise (DataframeColumnInvalidValue [])
    | r => r
    end ;;
  (* set primary key column as dataframe's index *)
  if any (map (fun r => match pk_seq (snd r) with Some _ => true | None => false end) schema)
  then set_index (primary_key schema) true dataframe
  else Ok dataframe.

(** Get schema of an SQL table and the defined conversion rules between data
    types. *)
Definition get_schema {H : Host} {D : Database} (table_name : string) (dataframe : option DataFrame)
    (additional_columns : option (list string))
  : M session (Schema * option DataFrame) :=
  (* add cataglog for temporary tables *)
  '(schema_name, table_name) <- lift
     match split_dot table_name with
     | [a; b] => Ok (Some a, b)
     | [] | [_] => Ok (None, table_name)
     | _ => Raise (ValueError "too many values to unpack (expected 2)" [])
     end ;;
  let catalog := if startswith "#" table_name then Some "tempdb" else None in
  (* get schema *)
  rows <- run (cursor_columns table_name catalog schema_name) ;;
  (* check for no SQL table *)
  if (length rows =? 0)%nat then raise SQLTableDoesNotExist else
  let present := map column_name rows in
  (* check for missing columns not expected to be in dataframe *)
  match (match additional_columns with
         | Some columns => not_in present columns
         | None => []
         end) with
  | (_ :: _) as missing => raise (SQLColumnDoesNotExist missing)
  | [] =>
  (* check for other missing columns *)
  match (match dataframe with
         | Some df => not_in present (names (columns df))
         | None => []
         end) with
  | (_ :: _) as missing => raise (SQLColumnDoesNotExist missing)
  | [] =>
  (* add primary key info *)
  pk <- run (cursor_primaryKeys table_name catalog) ;;
  let schema := flat_map (merge_primary_key pk) rows in
  (* add conversion rules *)
  let schema := map (fun r => (fst r, add_conversion_rules (snd r))) schema in
  (* key column_name as index, check for undefined conversion rule *)
  let missing := names (filter (fun r => match conversion (snd r) with
                                         | None => true
                                         | Some _ => false
                                         end) schema) in
  if any (map (fun r => match conversion (snd r) with None => true | Some _ => false end) schema)
  then raise (UndefinedConversionRule missing)
  else
  (* check contents of dataframe against SQL schema & convert *)
  match dataframe with
  | Some df => df' <- lift (_precheck_dataframe schema df) ;; ret (schema, Some df')
  | None => ret (schema, None)
  end
  end
  end.

(* ===================================================================== *)
(** ** conversion.py: preparing values for writing *)
(* ===================================================================== *)

(** [for col in cols: rounded = ...; dataframe[col] = rounded;
    prepped[col] = rounded], the rounded column being computed from the two
    tables as they stand. *)
Fixpoint assign_rounded (rounded : DataFrame -> DataFrame -> string -> result Series)
    (cols : list string) (prepped dataframe : DataFrame) : result (DataFrame * DataFrame) :=
  match cols with
  | [] => Ok (prepped, dataframe)
  | col :: cols' =>
      r <~ rounded prepped dataframe col ;;
      assign_rounded rounded cols' (setitem col r prepped) (setitem col r dataframe)
  end.

(** [prepped[cols].astype("str")], [.replace({"NaT": None})] and a final
    treatment [trim] of the text, for the cell [x] of the column [series]. *)
Definition as_text {H : Host} (trim : string -> string) (series : Series) (x : value) : value :=
  let s := astype_str series x in
  if String.eqb s "NaT" then NA else Str (trim s).

Definition render {H : Host} (trim : string -> string) (cols : list string) (prepped : DataFrame)
  : result DataFrame :=
  convert cols (fun s => Ok {| dtype := "object"; values := map (as_text trim s) (values s) |})
    prepped.

(** The flags [test(prepped[dtype]).any()]: one per column, [False] for a
    column without cells. *)
Definition column_flags (test : value -> bool) (cols : list string) (prepped : DataFrame)
  : result (list (string * bool)) :=
  selected <~ getitems cols prepped ;;
  Ok (map (fun c => (fst c, any (map test (values (snd c))))) selected).

(** [flags[flags].index]. *)
Definition flagged (flags : list (string * bool)) : list string :=
  names (filter (fun f => snd f) flags).

(** A selection without rows: none of its columns holds a cell (the columns
    of a table are of one length). *)
Definition without_rows (selected : Frame) : bool :=
  forallb (fun c => match values (snd c) with [] => true | _ :: _ => false end) selected.

(** What [prepped[dtype].apply(lambda x: any(test(x)))] gives: one flag per
    column, and for a selection without rows the selection itself, since
    [DataFrame.apply] does not reduce a table it cannot call the function
    on. *)
Inductive applied : Type :=
| Reduced (flags : list (string * bool))
| Unreduced (selected : Frame).

Definition apply_any (test : value -> bool) (cols : list string) (prepped : DataFrame)
  : result applied :=
  selected <~ getitems cols prepped ;;
  Ok (if without_rows selected
      then Unreduced selected
      else Reduced (map (fun c => (fst c, any (map test (values (snd c))))) selected)).

(** [any(flags)]: over the flags, and over the column names when the flags
    are a table. *)
Definition any_applied (flags : applied) : bool :=
  match flags with
  | Reduced flags => any (map snd flags)
  | Unreduced selected => any_name (names selected)
  end.

(** [list(flags[flags].index)]: the flagged columns, and the row labels,
    none, when the flags are a table without rows that pandas takes as its
    own mask. *)
Definition flagged_index {H : Host} (flags : applied) : result (list string) :=
  match flags with
  | Reduced flags => Ok (flagged flags)
  | Unreduced selected => _ <~ called (masks_itself selected) ;; Ok []
  end.

(** *** prepare_time *)

Definition time_out_of_range (x : value) : bool :=
  match x with
  | Timedelta ns => (Timedelta_kw 1 0 0 0 0 0 0 <=? ns) || (ns <? Timedelta_kw 0 0 0 0 0 0 0)
  | _ => false
  end.

Definition time_truncated (x : value) : bool :=
  match x with
  | Timedelta ns => 0 <? nanoseconds (components ns) mod 100
  | _ => false
  end.

Definition time_rounded (x : value) : value :=
  match x with
  | Timedelta ns =>
      let c := components ns in
      Timedelta (Timedelta_kw (days c) (hours c) (minutes c) (seconds c) 0 (microseconds c)
                   (round_div (nanoseconds c) 100 * 100))
  | _ => x
  end.

Definition time_range_message : string :=
  "are out of range for SQL TIME data type. Allowable range is 00:00:00.0000000-23:59:59.9999999".

(** Prepare time for writting to SQL. *)
Definition prepare_time {H : Host} (schema : Schema) (prepped dataframe : DataFrame)
  : M Log (DataFrame * DataFrame) :=
  let dtype_ := index_where (fun c => String.eqb (sql_type c) "time") schema in
  invalid <- lift (column_flags time_out_of_range dtype_ prepped) ;;
  if any (map snd invalid)
  then raise (ValueError time_range_message (flagged invalid))
  else
    truncation <- (if any_name dtype_
                   then truncation <- lift (apply_any time_truncated dtype_ prepped) ;;
                        lift (flagged_index truncation)
                   else ret []) ;;
    (if any_name truncation then warn (NanosecondRounded "time" truncation) else ret tt) ;;;
    (* round nanosecond to the 7th decimal place ...123456789 -> ...123456800 for SQL *)
    '(prepped, dataframe) <- lift
       (assign_rounded (fun _ df col => s <~ getitem col df ;; Ok (apply time_rounded s))
          truncation prepped dataframe) ;;
    prepped <- (if any_name dtype_
                then lift (render (slice 7 23) dtype_ prepped)
                else ret prepped) ;;
    ret (prepped, dataframe).

(** *** prepare_datetime *)

Definition datetime_adjusted (x : value) : bool :=
  match x with
  | Timestamp ns _ => 0 <? microsecond ns mod 3000
  | _ => false
  end.

Definition increments : list Z := [10; 7; 3; 0].

(** [candidates[np.abs(t - candidates).argmin()]]: the first candidate at the
    least distance. *)
Fixpoint argmin_from (distance : Z -> Z) (candidates : list Z) (best : Z) : Z :=
  match candidates with
  | [] => best
  | c :: cs => argmin_from distance cs (if distance c <? distance best then c else best)
  end.

(** [increments[np.abs(microsecond / 1000 % 10 - increments).argmin(axis=0)]].
    The thousandths [microsecond / 1000 % 10] are kept in microseconds here
    ([microsecond mod 10000]) and the increments scaled by 1000 alike, which
    leaves every comparison of distances as it is. *)
Definition nearest_increment (us : Z) : Z :=
  let thousandths := us mod 10000 in
  match increments with
  | [] => 0
  | c :: cs => argmin_from (fun inc => Z.abs (thousandths - 1000 * inc)) cs c
  end.

(** [microsecond // 10000 * 10 + thousandths]. *)
Definition datetime_milliseconds (us : Z) : Z := us / 10000 * 10 + nearest_increment us.

(** [dataframe[col].dt.floor("s") + milliseconds], cell by cell; [p] is the
    cell of [prepped] the milliseconds come from. *)
Definition datetime_rounded (p d : value) : value :=
  match p, d with
  | Timestamp pns _, Timestamp dns tz =>
      Timestamp (floor_s dns + datetime_milliseconds (microsecond pns) * ns_per_ms) tz
  | _, _ => NA
  end.

Fixpoint map2 {A B C} (f : A -> B -> C) (xs : list A) (ys : list B) : list C :=
  match xs, ys with
  | x :: xs', y :: ys' => f x y :: map2 f xs' ys'
  | _, _ => []
  end.

(** Prepare datetime for writting to SQL. *)
Definition prepare_datetime {H : Host} (schema : Schema) (prepped dataframe : DataFrame)
  : M Log (DataFrame * DataFrame) :=
  let dtype_ := index_where (fun c => String.eqb (sql_type c) "datetime") schema in
  adjust <- (if any_name dtype_
             then lift (apply_any datetime_adjusted dtype_ prepped)
             else ret (Reduced [])) ;;
  '(prepped, dataframe) <-
    (if any_applied adjust
     then
       adjust <- lift (flagged_index adjust) ;;
       warn (MillisecondRounded adjust) ;;;
       (* round millisecond to the 3rd decimal place in approriate increments ...008 -> ..007 for SQL *)
       lift (assign_rounded
               (fun pr df col =>
                  p <~ getitem col pr ;; d <~ getitem col df ;;
                  Ok {| dtype := dtype d;
                        values := map2 datetime_rounded (values p) (values d) |})
               adjust prepped dataframe)
     else ret (prepped, dataframe)) ;;
  prepped <- (if any_name dtype_
              then lift (render (slice 0 27) dtype_ prepped)
              else ret prepped) ;;
  ret (prepped, dataframe).

(** *** prepare_datetime2 *)

Definition timestamp_truncated (x : value) : bool :=
  match x with
  | Timestamp ns _ => 0 <? nanosecond ns mod 100
  | _ => false
  end.

Definition datetime2_rounded (x : value) : value :=
  match x with
  | Timestamp ns _ =>
      Timestamp (Timestamp_with_nanosecond ns (round_div (nanosecond ns) 100 * 100)) None
  | _ => x
  end.

(** Prepare datetime2 for writting to SQL. *)
Definition prepare_datetime2 {H : Host} (schema : Schema) (prepped dataframe : DataFrame)
  : M Log (DataFrame * DataFrame) :=
  let dtype_ := index_where (fun c => String.eqb (sql_type c) "datetime2") schema in
  truncation <- (if any_name dtype_
                 then lift (apply_any timestamp_truncated dtype_ prepped)
                 else ret (Reduced [])) ;;
  '(prepped, dataframe) <-
    (if any_applied truncation
     then
       truncation <- lift (flagged_index truncation) ;;
       warn (NanosecondRounded "datetime2" truncation) ;;;
       (* round nanosecond to the 7th decimal place ...145224193 -> ...145224200 for SQL *)
       lift (assign_rounded
               (fun _ df col => s <~ getitem col df ;;
                                called (astype "datetime64[ns]" (apply datetime2_rounded s)))
               truncation prepped dataframe)
     else ret (prepped, dataframe)) ;;
  prepped <- (if any_name dtype_
              then lift (render (slice 0 27) dtype_ prepped)
              else ret prepped) ;;
  ret (prepped, dataframe).

(** *** prepare_datetimeoffset *)

(** [x.tz_localize("UTC") if x.tzinfo is None else x]. *)
Definition assume_utc (x : value) : value :=
  match x with
  | Timestamp ns None => Timestamp ns (Some 0)
  | _ => x
  end.

Definition datetimeoffset_rounded (x : value) : value :=
  match x with
  | Timestamp ns tz =>
      Timestamp (Timestamp_with_nanosecond ns (round_div (nanosecond ns) 100 * 100)) tz
  | _ => x
  end.

(** The two replacements made on the text of a datetimeoffset cell. *)
Definition datetimeoffset_trim {H : Host} (s : string) : string :=
  (* limit to 7 decimal places *)
  let s := str_replace "(?<=\.\d{7})00" "" s in
  (* include +00:00 where tzinfo is None *)
  str_replace "(?<=\.\d{7})$" "\g<0>+00:00" s.

(** The body of the first loop [for col in dtype] of
    [prepare_datetimeoffset]; [truncation] collects one flag per column. *)
Definition offsets_step (acc : result (DataFrame * DataFrame * list (string * bool)))
    (col : string) : result (DataFrame * DataFrame * list (string * bool)) :=
  '(prepped, dataframe, truncation) <~ acc ;;
  s <~ getitem col dataframe ;;
  (* assume +00:00 UTC if time zone is not set *)
  let s := apply assume_utc s in
  let dataframe := setitem col s dataframe in
  (* apply adjustments to prepped data that will be inserted *)
  let prepped := setitem col s prepped in
  (* check if pandas datatype has greater precision than SQL data type *)
  let extra := any (map timestamp_truncated (values s)) in
  Ok (prepped, dataframe, truncation +++ [(col, extra)]).

(** Prepare datetimeoffset for writing to SQL. *)
Definition prepare_datetimeoffset {H : Host} (schema : Schema) (prepped dataframe : DataFrame)
  : M Log (DataFrame * DataFrame) :=
  let dtype_ := index_where (fun c => String.eqb (sql_type c) "datetimeoffset") schema in
  '(prepped, dataframe, truncation) <- lift
    (fold_left offsets_step dtype_ (Ok (prepped, dataframe, []))) ;;
  '(prepped, dataframe) <-
    (if any (map snd truncation)
     then
       let truncation := flagged truncation in
       warn (NanosecondRounded "datetimeoffset" truncation) ;;;
       (* round nanosecond to the 7th decimal place ...145224193 -> ...145224200 for SQL *)
       lift (assign_rounded
               (fun _ df col => s <~ getitem col df ;; Ok (apply datetimeoffset_rounded s))
               truncation prepped dataframe)
     else ret (prepped, dataframe)) ;;
  prepped <- (if any_name dtype_
              then lift (render datetimeoffset_trim dtype_ prepped)
              else ret prepped) ;;
  ret (prepped, dataframe).

(** *** prepare_numeric *)

(** The body of the loop [for col in dtype] of [prepare_numeric]. *)
Definition numeric_step {H : Host} (schema : Schema) (tables : DataFrame * DataFrame)
    (col : string) : M Log (DataFrame * DataFrame) :=
  let '(prepped, dataframe) := tables in
  (* set a common missing value *)
  s <- lift (getitem col dataframe) ;;
  let s := replace_NA s in
  let dataframe := setitem col s dataframe in
  (* round to correct number of decimal digits *)
  c <- lift (loc col schema) ;;
  let decimal_digits_ := decimal_digits c in
  let rounded := apply (fun x => if notnull x then round_ndigits x decimal_digits_ else x) s in
  rounded <- lift (called (astype (dtype s) rounded)) ;;
  let prepped := setitem col rounded prepped in
  (if negb (Series_equals s rounded)
   then warn (DecimalRounded col decimal_digits_)
   else ret tt) ;;;
  ret (prepped, setitem col rounded dataframe).

(** Prepare numeric & decimal for writting to SQL. *)
Definition prepare_numeric {H : Host} (schema : Schema) (prepped dataframe : DataFrame)
  : M Log (DataFrame * DataFrame) :=
  let dtype_ := index_where (fun c => isin (sql_type c) ["numeric"; "decimal"]) schema in
  for_each dtype_ (numeric_step schema) (prepped, dataframe).

(** *** prepare_values *)

(** [if any(index): df = df.reset_index(); df = df.set_index(index, drop=False)],
    done alike for [prepped] and for [dataframe]. *)
Definition index_as_columns (index_ : list string) (df : DataFrame) : result DataFrame :=
  if any_name index_ then set_index index_ false (reset_index df) else Ok df.

(** Prepare dataframe contents for writting values to SQL. *)
Definition prepare_values {H : Host} (schema : Schema) (dataframe : DataFrame)
  : M Log (DataFrame * list (list value)) :=
  (* create a copy to preserve values in return *)
  let prepped := dataframe in
  (* include index as column as it is the primary key *)
  let index_ := names (index prepped) in
  prepped <- lift (index_as_columns index_ prepped) ;;
  dataframe <- lift (index_as_columns index_ dataframe) ;;
  (* only prepare values currently in dataframe *)
  let schema := filter (fun r => isin (fst r) (names (columns prepped))) schema in
  (* round and truncate values to be the same as SQL *)
  '(prepped, dataframe) <- prepare_time schema prepped dataframe ;;
  '(prepped, dataframe) <- prepare_datetime schema prepped dataframe ;;
  '(prepped, dataframe) <- prepare_datetime2 schema prepped dataframe ;;
  '(prepped, dataframe) <- prepare_datetimeoffset schema prepped dataframe ;;
  '(prepped, dataframe) <- prepare_numeric schema prepped dataframe ;;
  (* reset the index temporarily set as columns for preparing values *)
  dataframe <- lift (if any_name index_ then set_index index_ true dataframe else Ok dataframe) ;;
  (* values for pyodbc cursor executemany *)
  ret (dataframe, tolist prepped).

(** *** prepare_cursor and insert_values *)

(** Prepare cursor data types and size for writting values to SQL. *)
Definition prepare_cursor {D : Database} (schema : Schema) (dataframe : DataFrame) : M session unit :=
  (* insure columns are sorted correctly *)
  let columns_ := names (columns dataframe) in
  let index_ := names (index dataframe) in
  let columns_ := if any_name index_ then index_ +++ columns_ else columns_ in
  sizes <- lift (map_result
                   (fun col => c <~ loc col schema ;;
                               Ok (option_map odbc_type (conversion c), column_size c, decimal_digits c))
                   columns_) ;;
  (* set SQL data type and size for cursor *)
  run (cursor_setinputsizes sizes).

(** [", ".join(["?"] * n)]. *)
Definition placeholders (n : nat) : string := join ", " (repeat "?" n).

(** The text of the INSERT statement. *)
Definition insert_statement (table insert params : string) : string :=
  join LF
    [ "";
      "    INSERT INTO";
      "    " ++ table ++ " (";
      "        " ++ insert;
      "    ) VALUES (";
      "        " ++ params;
      "    )";
      "    " ].

(** Insert values from a dataframe into an SQL table. *)
Definition insert_values {H : Host} {D : Database} (table_name : string) (dataframe : DataFrame)
    (include_metadata_timestamps : bool) (schema : Schema)
  : M (session * Log) DataFrame :=
  (* column names from dataframe contents *)
  let columns_ :=
    if any_name (names (index dataframe))
    then names (index dataframe) +++ names (columns dataframe)
    else names (columns dataframe) in
  (* dynamic SQL object names *)
  table <- on_fst (run (escape table_name)) ;;
  columns_ <- on_fst (run (escape_all columns_)) ;;
  (* prepare values of dataframe for insert *)
  '(dataframe, values_) <- on_snd (prepare_values schema dataframe) ;;
  (* prepare cursor for input data types and sizes *)
  on_fst (prepare_cursor schema dataframe) ;;;
  (* issue insert statement *)
  let insert := if include_metadata_timestamps
                then "_time_insert, " ++ join ", " columns_
                else join ", " columns_ in
  let params := if include_metadata_timestamps
                then "GETDATE(), " ++ placeholders (length columns_)
                else placeholders (length columns_) in
  on_fst (run (cursor_executemany (insert_statement table insert params) values_)) ;;;
  on_fst (run cursor_commit) ;;;
  (* values that may be altered to conform to SQL precision limitations *)
  ret dataframe.

(* ===================================================================== *)
(** ** write/merge.py *)
(* ===================================================================== *)

(** [[str(x) for x in list(range(0, len(columns)))]]. *)
Definition alias {A} (columns : list A) : list string := map str (range (length columns)).

(** The basic merge syntax (lines 69-88) with its fields filled in. *)
Definition statement_format
    (declare match_syntax update_syntax insert_syntax insert_values delete_syntax
       parameters values : string) : string :=
  join LF
    [ "";
      "            DECLARE @SQLStatement AS NVARCHAR(MAX);";
      "            DECLARE @TableName SYSNAME = ?;";
      "            DECLARE @TableTemp SYSNAME = ?;";
      "            " ++ declare;
      "";
      "            SET @SQLStatement =";
      "            N' MERGE '+QUOTENAME(@TableName)+' AS _target '";
      "            +' USING '+QUOTENAME(@TableTemp)+' AS _source '";
      "            +' ON ('+" ++ match_syntax ++ "+') '";
      "            +' WHEN MATCHED THEN UPDATE SET '+" ++ update_syntax;
      "            +' WHEN NOT MATCHED THEN INSERT ('+" ++ insert_syntax ++ "+')'";
      "            +' VALUES ('+" ++ insert_values ++ "+')'";
      "            +" ++ delete_syntax ++ "+';'";
      "";
      "            EXEC sp_executesql";
      "                @SQLStatement,";
      "                N'@TableName SYSNAME, @TableTemp SYSNAME, " ++ parameters ++ "',";
      "                @TableName=@TableName, @TableTemp=@TableTemp, " ++ values ++ ";";
      "        " ].

(** Lines 99-180 of [merge]: the statement text for the given column lists. *)
Definition merge_statement (include_metadata_timestamps upsert : bool)
    (match_columns update_columns insert_columns : list string)
    (delete_requires : option (list string)) : string :=
  (* alias columns to prevent direct input into SQL string *)
  let alias_match := alias match_columns in
  let alias_update := alias update_columns in
  let alias_insert := alias insert_columns in
  let alias_conditions :=
    match delete_requires with
    | None => []
    | Some delete_requires => alias delete_requires
    end in
  (* declare SQL variables *)
  let declare :=
    map (fun x => "DECLARE @Match_" ++ x ++ " SYSNAME = ?;") alias_match
    +++ map (fun x => "DECLARE @Update_" ++ x ++ " SYSNAME = ?;") alias_update
    +++ map (fun x => "DECLARE @Insert_" ++ x ++ " SYSNAME = ?;") alias_insert
    +++ map (fun x => "DECLARE @Subset_" ++ x ++ " SYSNAME = ?;") alias_conditions in
  let declare := join LF declare in
  (* form match on syntax *)
  let match_syntax := map (fun x => "QUOTENAME(@Match_" ++ x ++ ")") alias_match in
  let match_syntax :=
    join "+' AND '+" (map (fun x => "'_target.'+" ++ x ++ "+'=_source.'+" ++ x) match_syntax) in
  (* form when matched then update syntax *)
  let update_syntax := map (fun x => "QUOTENAME(@Update_" ++ x ++ ")") alias_update in
  let update_syntax := join "+','+" (map (fun x => x ++ "+'=_source.'+" ++ x) update_syntax) in
  let update_syntax :=
    if include_metadata_timestamps
    then "+'_time_update=GETDATE(), '+" ++ update_syntax
    else update_syntax in
  (* form when not matched then insert *)
  let insert_syntax :=
    join "+','+" (map (fun x => "QUOTENAME(@Insert_" ++ x ++ ")") alias_insert) in
  let insert_values :=
    join "+','+" (map (fun x => "'_source.'+QUOTENAME(@Insert_" ++ x ++ ")") alias_insert) in
  let insert_syntax :=
    if include_metadata_timestamps then "+'_time_insert, '+" ++ insert_syntax else insert_syntax in
  let insert_values :=
    if include_metadata_timestamps then "+'GETDATE(), '+" ++ insert_values else insert_values in
  (* form when not matched by source then delete condition syntax *)
  let delete_syntax :=
    if negb upsert
    then
      let conditions_syntax :=
        map (fun x => "'AND _target.'+QUOTENAME(@Subset_" ++ x
                      ++ ")+' IN (SELECT '+QUOTENAME(@Subset_" ++ x
                      ++ ")+' FROM '+QUOTENAME(@TableTemp)+')'") alias_conditions in
      let conditions_syntax := join " + " conditions_syntax in
      "' WHEN NOT MATCHED BY SOURCE '+" ++ conditions_syntax ++ "+' THEN DELETE'"
    else "''" in
  (* parameters for sp_executesql *)
  let parameters :=
    map (fun x => "@Match_" ++ x ++ " SYSNAME") alias_match
    +++ map (fun x => "@Update_" ++ x ++ " SYSNAME") alias_update
    +++ map (fun x => "@Insert_" ++ x ++ " SYSNAME") alias_insert
    +++ map (fun x => "@Subset_" ++ x ++ " SYSNAME") alias_conditions in
  let parameters := join ", " parameters in
  (* values for sp_executesql *)
  let values :=
    map (fun x => "@Match_" ++ x ++ "=@Match_" ++ x) alias_match
    +++ map (fun x => "@Update_" ++ x ++ "=@Update_" ++ x) alias_update
    +++ map (fun x => "@Insert_" ++ x ++ "=@Insert_" ++ x) alias_insert
    +++ map (fun x => "@Subset_" ++ x ++ "=@Subset_" ++ x) alias_conditions in
  let values := join ", " values in
  (* set final SQL string *)
  statement_format declare match_syntax update_syntax insert_syntax insert_values delete_syntax
    parameters values.

(** Lines 183-197: the values bound to the statement's parameters. *)
Definition merge_args (table_name temp_name : string)
    (match_columns update_columns insert_columns : list string)
    (delete_requires : option (list string)) : list string :=
  match delete_requires with
  | None =>
      [table_name; temp_name] +++ match_columns +++ update_columns +++ insert_columns
  | Some delete_requires =>
      [table_name; temp_name] +++ match_columns +++ update_columns +++ insert_columns
      +++ delete_requires
  end.

(** Merge a dataframe into an SQL table by updating, inserting, and/or
    deleting rows using Transact-SQL MERGE. *)
Definition merge {D : Database} (include_metadata_timestamps : bool)
    (table_name : string) (dataframe : DataFrame) (match_columns : option (list string))
    (upsert : bool) (delete_requires : option (list string))
  : M (session * Log) DataFrame :=
  (* check inputs *)
  if (match delete_requires with Some _ => true | None => false end) && upsert
  then raise (ValueError "delete_requires can only be specified if upsert==False" [])
  else
    (* get target table schema, while checking for errors and adjusting data for inserting *)
    let additional_columns :=
      if include_metadata_timestamps then Some ["_time_update"; "_time_insert"] else None in
    '(schema, dataframe, match_columns, temp_name) <-
      _source_table table_name dataframe match_columns additional_columns ;;
    (* if matched, update all columns in dataframe besides match_columns *)
    let update_columns := not_in match_columns (names (columns dataframe)) in
    (* if not matched, insert all columns in dataframe *)
    let insert_columns :=
      if any_name (names (index dataframe))
      then names (index dataframe) +++ names (columns dataframe)
      else names (columns dataframe) in
    let statement :=
      merge_statement include_metadata_timestamps upsert match_columns update_columns
        insert_columns delete_requires in
    let args :=
      merge_args table_name temp_name match_columns update_columns insert_columns
        delete_requires in
    (* execute statement to perform update in target table using source *)
    on_fst (run (cursor_execute statement args)) ;;;
    temp_name <- on_fst (run (escape temp_name)) ;;
    on_fst (run (cursor_execute ("DROP TABLE " ++ temp_name) [])) ;;;
    on_fst (run cursor_commit) ;;;
    ret dataframe.

(* ===================================================================== *)
(** ** Stand-ins for the collaborators, for closed examples *)
(* ===================================================================== *)

(** [n] in decimal, padded with zeros to [width] digits. *)
Definition digits (width : nat) (n : Z) : string :=
  let s := str n in
  String.concat "" (repeat "0" (width - String.length s)) ++ s.

(** The clock reading [HH:MM:SS] of a nanosecond count and its fraction:
    nothing when it is zero, six digits when it has no nanoseconds, nine
    otherwise. *)
Definition clock_text (ns : Z) : string :=
  let c := components ns in
  digits 2 (hours c) ++ ":" ++ digits 2 (minutes c) ++ ":" ++ digits 2 (seconds c)
  ++ (if ns mod ns_per_s =? 0 then ""
      else if nanoseconds c =? 0 then "." ++ digits 6 (ns mod ns_per_s / ns_per_us)
      else "." ++ digits 9 (ns mod ns_per_s)).

(** The civil date of a day count from 1970-01-01. *)
Definition civil_text (day : Z) : string :=
  let z := day + 719468 in
  let era := z / 146097 in
  let doe := z mod 146097 in
  let yoe := (doe - doe / 1460 + doe / 36524 - doe / 146096) / 365 in
  let doy := doe - (365 * yoe + yoe / 4 - yoe / 100) in
  let mp := (5 * doy + 2) / 153 in
  let d := doy - (153 * mp + 2) / 5 + 1 in
  let m := if mp <? 10 then mp + 3 else mp - 9 in
  let y := yoe + era * 400 + (if m <=? 2 then 1 else 0) in
  digits 4 y ++ "-" ++ digits 2 m ++ "-" ++ digits 2 d.

(** The text of a UTC offset in minutes. *)
Definition offset_text (offset : Z) : string :=
  (if offset <? 0 then "-" else "+")
  ++ digits 2 (Z.abs offset / 60) ++ ":" ++ digits 2 (Z.abs offset mod 60).

(** The text of a cell on its own, as [str(x)] gives it. *)
Definition cell_text (x : value) : string :=
  match x with
  | NA => "NaT"
  | Bool true => "True"
  | Bool false => "False"
  | Int z => str z
  | Float q => "nan"
  | Str s => s
  | Timedelta ns =>
      str (days (components ns)) ++ (if ns <? 0 then " days +" else " days ") ++ clock_text ns
  | Timestamp ns tz =>
      civil_text (ns / ns_per_day) ++ " " ++ clock_text ns
      ++ match tz with Some offset => offset_text offset | None => "" end
  end.

(** Every timedelta or timestamp among [xs] is a multiple of [unit]. *)
Definition multiples_of (unit : Z) (xs : list value) : bool :=
  forallb (fun x => match x with
                    | Timedelta ns | Timestamp ns _ => ns mod unit =? 0
                    | _ => true
                    end) xs.

(** The text of the cell [x] of the column [series] after
    [series.astype("str")].  A column of dtype timedelta64[ns] is written in
    days alone when all its values are whole days; a column of dtype
    datetime64[ns] as dates when all its values are, and otherwise with the
    sub-second digits the column needs: none, three, six or nine.  The cells
    of any other column are written one by one. *)
Definition column_text (series : Series) (x : value) : string :=
  let xs := values series in
  match x with
  | Timedelta ns =>
      if String.eqb (dtype series) "timedelta64[ns]" && multiples_of ns_per_day xs
      then str (days (components ns)) ++ " days"
      else cell_text x
  | Timestamp ns None =>
      if String.eqb (dtype series) "datetime64[ns]"
      then
        if multiples_of ns_per_day xs then civil_text (ns / ns_per_day)
        else
          let c := components ns in
          civil_text (ns / ns_per_day) ++ " "
          ++ digits 2 (hours c) ++ ":" ++ digits 2 (minutes c) ++ ":" ++ digits 2 (seconds c)
          ++ (if negb (multiples_of ns_per_us xs) then "." ++ digits 9 (ns mod ns_per_s)
              else if negb (multiples_of ns_per_ms xs)
                   then "." ++ digits 6 (ns mod ns_per_s / ns_per_us)
              else if negb (multiples_of ns_per_s xs)
                   then "." ++ digits 3 (ns mod ns_per_s / ns_per_ms)
              else "")
      else cell_text x
  | _ => cell_text x
  end.

(** The kinds of cells for which pandas has no [.str] accessor on a column
    of dtype object: numbers alone, booleans alone, timestamps alone or
    timedeltas alone, nulls apart. *)
Definition one_kind_without_text (xs : list value) : bool :=
  let cells := filter notnull xs in
  match cells with
  | [] => false
  | _ :: _ =>
      forallb (fun x => match x with Int _ | Float _ => true | _ => false end) cells
      || forallb (fun x => match x with Bool _ => true | _ => false end) cells
      || forallb (fun x => match x with Timestamp _ _ => true | _ => false end) cells
      || forallb (fun x => match x with Timedelta _ => true | _ => false end) cells
  end.

(** [round(x, ndigits)] for a number cell, half to even, done exactly. *)
Definition round_exactly (x : value) (ndigits : Z) : value :=
  match x with
  | Float q =>
      let scaled := Qmult q (inject_Z (10 ^ ndigits)) in
      let n := Qnum scaled in
      let d := Zpos (Qden scaled) in
      let k := n / d in
      let r := n mod d in
      let rounded := if 2 * r <? d then k
                     else if d <? 2 * r then k + 1
                     else if Z.even k then k else k + 1 in
      Float (Qmake rounded (Z.to_pos (10 ^ ndigits)))
  | _ => x
  end.

(** A host that casts by renaming the dtype, renders cells with
    [column_text], refuses a table of timedeltas without rows as a mask of
    itself, has the [.str] accessor of a column of dtype object unless its
    cells are of one kind without text, rounds exactly and leaves texts as
    they are where the source asks for a replacement by regular
    expression. *)
Definition plain_host : Host :=
  {| astype := fun dtype_ s => inr {| dtype := dtype_; values := values s |};
     astype_str := column_text;
     masks_itself := fun selected =>
       if existsb (fun c => String.eqb (dtype (snd c)) "timedelta64[ns]") selected
       then inl ForeignTypeError
       else inr tt;
     str_of_object := fun series =>
       if one_kind_without_text (values series)
       then inl (ForeignError "AttributeError"
                   "Can only use .str accessor with string values!")
       else inr tt;
     round_ndigits := round_exactly;
     str_replace := fun _ _ s => s;
     to_Timestamp := fun x => inr x;
     nan_to_None := fun s => s;
     replace_NA := fun s => s |}.

(** What a recording session receives. *)
Inductive event : Type :=
| Execute (statement : string) (args : list string)
| ExecuteMany (statement : string) (rows : list (list value))
| SetInputSizes (sizes : list (option odbc * Z * Z))
| Commit.

(** A database that answers the introspection queries with the given rows,
    quotes names with brackets, stages nothing, and records every statement
    it is sent. *)
Definition recording_database (rows : list ColumnRow) (keys : list KeyRow) : Database :=
  {| session := list event;
     cursor_columns := fun _ _ _ s => (inr rows, s);
     cursor_primaryKeys := fun _ _ s => (inr keys, s);
     cursor_setinputsizes := fun sizes s => (inr tt, s +++ [SetInputSizes sizes]);
     cursor_execute := fun statement args s => (inr tt, s +++ [Execute statement args]);
     cursor_executemany := fun statement values_ s => (inr tt, s +++ [ExecuteMany statement values_]);
     cursor_commit := fun s => (inr tt, s +++ [Commit]);
     escape := fun name s => (inr ("[" ++ name ++ "]"), s);
     escape_all := fun names_ s => (inr (map (fun name => "[" ++ name ++ "]") names_), s);
     _source_table := fun table_name dataframe match_columns _ =>
       ret ([], dataframe,
            match match_columns with Some c => c | None => [] end,
            "##__source_" ++ table_name) |}.

(** Modelled from the spec: the identifier-escaping collaborator
    [escape(session, name_or_names) -> quoted identifier(s)] is handed the
    session, and names are quoted inside the engine.  A database as
    [recording_database], except that each call of [dynamic.escape] on a
    name, or on a list of names that is not empty, executes one statement
    that selects [QUOTENAME(?)] of each name, which the session records.
    The module [dynamic] is not one of the modules embedded here: the text
    of its statement is a stand-in. *)
Definition escaping_database (rows : list ColumnRow) (keys : list KeyRow) : Database :=
  let quote := fun names_ => "SELECT " ++ join ", " (repeat "QUOTENAME(?)" (length names_)) in
  {| session := list event;
     cursor_columns := fun _ _ _ s => (inr rows, s);
     cursor_primaryKeys := fun _ _ s => (inr keys, s);
     cursor_setinputsizes := fun sizes s => (inr tt, s +++ [SetInputSizes sizes]);
     cursor_execute := fun statement args s => (inr tt, s +++ [Execute statement args]);
     cursor_executemany := fun statement values_ s =>
                             (inr tt, s +++ [ExecuteMany statement values_]);
     cursor_commit := fun s => (inr tt, s +++ [Commit]);
     escape := fun name s => (inr ("[" ++ name ++ "]"), s +++ [Execute (quote [name]) [name]]);
     escape_all := fun names_ s =>
                     match names_ with
                     | [] => (inr [], s)
                     | _ :: _ => (inr (map (fun name => "[" ++ name ++ "]") names_),
                                  s +++ [Execute (quote names_) names_])
                     end;
     _source_table := fun table_name dataframe match_columns _ =>
       ret ([], dataframe,
            match match_columns with Some c => c | None => [] end,
            "##__source_" ++ table_name) |}.

(** A row as [cursor.columns] reports a nullable column of the given type. *)
Definition reported (name type : string) (size : Z) : ColumnRow :=
  {| column_name := name; odbc_data_type := 0; odbc_column_size := size;
     odbc_decimal_digits := None; type_name := type;
     odbc_is_nullable := "YES"; odbc_ss_is_identity := 0 |}.

(** The schema row [get_schema] builds from such a report. *)
Definition described (type : string) (size : Z) : Column :=
  add_conversion_rules
    {| data_type := 0; column_size := size; decimal_digits := 0; sql_type := type;
       is_nullable := true; ss_is_identity := false; pk_seq := None; pk_name := None;
       conversion := None |}.

(** A table with the default index. *)
Definition table (cols : Frame) : DataFrame := {| index := []; columns := cols |}.

(* ===================================================================== *)
(** ** Vocabulary of the properties *)
(* ===================================================================== *)

(** The columns a delete guard names: none when it is absent. *)
Definition guard_columns (delete_requires : option (list string)) : list string :=
  match delete_requires with
  | None => []
  | Some columns => columns
  end.

(** A table holds every column of [cols]. *)
Definition holds (cols : list string) (df : DataFrame) : Prop :=
  forall col, In col cols -> exists s, lookup col (columns df) = Some s.

(** The keys of the schema rows of one SQL type. *)
Definition columns_of_type (type : string) (schema : Schema) : list string :=
  index_where (fun c => String.eqb (sql_type c) type) schema.

(** The table has rows: one of the columns [cols] holds a cell. *)
Definition has_rows (cols : list string) (df : DataFrame) : Prop :=
  exists col s x, In col cols /\ lookup col (columns df) = Some s /\ In x (values s).

(** Some cell of column [col] of [table] meets [test]. *)
Definition flags_column (test : value -> bool) (table : DataFrame) (col : string) : Prop :=
  exists s x, lookup col (columns table) = Some s /\ In x (values s) /\ test x = true.



(** The column [prepare_numeric] assigns for the column [s] under the schema
    row [c]. *)
Definition numeric_rounded {H : Host} (c : Column) (s : Series) : foreign + Series :=
  astype (dtype (replace_NA s))
    (apply (fun x => if notnull x then round_ndigits x (decimal_digits c) else x)
       (replace_NA s)).

(** The exception a result carries, if any, satisfies [P]. *)
Definition raises_only {A} (P : exception -> Prop) (r : result A) : Prop :=
  match r with
  | Raise e => P e
  | Ok _ => True
  end.

Definition not_undefined_rule (e : exception) : Prop :=
  match e with
  | UndefinedConversionRule _ => False
  | _ => True
  end.

(** An exception of the size check that a column other than the one looked
    at may cause. *)
Definition stopped_elsewhere (e : exception) : Prop :=
  match e with
  | TypeError | KeyError _ | ValueError _ _ | DataframeColumnInvalidValue _ => True
  | _ => False
  end.

(** The size check reports [col], unless another column stopped it. *)
Definition reports (col : string) (e : exception) : Prop :=
  match e with
  | SQLInsufficientColumnSize invalid => In col invalid
  | _ => stopped_elsewhere e
  end.

(** A cell of a column of lengths: a null or a length. *)
Definition length_or_null (x : value) : Prop := x = NA \/ exists n, x = Int n /\ 0 <= n.

(** A length below, or above, a bound. *)
Definition length_below (bound : Z) (x : value) : bool :=
  match x with Int n => n <? bound | _ => false end.
Definition length_above (bound : Z) (x : value) : bool :=
  match x with Int n => bound <? n | _ => false end.

(** The cell [x] is no text, or a text of [lo] to [hi] characters. *)
Definition length_within (lo hi : Z) (x : value) : bool :=
  match x with
  | Str t => (lo <=? Z.of_nat (String.length t)) && (Z.of_nat (String.length t) <=? hi)
  | _ => true
  end.

(** The rounded column [col] depends on the columns [col] of the two tables
    alone. *)
Definition local (rounded : DataFrame -> DataFrame -> string -> result Series) : Prop :=
  forall p1 d1 p2 d2 col,
    lookup col (columns p1) = lookup col (columns p2) ->
    lookup col (columns d1) = lookup col (columns d2) ->
    rounded p1 d1 col = rounded p2 d2 col.

(* ===================================================================== *)
(** ** struct: packed binary data *)
(* ===================================================================== *)

(** The format characters the source uses: [h], [H], [i] and [I]. *)
Inductive format_character : Type := fmt_h | fmt_H | fmt_i | fmt_I.

(** The bytes an item takes, the same in standard and in native mode for
    these four characters. *)
Definition item_size (c : format_character) : nat :=
  match c with
  | fmt_h | fmt_H => 2%nat
  | fmt_i | fmt_I => 4%nat
  end.

Definition item_signed (c : format_character) : bool :=
  match c with
  | fmt_h | fmt_i => true
  | fmt_H | fmt_I => false
  end.

(** [sys.byteorder]. *)
Inductive byteorder : Type := little | big.

(** A compiled format.  A leading [<] asks for little-endian items of
    standard size, packed; without it order, size and alignment are the
    machine's ([native]). *)
Record Struct : Type := { native : bool; items : list format_character }.

Definition digit_of (c : ascii) : option nat :=
  let n := nat_of_ascii c in
  if ((48 <=? n) && (n <=? 57))%nat then Some (n - 48)%nat else None.

Definition format_character_of (c : ascii) : option format_character :=
  if Ascii.eqb c "h" then Some fmt_h
  else if Ascii.eqb c "H" then Some fmt_H
  else if Ascii.eqb c "i" then Some fmt_i
  else if Ascii.eqb c "I" then Some fmt_I
  else None.

(** The items of a format string; a decimal count repeats the character
    after it. *)
Fixpoint parse_items (format : string) (count : option nat) : result (list format_character) :=
  match format with
  | EmptyString =>
      match count with
      | None => Ok []
      | Some _ => Raise (Error "struct.error" "repeat count given without format specifier")
      end
  | String c rest =>
      match digit_of c with
      | Some d =>
          parse_items rest (Some (10 * match count with Some n => n | None => 0 end + d)%nat)
      | None =>
          match format_character_of c with
          | Some item =>
              following <~ parse_items rest None ;;
              Ok (repeat item (match count with Some n => n | None => 1%nat end) +++ following)
          | None => Raise (Error "struct.error" "bad char in struct format")
          end
      end
  end.

(** [struct.Struct(format)]. *)
Definition struct_Struct (format : string) : result Struct :=
  match format with
  | String "<" rest =>
      parsed <~ parse_items rest None ;; Ok {| native := false; items := parsed |}
  | _ =>
      parsed <~ parse_items format None ;; Ok {| native := true; items := parsed |}
  end.

(** The pad bytes before an item at [offset]: in native mode an item starts
    at a multiple of its size. *)
Definition padding (s : Struct) (offset : nat) (c : format_character) : nat :=
  if native s
  then ((item_size c - offset mod item_size c) mod item_size c)%nat
  else 0%nat.

Fixpoint size_from (s : Struct) (offset : nat) (cs : list format_character) : nat :=
  match cs with
  | [] => offset
  | c :: cs' => size_from s (offset + padding s offset c + item_size c) cs'
  end.

(** [pattern.size]. *)
Definition struct_size (s : Struct) : nat := size_from s 0 (items s).

(** The number a run of bytes denotes, least significant byte first. *)
Fixpoint unsigned_le (bs : list Byte.byte) : Z :=
  match bs with
  | [] => 0
  | b :: bs' => Z.of_N (Byte.to_N b) + 256 * unsigned_le bs'
  end.

(** The integer an item's bytes denote: two's complement for the signed
    characters. *)
Definition integer (order : byteorder) (c : format_character) (bs : list Byte.byte) : Z :=
  let u := unsigned_le (match order with little => bs | big => rev bs end) in
  let bits := 8 * Z.of_nat (item_size c) in
  if item_signed c && (2 ^ (bits - 1) <=? u) then u - 2 ^ bits else u.

Fixpoint unpack_from (s : Struct) (order : byteorder) (offset : nat)
    (cs : list format_character) (buffer : list Byte.byte) : list Z :=
  match cs with
  | [] => []
  | c :: cs' =>
      let buffer := skipn (padding s offset c) buffer in
      integer order c (firstn (item_size c) buffer)
      :: unpack_from s order (offset + padding s offset c + item_size c) cs'
           (skipn (item_size c) buffer)
  end.

(** The byte order a format reads with on a machine of order [sys]. *)
Definition order_of (sys : byteorder) (s : Struct) : byteorder :=
  if native s then sys else little.

(** [pattern.unpack(buffer)]. *)
Definition unpack (sys : byteorder) (s : Struct) (buffer : list Byte.byte) : result (list Z) :=
  if (length buffer =? struct_size s)%nat
  then Ok (unpack_from s (order_of sys s) 0 (items s) buffer)
  else Raise (Error "struct.error"
                ("unpack requires a buffer of " ++ str (Z.of_nat (struct_size s)) ++ " bytes")).

(** [struct.unpack(format, buffer)]. *)
Definition struct_unpack (sys : byteorder) (format : string) (buffer : list Byte.byte)
  : result (list Z) :=
  pattern <~ struct_Struct format ;; unpack sys pattern buffer.

(* ===================================================================== *)
(** ** datetime, pytz and float: what the converters build on *)
(* ===================================================================== *)

(** The proleptic Gregorian calendar of [datetime]. *)
Definition is_leap (year : Z) : bool :=
  (year mod 4 =? 0) && (negb (year mod 100 =? 0) || (year mod 400 =? 0)).

Definition days_before_year (year : Z) : Z :=
  let y := year - 1 in
  y * 365 + y / 4 - y / 100 + y / 400.

Definition days_in_month (year month : Z) : Z :=
  if (month =? 2) && is_leap year then 29
  else nth (Z.to_nat month) [-1; 31; 28; 31; 30; 31; 30; 31; 31; 30; 31; 30; 31] 0.

Definition days_before_month (year month : Z) : Z :=
  nth (Z.to_nat month) [-1; 0; 31; 59; 90; 120; 151; 181; 212; 243; 273; 304; 334] 0
  + (if (2 <? month) && is_leap year then 1 else 0).

(** The ordinal of a date, 0001-01-01 being day 1. *)
Definition ymd2ord (year month day : Z) : Z :=
  days_before_year year + days_before_month year month + day.

(** The nanoseconds from 1970-01-01 00:00:00 to a wall-clock reading. *)
Definition wall_clock (year month day hour minute second microsecond nanosecond : Z) : Z :=
  (ymd2ord year month day - ymd2ord 1970 1 1) * ns_per_day
  + Timedelta_kw 0 hour minute second 0 microsecond nanosecond.

(** [pd.Timestamp(year=.., month=.., day=.., hour=.., minute=.., second=..,
    microsecond=.., nanosecond=.., tzinfo=..)], for a nanosecond field within
    0..999: [datetime] refuses fields out of range, pandas a reading or an
    instant outside [Timestamp.min] to [Timestamp.max]. *)
Definition Timestamp_of
    (year month day hour minute second microsecond nanosecond : Z) (tzinfo : option Z)
  : foreign + value :=
  if negb ((1 <=? year) && (year <=? 9999))
  then inl (ForeignValueError "year is out of range")
  else if negb ((1 <=? month) && (month <=? 12))
  then inl (ForeignValueError "month must be in 1..12")
  else if negb ((1 <=? day) && (day <=? days_in_month year month))
  then inl (ForeignValueError "day is out of range for month")
  else if negb ((0 <=? hour) && (hour <=? 23))
  then inl (ForeignValueError "hour must be in 0..23")
  else if negb ((0 <=? minute) && (minute <=? 59))
  then inl (ForeignValueError "minute must be in 0..59")
  else if negb ((0 <=? second) && (second <=? 59))
  then inl (ForeignValueError "second must be in 0..59")
  else if negb ((0 <=? microsecond) && (microsecond <=? 999999))
  then inl (ForeignValueError "microsecond must be in 0..999999")
  else
    let ns := wall_clock year month day hour minute second microsecond nanosecond in
    let utc := match tzinfo with
               | Some offset => instant ns offset
               | None => ns
               end in
    if (Timestamp_min <=? ns) && (ns <=? Timestamp_max)
       && (Timestamp_min <=? utc) && (utc <=? Timestamp_max)
    then inr (Timestamp ns tzinfo)
    else inl (ForeignError "OutOfBoundsDatetime" "Out of bounds nanosecond timestamp").

(** [pytz.FixedOffset(offset)], as the minutes east of UTC it stands for. *)
Definition FixedOffset (offset : Z) : foreign + Z :=
  if 1440 <=? Z.abs offset
  then inl (ForeignValueError "absolute offset is too large")
  else inr offset.

(** [pd.Timedelta(days=.., milliseconds=..)]: the span has to fit 64 bits. *)
Definition Timedelta_of (days_ milliseconds_ : Z) : foreign + Z :=
  let ns := Timedelta_kw days_ 0 0 0 milliseconds_ 0 0 in
  if (- (2 ^ 63 - 1) <=? ns) && (ns <=? 2 ^ 63 - 1)
  then inr ns
  else inl (ForeignError "OverflowError" "Python int too large to convert to C long").

(** [timestamp + timedelta] for a naive timestamp. *)
Definition Timestamp_add (timestamp : value) (ns : Z) : foreign + value :=
  match timestamp with
  | Timestamp t tz =>
      if (Timestamp_min <=? t + ns) && (t + ns <=? Timestamp_max)
      then inr (Timestamp (t + ns) tz)
      else inl (ForeignError "OutOfBoundsDatetime" "Out of bounds nanosecond timestamp")
  | _ => inl ForeignTypeError
  end.

(** The binary64 number nearest to the real [n / d], for [n] and [d]
    positive and the quotient in the normal range: 53 significant bits, a tie
    going to the even mantissa. *)
Definition binary64_nearest (n d : Z) : Q :=
  let e0 := Z.log2 n - Z.log2 d - 53 in
  let over := if e0 <? 0 then 2 ^ 53 * d <=? n * 2 ^ (- e0) else 2 ^ 53 * (d * 2 ^ e0) <=? n in
  let e := if over then e0 + 1 else e0 in
  if e <? 0
  then Qmake (round_div (n * 2 ^ (- e)) d) (Z.to_pos (2 ^ (- e)))
  else inject_Z (round_div n (d * 2 ^ e) * 2 ^ e).

(** The [float] a decimal literal or an exact result is stored as. *)
Definition binary64 (q : Q) : Q :=
  match Qnum q with
  | 0 => 0%Q
  | Zpos _ => binary64_nearest (Qnum q) (Zpos (Qden q))
  | Zneg p => Qopp (binary64_nearest (Zpos p) (Zpos (Qden q)))
  end.

(** [x * n] for a [float] and an [int]. *)
Definition float_times_int (x : Q) (n : Z) : Q :=
  binary64 (Qmult x (binary64 (inject_Z n))).

(** [round(x)] for a [float]: the nearest integer, a half going to the even
    one. *)
Definition float_round (x : Q) : Z :=
  match Qnum x with
  | Zneg p => - round_div (Zpos p) (Zpos (Qden x))
  | n => round_div n (Zpos (Qden x))
  end.

(* ===================================================================== *)
(** ** conversion.py: reading values *)
(* ===================================================================== *)

(** The ODBC type codes the converters are registered under:
    [pyodbc.SQL_SS_TIME2], [pyodbc.SQL_TYPE_TIMESTAMP] and the literal of
    [convert_datetimeoffset]. *)
Definition pyodbc_SQL_SS_TIME2 : Z := -154.
Definition pyodbc_SQL_TYPE_TIMESTAMP : Z := 93.
Definition SQL_SS_TIMESTAMPOFFSET : Z := -155.

(** The pyodbc connection [read_values] is given, the cursor it opens and the
    pandas constructor it calls. *)
Class Connection : Type :=
  { connection : Type;
    (** [connection.add_output_converter(sqltype, func)] *)
    add_output_converter : Z -> (list Byte.byte -> result value) -> connection -> connection;
    (** [cursor.execute(statement, *args).fetchall()] and the names
        [[col[0] for col in cursor.description]] *)
    execute_fetchall : string -> option (list value) ->
                       Call connection (list (list value) * list string);
    (** [pd.Series(vals, dtype=dtype)] *)
    Series_of : list value -> string -> foreign + Series }.

(** [round(3.33333333 * ticks)]. *)
Definition ticks_milliseconds (ticks : Z) : Z :=
  float_round (float_times_int (binary64 (333333333 # 100000000)) ticks).

(** The functions the three [convert_...] functions define and register,
    under the names they have there. *)
Module Converter.

(** Convert SQL time to timedelta: the converter [convert_time] registers. *)
Definition SQL_SS_TIME2 (raw_bytes : list Byte.byte) : result value :=
  pattern <~ struct_Struct "<4hI" ;;
  fields <~ unpack little pattern raw_bytes ;;
  match fields with
  | [hour; minute; second; _; fraction] =>
      Ok (Timedelta (Timedelta_kw 0 hour minute second 0 (fraction / 1000) (fraction mod 1000)))
  | _ => Raise (ValueError "not enough values to unpack" [])
  end.

(** Convert SQL DATETIME2/DATETIME to datetime: the converter
    [convert_timestamp] registers, on a machine of byte order [sys]. *)
Definition SQL_TYPE_TIMESTAMP (sys : byteorder) (raw_bytes : list Byte.byte) : result value :=
  (* DATETIME2 (16 bytes) *)
  if (length raw_bytes =? 16)%nat
  then
    pattern <~ struct_Struct "hHHHHHI" ;;
    fields <~ unpack sys pattern raw_bytes ;;
    match fields with
    | [year; month; day; hour; minute; second; fraction] =>
        called (Timestamp_of year month day hour minute second
                  (fraction / 1000) (fraction mod 1000) None)
    | _ => Raise (ValueError "not enough values to unpack" [])
    end
  (* DATETIME (8 bytes) *)
  else
    pattern <~ struct_Struct "iI" ;;
    fields <~ unpack sys pattern raw_bytes ;;
    match fields with
    | [days_; ticks] =>
        start <~ called (Timestamp_of 1900 1 1 0 0 0 0 0 None) ;;
        span <~ called (Timedelta_of days_ (ticks_milliseconds ticks)) ;;
        called (Timestamp_add start span)
    | _ => Raise (ValueError "not enough values to unpack" [])
    end.

(** Convert SQL datetimeoffset to datetime with timezone: the converter
    [convert_datetimeoffset] registers. *)
Definition SQL_TYPE_DATETIMEOFFSET (raw_bytes : list Byte.byte) : result value :=
  fields <~ struct_unpack little "<6hI2h" raw_bytes ;;
  match fields with
  | [year; month; day; hour; minute; second; fraction; offset_hour; offset_minute] =>
      tzinfo <~ called (FixedOffset (offset_hour * 60 + offset_minute)) ;;
      called (Timestamp_of year month day hour minute second
                (fraction / 1000) (fraction mod 1000) (Some tzinfo))
  | _ => Raise (ValueError "not enough values to unpack" [])
  end.

End Converter.

Definition convert_time {C : Connection} (c : connection) : connection :=
  add_output_converter pyodbc_SQL_SS_TIME2 Converter.SQL_SS_TIME2 c.

Definition convert_timestamp {C : Connection} (sys : byteorder) (c : connection) : connection :=
  add_output_converter pyodbc_SQL_TYPE_TIMESTAMP (Converter.SQL_TYPE_TIMESTAMP sys) c.

Definition convert_datetimeoffset {C : Connection} (c : connection) : connection :=
  add_output_converter SQL_SS_TIMESTAMPOFFSET Converter.SQL_TYPE_DATETIMEOFFSET c.

(** Prepare connection by adding output converters for data types directly
    to a pandas data type. *)
Definition prepare_connection {C : Connection} (sys : byteorder) (c : connection) : connection :=
  let c := convert_time c in
  let c := convert_timestamp sys c in
  let c := convert_datetimeoffset c in
  c.

(** What [read_values] raises: its own two exceptions, with the literal part
    of the message and the interpolated list apart, or one handed on. *)
Inductive read_exception : Type :=
| AttributeError (message : string) (columns : list string)
| KeyError_of (message : string) (keys : list string)
| Raised (e : exception).

(** [row[idx]]. *)
Definition row_item (idx : nat) (row : list value) : result value :=
  match nth_error row idx with
  | Some x => Ok x
  | None => Raise (Error "IndexError" "tuple index out of range")
  end.

(** [enumerate(xs)]. *)
Definition enumerate {A} (xs : list A) : list (nat * A) := combine (seq 0 (length xs)) xs.

(** Lines 853-872 of [read_values]: the table formed from the fetched rows
    and the names of their columns. *)
Definition form_output {C : Connection} (schema : Schema) (result_ : list (list value))
    (columns_ : list string) : result DataFrame + read_exception :=
  (* form output using SQL schema and explicit pandas types *)
  let absent := map (fun col => negb (isin col (names schema))) columns_ in
  if any absent
  then inr (AttributeError "missing columns from schema: "
              (filter (fun col => negb (isin col (names schema))) columns_))
  else inl (
    dtypes <~ map_result
      (fun col => c <~ loc col schema ;;
                  match conversion c with
                  | Some rule => Ok (col, pandas_type rule)
                  | None => Raise TypeError
                  end) columns_ ;;
    cells <~ map_result
      (fun ic => vals <~ map_result (row_item (fst ic)) result_ ;; Ok (snd ic, vals))
      (enumerate columns_) ;;
    let cells := fold_left (fun d cv => assign (fst cv) (snd cv) d) cells [] in
    series <~ map_result
      (fun cv => match lookup (fst cv) dtypes with
                 | Some dtype_ => s <~ called (Series_of (snd cv) dtype_) ;; Ok (fst cv, s)
                 | None => Raise (KeyError (fst cv))
                 end) cells ;;
    let frame := {| index := []; columns := series |} in
    (* replace missing values in object columns with pandas type *)
    let datetimeoffset := index_where (fun c => String.eqb (sql_type c) "datetimeoffset") schema in
    _ <~ getitems datetimeoffset frame ;;
    Ok frame).

(** Read data from SQL into a pandas dataframe. *)
Definition read_values {C : Connection} (sys : byteorder) (statement : string)
    (schema : Schema) (args : option (list value))
  : connection -> (read_exception + DataFrame) * connection :=
  fun c =>
    (* add output converters *)
    let c := prepare_connection sys c in
    (* read data from SQL *)
    match execute_fetchall statement args c with
    | (inl e, c) => (inl (Raised (reraise e)), c)
    | (inr (result_, columns_), c) =>
        (match form_output schema result_ columns_ with
         | inr e => inl e
         | inl (Raise e) => inl (Raised e)
         | inl (Ok frame) =>
             (* set primary key columns as index *)
             let keys := index_where (fun c => match pk_seq c with
                                               | Some _ => true
                                               | None => false
                                               end) schema in
             match keys with
             | [] => inr frame
             | _ :: _ =>
                 match set_index keys true frame with
                 | Ok indexed => inr indexed
                 | Raise (KeyError _) =>
                     inl (KeyError_of "primary key column missing from query: " keys)
                 | Raise e => inl (Raised e)
                 end
             end
         end, c)
    end.

(* ===================================================================== *)
(** ** Vocabulary of the properties of reading *)
(* ===================================================================== *)

(** [z] is a value of the format character [c]. *)
Definition fits (c : format_character) (z : Z) : Prop :=
  let bits := 8 * Z.of_nat (item_size c) in
  if item_signed c then - 2 ^ (bits - 1) <= z < 2 ^ (bits - 1) else 0 <= z < 2 ^ bits.

(** The nanoseconds into the day of a clock reading with its fraction of a
    second in nanoseconds. *)
Definition time_of_day (hour minute second fraction : Z) : Z :=
  hour * ns_per_hour + minute * ns_per_minute + second * ns_per_s + fraction.

(** The key columns of a schema, in the order of its rows. *)
Definition key_columns (schema : Schema) : list string :=
  index_where (fun c => match pk_seq c with Some _ => true | None => false end) schema.

(** [read_values] does not return a table. *)
Definition fails {A B} (r : A + B) : Prop :=
  match r with
  | inl _ => True
  | inr _ => False
  end.

(** A connection that answers every statement with the given rows and column
    names, builds a column by naming its dtype, and records the type codes
    converters were registered for. *)
Definition canned_connection (rows : list (list value)) (description : list string)
  : Connection :=
  {| connection := list Z;
     add_output_converter := fun sqltype _ c => c +++ [sqltype];
     execute_fetchall := fun _ _ c => (inr (rows, description), c);
     Series_of := fun vals dtype_ => inr {| dtype := dtype_; values := vals |} |}.

(** The schema row of a key column: [c] with its place in the primary key. *)
Definition keyed (seq : Z) (name : string) (c : Column) : Column :=
  {| data_type := data_type c; column_size := column_size c;
     decimal_digits := decimal_digits c; sql_type := sql_type c;
     is_nullable := false; ss_is_identity := ss_is_identity c;
     pk_seq := Some seq; pk_name := Some name; conversion := conversion c |}.

(* ===================================================================== *)
(** ** Vocabulary of the further properties *)
(* ===================================================================== *)

(** The occurrences of the character [c] in [s]. *)
Fixpoint count_char (c : ascii) (s : string) : nat :=
  match s with
  | EmptyString => 0%nat
  | String c' s' => ((if Ascii.eqb c c' then 1 else 0) + count_char c s')%nat
  end.

(** Every character of [s] is an ASCII character. *)
Definition all_ascii (s : string) : Prop :=
  forall c, In c (list_ascii_of_string s) -> is_ascii c = true.

(** The columns [check_unicode] looks at. *)
Definition non_unicode_columns (schema : Schema) : list string :=
  index_where (fun c => isin (sql_type c) ["char"; "varchar"]) schema.

(** The SQL types [get_schema] joins a rule to: the keys of [rules] and the
    identity designation of [int]. *)
Definition registry_types : list string := "int identity" :: names rules.

(** The schema rows [get_schema] forms from the rows of [cursor.columns] and
    of [cursor.primaryKeys]. *)
Definition joined_schema (pk : list KeyRow) (rows : list ColumnRow) : Schema :=
  map (fun r => (fst r, add_conversion_rules (snd r))) (flat_map (merge_primary_key pk) rows).

(** Two tables with the same index and the same column names, in order. *)
Definition same_frame (a b : DataFrame) : Prop :=
  index a = index b /\ names (columns a) = names (columns b).

(** The names [insert_values] and [prepare_cursor] list for a table: the
    named index levels, then the columns. *)
Definition value_columns (df : DataFrame) : list string :=
  if any_name (names (index df))
  then names (index df) +++ names (columns df)
  else names (columns df).

(** The schema rows that have a place in the primary key, each with its
    [pk_seq], in the order of the schema. *)
Definition key_sequence (schema : Schema) : list (string * Z) :=
  flat_map (fun r => match pk_seq (snd r) with
                     | Some q => [(fst r, q)]
                     | None => []
                     end) schema.

(** Key columns in ascending sequence. *)
Definition by_seq (a b : string * Z) : Prop := snd a <= snd b.

(** Neither of the two errors [get_schema] raises about the table itself. *)
Definition not_about_table (e : exception) : Prop :=
  match e with
  | SQLTableDoesNotExist | SQLColumnDoesNotExist _ => False
  | _ => True
  end.

(* ===================================================================== *)
(** ** Sequencing *)
(* ===================================================================== *)

Lemma bind_ok {S A B} (m : M S A) (k : A -> M S B) s a s' :
  m s = (Ok a, s') -> bind m k s = k a s'.
Proof. unfold bind. now intros ->. Qed.

Lemma bind_raise {S A B} (m : M S A) (k : A -> M S B) s e s' :
  m s = (Raise e, s') -> bind m k s = (Raise e, s').
Proof. unfold bind. now intros ->. Qed.

Lemma bind_inv {S A B} (m : M S A) (k : A -> M S B) s b s' :
  bind m k s = (Ok b, s') -> exists a s1, m s = (Ok a, s1) /\ k a s1 = (Ok b, s').
Proof.
  unfold bind. destruct (m s) as [[a|e] s1]; intros E; [eauto | discriminate].
Qed.

Lemma lift_ok {S A} (r : result A) (a : A) (s : S) : r = Ok a -> lift r s = (Ok a, s).
Proof. now intros ->. Qed.

Lemma lift_inv {S A} (r : result A) (a : A) (s s' : S) :
  lift r s = (Ok a, s') -> r = Ok a /\ s' = s.
Proof. unfold lift. intros E. inversion E. auto. Qed.

Lemma ret_inv {S A} (a b : A) (s s' : S) : ret a s = (Ok b, s') -> b = a /\ s' = s.
Proof. unfold ret. intros E. inversion E. auto. Qed.

Lemma on_fst_run {S T A} (c : Call S A) (a : A) (s s' : S) (t : T) :
  c s = (inr a, s') -> on_fst (run c) (s, t) = (Ok a, (s', t)).
Proof. unfold on_fst, run. simpl. now intros ->. Qed.

Lemma on_snd_result {S T A} (m : M T A) (r : result A) (s : S) (t t' : T) :
  m t = (r, t') -> on_snd m (s, t) = (r, (s, t')).
Proof. unfold on_snd. simpl. now intros ->. Qed.

Tactic Notation "invert_bind" hyp(E) "as" ident(a) ident(s) ident(E1) :=
  apply bind_inv in E as [a [s [E1 E]]].


Lemma map_result_in {A B} (f : A -> result B) xs ys x :
  map_result f xs = Ok ys -> In x xs -> exists y, f x = Ok y /\ In y ys.
Proof.
  revert ys. induction xs as [|a xs IH]; simpl; intros ys E I; [contradiction|].
  destruct (f a) as [b|] eqn:F; [|discriminate].
  destruct (map_result f xs) as [l|]; [|discriminate]. inversion E; subst; clear E.
  destruct I as [<-|I].
  - exists b. split; [assumption | now left].
  - destruct (IH _ eq_refl I) as [y [Fy Iy]]. exists y. split; [assumption | now right].
Qed.

Lemma map_result_out {A B} (f : A -> result B) xs ys y :
  map_result f xs = Ok ys -> In y ys -> exists x, f x = Ok y /\ In x xs.
Proof.
  revert ys. induction xs as [|a xs IH]; simpl; intros ys E I.
  - inversion E; subst. contradiction.
  - destruct (f a) as [b|] eqn:F; [|discriminate].
    destruct (map_result f xs) as [l|]; [|discriminate]. inversion E; subst; clear E.
    destruct I as [<-|I].
    + exists a. split; [assumption | now left].
    + destruct (IH _ eq_refl I) as [x [Fx Ix]]. exists x. split; [assumption | now right].
Qed.

(* ===================================================================== *)
(** ** Ordered mappings *)
(* ===================================================================== *)

Lemma lookup_assign_same {A} (k : string) (v : A) (l : list (string * A)) :
  lookup k (assign k v l) = Some v.
Proof.
  induction l as [|[k' v'] l IH]; simpl.
  - now rewrite String.eqb_refl.
  - destruct (String.eqb k k') eqn:E; simpl.
    + now rewrite String.eqb_refl.
    + now rewrite E.
Qed.

Lemma lookup_assign_other {A} (k k0 : string) (v : A) (l : list (string * A)) :
  k0 <> k -> lookup k0 (assign k v l) = lookup k0 l.
Proof.
  intros N. induction l as [|[k' v'] l IH]; simpl.
  - destruct (String.eqb_spec k0 k); [contradiction | reflexivity].
  - destruct (String.eqb_spec k k'); simpl.
    + subst k'. destruct (String.eqb_spec k0 k); [contradiction | reflexivity].
    + now rewrite IH.
Qed.

Lemma lookup_app_one {A} (l : list (string * A)) k k0 v0 :
  lookup k (l +++ [(k0, v0)])
  = match lookup k l with
    | Some x => Some x
    | None => if String.eqb k k0 then Some v0 else None
    end.
Proof.
  induction l as [|[k' v'] l IH]; simpl; [reflexivity|].
  destruct (String.eqb k k'); auto.
Qed.

Lemma lookup_In {A} (l : list (string * A)) k v : lookup k l = Some v -> In (k, v) l.
Proof.
  induction l as [|[k' v'] l IH]; simpl; intros E; [discriminate|].
  destruct (String.eqb_spec k k') as [->|Ne]; [inversion E; now left | right; auto].
Qed.

Lemma lookup_None {A} (l : list (string * A)) k : lookup k l = None <-> ~ In k (names l).
Proof.
  induction l as [|[k' v'] l IH]; simpl; [tauto|].
  destruct (String.eqb_spec k k') as [->|Ne].
  - split; [discriminate | intros X; exfalso; apply X; now left].
  - rewrite IH. split; [intros X [E|I]; [congruence | contradiction] | tauto].
Qed.

Lemma lookup_In_NoDup {A} (l : list (string * A)) k v :
  NoDup (names l) -> In (k, v) l -> lookup k l = Some v.
Proof.
  induction l as [|[k' v'] l IH]; simpl; intros N I; [contradiction|].
  inversion N as [|? ? Hn N']; subst. destruct I as [E|I].
  - inversion E; subst. now rewrite String.eqb_refl.
  - destruct (String.eqb_spec k k') as [->|Ne]; [|auto].
    exfalso. apply Hn. unfold names. apply in_map_iff. now exists (k', v).
Qed.

Lemma lookup_rev_NoDup {A} (l : list (string * A)) col :
  NoDup (names l) -> lookup col (rev l) = lookup col l.
Proof.
  assert (forall (l1 : list (string * A)) c0 s0,
             lookup col (l1 +++ [(c0, s0)])
             = match lookup col l1 with
               | Some x => Some x
               | None => if String.eqb col c0 then Some s0 else None
               end) as App.
  { induction l1 as [|[k v] l1 IH1]; intros; simpl; [reflexivity|].
    destruct (String.eqb col k); auto. }
  induction l as [|[k v] l IH]; simpl; intros N; [reflexivity|].
  inversion N as [|? ? Hn N']; subst. rewrite App, (IH N').
  destruct (String.eqb_spec col k) as [->|Ne].
  - destruct (lookup k l) eqn:L; [|reflexivity].
    exfalso. apply Hn. clear -L. induction l as [|[k' v'] l IH]; simpl in *; [discriminate|].
    destruct (String.eqb_spec k k'); [now left | right; auto].
  - destruct (lookup col l); reflexivity.
Qed.

Lemma fold_assign_lookup {A} (upd l : list (string * A)) k :
  lookup k (fold_left (fun sc r => assign (fst r) (snd r) sc) upd l)
  = match lookup k (rev upd) with
    | Some v => Some v
    | None => lookup k l
    end.
Proof.
  revert l. induction upd as [|[c v] upd IH]; intros l; simpl; [reflexivity|].
  rewrite IH, lookup_app_one. destruct (lookup k (rev upd)); [reflexivity|].
  destruct (String.eqb_spec k c) as [->|Ne].
  - apply lookup_assign_same.
  - now apply lookup_assign_other.
Qed.

Lemma names_assign_present {A} (l : list (string * A)) k v :
  In k (names l) -> names (assign k v l) = names l.
Proof.
  induction l as [|[k' v'] l IH]; simpl; intros I; [contradiction|].
  destruct (String.eqb_spec k k') as [->|Ne]; simpl; [reflexivity|].
  f_equal. apply IH. destruct I; [congruence | assumption].
Qed.

Lemma names_fold_assign {A} (upd l : list (string * A)) :
  (forall k, In k (names upd) -> In k (names l)) ->
  names (fold_left (fun sc r => assign (fst r) (snd r) sc) upd l) = names l.
Proof.
  revert l. induction upd as [|[c v] upd IH]; intros l Hin; simpl; [reflexivity|].
  rewrite IH.
  - apply names_assign_present. apply Hin. now left.
  - intros k I. rewrite names_assign_present by (apply Hin; now left). apply Hin. now right.
Qed.

Lemma NoDup_names_filter {A} (p : string * A -> bool) (l : list (string * A)) :
  NoDup (names l) -> NoDup (names (filter p l)).
Proof.
  unfold names. induction l as [|[k v] l IH]; simpl; intros N; [constructor|].
  inversion N as [|? ? Hn N']; subst. destruct (p (k, v)); simpl; auto.
  constructor; auto. intros I. apply Hn. apply in_map_iff in I as [[k' v'] [E I]].
  simpl in E. subst k'. apply filter_In in I as [I _]. apply in_map_iff. now exists (k, v').
Qed.

Lemma NoDup_index_where p schema : NoDup (names schema) -> NoDup (index_where p schema).
Proof. apply NoDup_names_filter. Qed.

(* ===================================================================== *)
(** ** Tables *)
(* ===================================================================== *)

Lemma holds_setitem cols col s df : holds cols df -> holds cols (setitem col s df).
Proof.
  intros Hd c Hc. simpl. destruct (String.eqb_spec c col) as [->|N].
  - exists s. apply lookup_assign_same.
  - rewrite lookup_assign_other by assumption. now apply Hd.
Qed.

Lemma holds_incl cols cols' df : incl cols' cols -> holds cols df -> holds cols' df.
Proof. intros I Hd c Hc. apply Hd, I, Hc. Qed.

Lemma getitems_ok cols df :
  holds cols df ->
  exists fr, getitems cols df = Ok fr
             /\ Forall2 (fun col cs => fst cs = col /\ lookup col (columns df) = Some (snd cs)) cols fr.
Proof.
  unfold getitems. induction cols as [|col cols IH]; intros Hd; simpl.
  - exists []. split; [reflexivity | constructor].
  - destruct (Hd col (or_introl eq_refl)) as [s Hs].
    destruct IH as [fr [E F]]. { intros c Hc. apply Hd. now right. }
    unfold getitem at 1. rewrite Hs. simpl. rewrite E.
    exists ((col, s) :: fr). split; [reflexivity|]. constructor; [now split | assumption].
Qed.

Lemma holds_of_getitems cols df fr : getitems cols df = Ok fr -> holds cols df.
Proof.
  unfold getitems. revert fr.
  induction cols as [|c cols IH]; simpl; intros fr E col I; [contradiction|].
  unfold getitem at 1 in E. destruct (lookup c (columns df)) as [s|] eqn:L; simpl in E;
    [|discriminate].
  destruct (map_result _ cols) as [l|] eqn:R; simpl in E; [|discriminate].
  destruct I as [<-|I]; [eauto|]. eapply IH; eauto.
Qed.

Lemma fold_setitem_holds watched converted df :
  holds watched df ->
  holds watched (fold_left (fun d cs => setitem (fst cs) (snd cs) d) converted df).
Proof.
  revert df. induction converted as [|[c s] l IH]; intros df Hd; simpl; [assumption|].
  apply IH. now apply holds_setitem.
Qed.

Lemma fold_setitem_lookup converted df col :
  lookup col (columns (fold_left (fun d cs => setitem (fst cs) (snd cs) d) converted df))
  = match lookup col (rev converted) with
    | Some s => Some s
    | None => lookup col (columns df)
    end.
Proof.
  revert df. induction converted as [|[c s] l IH]; intros df; simpl; [reflexivity|].
  rewrite IH. clear IH.
  assert (forall (l1 : Frame) c0 s0,
             lookup col (l1 +++ [(c0, s0)])
             = match lookup col l1 with
               | Some x => Some x
               | None => if String.eqb col c0 then Some s0 else None
               end) as App.
  { induction l1 as [|[k v] l1 IH1]; intros; simpl; [reflexivity|].
    destruct (String.eqb col k); auto. }
  rewrite App. destruct (lookup col (rev l)); [reflexivity|].
  destruct (String.eqb_spec col c) as [->|Ne].
  - apply lookup_assign_same.
  - now apply lookup_assign_other.
Qed.

Lemma convert_ok cols f df watched :
  holds cols df -> holds watched df -> (forall s, exists s', f s = Ok s') ->
  exists df', convert cols f df = Ok df' /\ holds watched df'.
Proof.
  intros Hd Wd F. unfold convert.
  assert (exists converted,
             map_result (fun col => s <~ getitem col df ;; s' <~ f s ;; Ok (col, s')) cols
             = Ok converted) as [converted E].
  { clear Wd. induction cols as [|col cols IH]; simpl.
    - now exists [].
    - destruct (Hd col (or_introl eq_refl)) as [s Hs].
      unfold getitem at 1. rewrite Hs. simpl. destruct (F s) as [s' Es]. rewrite Es. simpl.
      destruct IH as [l El]. { intros c Hc. apply Hd. now right. }
      rewrite El. eauto. }
  rewrite E. simpl. eexists. split; [reflexivity|]. now apply fold_setitem_holds.
Qed.

(** What [convert] leaves in the table. *)
Lemma convert_spec cols f df df' :
  NoDup cols -> convert cols f df = Ok df' ->
  (forall col, In col cols ->
               exists s s', lookup col (columns df) = Some s /\ f s = Ok s'
                            /\ lookup col (columns df') = Some s')
  /\ (forall col, ~ In col cols -> lookup col (columns df') = lookup col (columns df)).
Proof.
  unfold convert. intros N E.
  destruct (map_result _ cols) as [converted|e] eqn:R; simpl in E; [|discriminate].
  inversion E; subst; clear E.
  assert (names converted = cols
          /\ forall col s', In (col, s') converted ->
                            exists s, lookup col (columns df) = Some s /\ f s = Ok s') as [En Hc].
  { clear N. revert converted R. induction cols as [|c cols IH]; simpl; intros converted R.
    - inversion R. split; [reflexivity | intros ? ? []].
    - unfold getitem at 1 in R. destruct (lookup c (columns df)) as [s|] eqn:L; simpl in R;
        [|discriminate].
      destruct (f s) as [s'|] eqn:F; simpl in R; [|discriminate].
      destruct (map_result _ cols) as [l|] eqn:R'; simpl in R; [|discriminate].
      inversion R; subst; clear R. destruct (IH _ eq_refl) as [En Hc]. split.
      + simpl. now rewrite En.
      + intros col s0 [E|I]; [inversion E; subst; eauto | eauto]. }
  assert (forall col, lookup col converted = None <-> ~ In col cols) as Hnone.
  { intros col. rewrite <- En. clear. induction converted as [|[k v] l IH]; simpl.
    - tauto.
    - destruct (String.eqb_spec col k) as [->|Ne].
      + split; [discriminate | intros X; exfalso; apply X; now left].
      + rewrite IH. split; [intros X [E|I]; [congruence | contradiction] | tauto]. }
  assert (forall col s', lookup col converted = Some s' -> In (col, s') converted) as Hin.
  { clear. induction converted as [|[k v] l IH]; simpl; intros col s' E; [discriminate|].
    destruct (String.eqb_spec col k) as [->|Ne]; [inversion E; now left | right; auto]. }
  split.
  - intros col I. rewrite fold_setitem_lookup, lookup_rev_NoDup by now rewrite En.
    destruct (lookup col converted) as [s'|] eqn:L.
    + destruct (Hc col s' (Hin _ _ L)) as [s [Ls Fs]]. eauto.
    + apply Hnone in L. contradiction.
  - intros col Nin. rewrite fold_setitem_lookup, lookup_rev_NoDup by now rewrite En.
    apply Hnone in Nin. now rewrite Nin.
Qed.

Lemma render_ok `{Host} trim cols df watched :
  holds cols df -> holds watched df ->
  exists df', render trim cols df = Ok df' /\ holds watched df'.
Proof.
  intros Hd Wd. unfold render. apply convert_ok; auto. intros s. eauto.
Qed.

Lemma render_spec `{Host} trim cols df df' col s :
  NoDup cols -> render trim cols df = Ok df' -> In col cols ->
  lookup col (columns df) = Some s ->
  lookup col (columns df')
  = Some {| dtype := "object"; values := map (as_text trim s) (values s) |}.
Proof.
  intros N E I L. destruct (convert_spec _ _ N E) as [Inside _].
  destruct (Inside col I) as [s0 [s' [L0 [F L']]]]. rewrite L in L0. inversion L0; subst.
  inversion F; subst. exact L'.
Qed.

(* ===================================================================== *)
(** ** Column flags *)
(* ===================================================================== *)

Lemma any_true (flags : list bool) : any flags = true <-> In true flags.
Proof.
  unfold any. rewrite existsb_exists. split.
  - intros [b [I E]]. now subst.
  - intros I. now exists true.
Qed.

Lemma any_map_true {A} (test : A -> bool) xs :
  any (map test xs) = true <-> exists x, In x xs /\ test x = true.
Proof.
  rewrite any_true, in_map_iff. split; intros [x [P Q]]; exists x; auto.
Qed.

Lemma any_name_in col cols : In col cols -> col <> "" -> any_name cols = true.
Proof.
  intros I N. unfold any_name. apply existsb_exists. exists col. split; [assumption|].
  unfold truthy. destruct (String.eqb_spec col ""); [contradiction | reflexivity].
Qed.

Lemma in_flagged col (flags : list (string * bool)) :
  In col (flagged flags) <-> In (col, true) flags.
Proof.
  unfold flagged, names. rewrite in_map_iff. split.
  - intros [[c b] [E I]]. simpl in E. subst c. apply filter_In in I as [I T].
    simpl in T. now subst b.
  - intros I. exists (col, true). split; [reflexivity|]. apply filter_In. now split.
Qed.

Lemma names_flags test cols df flags :
  column_flags test cols df = Ok flags -> names flags = cols.
Proof.
  unfold column_flags, getitems. revert flags.
  induction cols as [|col cols IH]; simpl; intros flags E.
  - now inversion E.
  - destruct (getitem col df) as [s|e]; simpl in E; [|discriminate].
    destruct (map_result _ cols) as [fr|e]; simpl in *; [|discriminate].
    inversion E; subst; clear E. simpl. f_equal. now apply IH.
Qed.

Lemma column_flags_ok test cols df :
  holds cols df ->
  exists flags, column_flags test cols df = Ok flags
    /\ Forall2 (fun col f => fst f = col /\
                  exists s, lookup col (columns df) = Some s
                            /\ snd f = any (map test (values s))) cols flags.
Proof.
  intros Hd. destruct (getitems_ok Hd) as [fr [E F]].
  unfold column_flags. rewrite E. simpl. eexists. split; [reflexivity|].
  clear E Hd. induction F as [|col cs cols fr [E1 E2] F IH]; simpl.
  - constructor.
  - constructor; [|exact IH]. simpl. split; [assumption|]. eauto.
Qed.

Lemma holds_of_flags test cols df flags :
  column_flags test cols df = Ok flags -> holds cols df.
Proof.
  unfold column_flags. destruct (getitems cols df) as [fr|] eqn:G; simpl; [|discriminate].
  intros _. eapply holds_of_getitems; eauto.
Qed.

Lemma flags_true test cols df flags col s x :
  column_flags test cols df = Ok flags ->
  In col cols -> lookup col (columns df) = Some s -> In x (values s) -> test x = true ->
  In (col, true) flags.
Proof.
  unfold column_flags, getitems. revert flags.
  induction cols as [|c cols IH]; simpl; intros flags E I L V T; [contradiction|].
  destruct (getitem c df) as [sc|e] eqn:G; simpl in E; [|discriminate].
  destruct (map_result _ cols) as [fr|e] eqn:R; simpl in *; [|discriminate].
  inversion E; subst; clear E. destruct I as [->|I].
  - left. unfold getitem in G. rewrite L in G. inversion G; subst. simpl. f_equal.
    apply any_map_true. eauto.
  - right. eapply IH; eauto. 
Qed.

Lemma flags_false test cols df flags :
  column_flags test cols df = Ok flags ->
  (forall col s x, In col cols -> lookup col (columns df) = Some s -> In x (values s) ->
                   test x = false) ->
  any (map snd flags) = false.
Proof.
  unfold column_flags, getitems. revert flags.
  induction cols as [|c cols IH]; simpl; intros flags E A.
  - inversion E. reflexivity.
  - destruct (getitem c df) as [sc|e] eqn:G; simpl in E; [|discriminate].
    destruct (map_result _ cols) as [fr|e] eqn:R; simpl in *; [|discriminate].
    inversion E; subst; clear E. simpl. apply orb_false_iff. split.
    + unfold getitem in G. destruct (lookup c (columns df)) eqn:L; inversion G; subst.
      destruct (any (map test (values sc))) eqn:T; [|reflexivity].
      apply any_map_true in T as [x [I T]]. rewrite (A c sc x) in T; auto.
    + apply (IH _ eq_refl). intros col s x I. apply A. now right.
Qed.

Lemma flagged_incl test cols df flags :
  column_flags test cols df = Ok flags -> incl (flagged flags) cols.
Proof.
  intros E c I. apply in_flagged in I. rewrite <- (names_flags _ _ _ E).
  unfold names. apply in_map_iff. now exists (c, true).
Qed.

Lemma NoDup_flagged test cols df flags :
  column_flags test cols df = Ok flags -> NoDup cols -> NoDup (flagged flags).
Proof.
  intros E N. unfold flagged. apply NoDup_names_filter.
  now rewrite (names_flags _ _ _ E).
Qed.

Lemma getitems_In cols df fr col s :
  getitems cols df = Ok fr -> In col cols -> lookup col (columns df) = Some s -> In (col, s) fr.
Proof.
  intros G I L. destruct (map_result_in _ _ _ G I) as [y [F Iy]].
  unfold getitem in F. rewrite L in F. cbn [and_then] in F. now injection F as <-.
Qed.

Lemma with_rows selected col s x :
  In (col, s) selected -> In x (values s) -> without_rows selected = false.
Proof.
  intros I Ix. destruct (without_rows selected) eqn:W; [|reflexivity]. exfalso.
  unfold without_rows in W. rewrite forallb_forall in W. specialize (W _ I). cbn [snd] in W.
  destruct (values s); [contradiction | discriminate].
Qed.

Lemma apply_any_rows test cols df :
  has_rows cols df ->
  apply_any test cols df = (flags <~ column_flags test cols df ;; Ok (Reduced flags)).
Proof.
  intros [col [s [x [I [L Ix]]]]]. unfold apply_any, column_flags.
  destruct (getitems cols df) as [selected|] eqn:G; cbn [and_then]; [|reflexivity].
  erewrite with_rows; [reflexivity | eapply getitems_In; eassumption | eassumption].
Qed.


Lemma has_rows_of_flag test df col cols :
  In col cols -> flags_column test df col -> has_rows cols df.
Proof. intros I [s [x [L [Ix _]]]]. exists col, s, x. auto. Qed.

Lemma lift_apply_any_rows test cols df (log log' : Log) flags :
  lift (apply_any test cols df) log = (Ok flags, log') ->
  has_rows cols df ->
  exists reduced, flags = Reduced reduced /\ column_flags test cols df = Ok reduced
                  /\ log' = log.
Proof.
  intros E R. apply lift_inv in E as [E ->]. rewrite (apply_any_rows _ R) in E.
  destruct (column_flags test cols df) as [reduced|]; cbn [and_then] in E; [|discriminate].
  injection E as <-. eauto.
Qed.

Lemma lift_apply_any_ok test cols df (log : Log) reduced :
  column_flags test cols df = Ok reduced -> has_rows cols df ->
  lift (apply_any test cols df) log = (Ok (Reduced reduced), log).
Proof. intros E R. rewrite (apply_any_rows _ R), E. reflexivity. Qed.

(* ===================================================================== *)
(** ** The assignment loop *)
(* ===================================================================== *)

Lemma assign_rounded_ok rounded all watched :
  (forall p d col, In col all -> holds all p -> holds all d -> exists r, rounded p d col = Ok r) ->
  forall cols p d,
    incl cols all -> holds all p -> holds all d -> holds watched p -> holds watched d ->
    exists p' d', assign_rounded rounded cols p d = Ok (p', d')
                  /\ holds all p' /\ holds all d' /\ holds watched p' /\ holds watched d'.
Proof.
  intros R. induction cols as [|col cols IH]; intros p d I Hp Hd Wp Wd; simpl.
  - exists p, d. auto.
  - destruct (R p d col) as [r E]; auto. { apply I. now left. }
    rewrite E. simpl. apply IH.
    + intros c Hc. apply I. now right.
    + now apply holds_setitem.
    + now apply holds_setitem.
    + now apply holds_setitem.
    + now apply holds_setitem.
Qed.

(** What [assign_rounded] leaves in the two tables: the rounded column in both, for each column of the loop, and every other column as it was. *)
Lemma assign_rounded_spec rounded :
  local rounded ->
  forall cols p d p' d',
    NoDup cols ->
    assign_rounded rounded cols p d = Ok (p', d') ->
    (forall col, In col cols ->
                 exists r, rounded p d col = Ok r
                           /\ lookup col (columns p') = Some r
                           /\ lookup col (columns d') = Some r)
    /\ (forall col, ~ In col cols ->
                    lookup col (columns p') = lookup col (columns p)
                    /\ lookup col (columns d') = lookup col (columns d)).
Proof.
  intros L. induction cols as [|c cols IH]; intros p d p' d' N E; simpl in E.
  - inversion E; subst. split; [intros col []|auto].
  - inversion N as [|? ? Hc N']; subst.
    destruct (rounded p d c) as [r|e] eqn:R; simpl in E; [|discriminate].
    destruct (IH _ _ _ _ N' E) as [In_ Out]. split.
    + intros col [<-|I].
      * exists r. destruct (Out c Hc) as [Ep Ed]. simpl in Ep, Ed.
        rewrite lookup_assign_same in Ep, Ed. auto.
      * destruct (In_ col I) as [r' [R' [Ep Ed]]]. exists r'. split; [|auto].
        rewrite <- R'. apply L; simpl; symmetry; apply lookup_assign_other;
          intros ->; contradiction.
    + intros col Hn. destruct (Out col) as [Ep Ed]. { intros I. apply Hn. now right. }
      simpl in Ep, Ed. rewrite lookup_assign_other in Ep, Ed by (intros ->; apply Hn; now left).
      auto.
Qed.

Lemma assign_rounded_first rounded :
  local rounded ->
  forall cols p d p' d' col,
    NoDup cols -> assign_rounded rounded cols p d = Ok (p', d') -> In col cols ->
    exists r, rounded p d col = Ok r
              /\ lookup col (columns p') = Some r /\ lookup col (columns d') = Some r.
Proof.
  intros L cols p d p' d' col N E I.
  destruct (assign_rounded_spec L) with (cols := cols) (p := p) (d := d) (p' := p') (d' := d')
    as [Inside _]; auto.
Qed.

(* ===================================================================== *)
(** ** Which exceptions a computation can raise *)
(* ===================================================================== *)

Section RaisesOnly.
Variable P : exception -> Prop.

Lemma raises_only_and_then {A B} (r : result A) (k : A -> result B) :
  raises_only P r -> (forall a, raises_only P (k a)) -> raises_only P (and_then r k).
Proof. destruct r; simpl; auto. Qed.

Lemma raises_only_map_result {A B} (f : A -> result B) (xs : list A) :
  (forall x, raises_only P (f x)) -> raises_only P (map_result f xs).
Proof.
  intros F. induction xs as [|x xs IH]; simpl; [exact I|].
  specialize (F x). destruct (f x); simpl in *; [|assumption].
  destruct (map_result f xs); simpl in *; auto.
Qed.

Hypothesis P_KeyError : forall k, P (KeyError k).
Hypothesis P_TypeError : P TypeError.
Hypothesis P_ValueError : forall m c, P (ValueError m c).
Hypothesis P_Error : forall c m, P (Error c m).

Lemma raises_only_called {A} (r : foreign + A) : raises_only P (called r).
Proof. destruct r as [[]|]; simpl; auto. Qed.

Lemma raises_only_getitem col df : raises_only P (getitem col df).
Proof. unfold getitem. destruct (lookup col (columns df)); simpl; auto. Qed.

Lemma raises_only_loc col schema : raises_only P (loc col schema).
Proof. unfold loc. destruct (lookup col schema); simpl; auto. Qed.

Lemma raises_only_convert cols f df :
  (forall s, raises_only P (f s)) -> raises_only P (convert cols f df).
Proof.
  intros F. unfold convert. apply raises_only_and_then; [|intros; exact I].
  apply raises_only_map_result. intros col.
  apply raises_only_and_then; [apply raises_only_getitem|]. intros s.
  apply raises_only_and_then; [apply F|]. intros; exact I.
Qed.

Lemma raises_only_where_schema schema p cols : raises_only P (where_schema schema p cols).
Proof.
  unfold where_schema. apply raises_only_and_then; [|intros; exact I].
  apply raises_only_map_result. intros col.
  apply raises_only_and_then; [apply raises_only_loc | intros; exact I].
Qed.

Lemma raises_only_value_lt x y : raises_only P (value_lt x y).
Proof.
  destruct x, y; simpl; auto; try (destruct tzinfo; simpl; auto);
    try (destruct tzinfo0; simpl; auto).
Qed.

Lemma raises_only_agg_best better xs best :
  (forall x y, raises_only P (better x y)) -> raises_only P (agg_best better xs best).
Proof.
  intros B. revert best. induction xs as [|x xs IH]; intros best; simpl; [exact I|].
  destruct (notnull x); [|apply IH]. destruct (notnull best); [|apply IH].
  apply raises_only_and_then; [apply B | intros; apply IH].
Qed.

Lemma raises_only_builtin_best better xs best :
  (forall x y, raises_only P (better x y)) -> raises_only P (builtin_best better xs best).
Proof.
  intros B. revert best. induction xs as [|x xs IH]; intros best; simpl; [exact I|].
  apply raises_only_and_then; [apply B | intros; apply IH].
Qed.

Hypothesis P_invalid : forall c, P (DataframeColumnInvalidValue c).

Lemma raises_only_except_invalid {A} cols (r : result A) :
  raises_only P r -> raises_only P (except_invalid cols r).
Proof. destruct r as [|[]]; simpl; auto. Qed.

Lemma raises_only_convert_largest `{Host} df schema :
  raises_only P (convert_largest_sql_category df schema).
Proof.
  unfold convert_largest_sql_category.
  repeat (apply raises_only_and_then;
          [first [apply raises_only_where_schema
                 |apply raises_only_except_invalid, raises_only_convert; intros s]
          |intros]); try exact I.
  - apply raises_only_and_then; [apply raises_only_called | intros; apply raises_only_called].
  - apply raises_only_called.
  - apply raises_only_called.
  - apply raises_only_and_then; [|intros; exact I].
    apply raises_only_map_result. intros; apply raises_only_called.
  - apply raises_only_called.
Qed.

Hypothesis P_size : forall c, P (SQLInsufficientColumnSize c).

Lemma raises_only_check_column_size df schema :
  raises_only P (check_column_size df schema).
Proof.
  unfold check_column_size.
  apply raises_only_and_then.
  { destruct (any_name _); [|exact I].
    apply raises_only_and_then; [|intros; exact I].
    apply raises_only_map_result. intros col.
    apply raises_only_and_then; [apply raises_only_loc | intros; exact I]. }
  intros [schema' check].
  apply raises_only_and_then.
  { apply raises_only_map_result. intros col. destruct (lookup col check); simpl; auto. }
  intros _.
  apply raises_only_and_then.
  { apply raises_only_map_result. intros c.
    apply raises_only_and_then;
      [apply raises_only_agg_best; intros; apply raises_only_value_lt|intros lo].
    apply raises_only_and_then;
      [apply raises_only_agg_best; intros; apply raises_only_value_lt|intros; exact I]. }
  intros rows.
  apply raises_only_and_then.
  { apply raises_only_map_result. intros col.
    apply raises_only_and_then; [apply raises_only_getitem | intros s].
    apply raises_only_and_then.
    { unfold builtin_min. destruct (values s); simpl; auto.
      apply raises_only_builtin_best; intros; apply raises_only_value_lt. }
    intros lo. apply raises_only_and_then; [|intros; exact I].
    unfold builtin_max. destruct (values s); simpl; auto.
    apply raises_only_builtin_best; intros; apply raises_only_value_lt. }
  intros offsets.
  apply raises_only_and_then.
  { match goal with |- raises_only P (match ?m with _ => _ end) =>
      assert (raises_only P m) as R end.
    { apply raises_only_map_result. intros r.
      apply raises_only_and_then; [apply raises_only_value_lt | intros].
      apply raises_only_and_then; [apply raises_only_value_lt | intros; exact I]. }
    destruct (map_result _ _) as [|[]]; simpl in *; auto. }
  intros invalid. destruct (0 <? _)%nat; simpl; auto.
Qed.

Hypothesis P_unicode : P SQLNonUnicodeTypeColumn.

Lemma raises_only_check_unicode `{Host} df schema : raises_only P (check_unicode df schema).
Proof.
  unfold check_unicode. apply raises_only_and_then; [|intros; exact I].
  apply raises_only_map_result. intros col.
  apply raises_only_and_then; [apply raises_only_getitem | intros s].
  apply raises_only_and_then; [|intros check; destruct check; simpl; auto].
  unfold contains_unicode. apply raises_only_and_then; [|intros; exact I].
  unfold str_accessor. destruct (String.eqb _ _); [exact I|].
  destruct (isin _ _); [apply raises_only_called | simpl; auto].
Qed.

Lemma raises_only_set_index keys drop df : raises_only P (set_index keys drop df).
Proof.
  unfold set_index. apply raises_only_and_then; [|intros; exact I].
  unfold getitems. apply raises_only_map_result. intros col.
  apply raises_only_and_then; [apply raises_only_getitem | intros; exact I].
Qed.

Lemma raises_only_precheck `{Host} schema df : raises_only P (_precheck_dataframe schema df).
Proof.
  unfold _precheck_dataframe.
  apply raises_only_and_then; [apply raises_only_convert_largest | intros df1].
  apply raises_only_and_then; [apply raises_only_check_column_size | intros _].
  apply raises_only_and_then; [apply raises_only_check_unicode | intros _].
  apply raises_only_and_then.
  { match goal with |- raises_only P (match ?m with _ => _ end) =>
      assert (raises_only P m) as R end.
    { assert (raises_only P (Ok df1)) as Ha by exact I.
      revert Ha. generalize (Ok df1) as acc.
      induction (filter _ schema) as [|r l IH]; intros acc Ha; simpl; [assumption|].
      apply IH. apply raises_only_and_then; [assumption | intros df'].
      destruct (conversion (snd r)); [|simpl; apply P_TypeError].
      apply raises_only_convert. intros; apply raises_only_called. }
    destruct (fold_left _ _ _) as [|[]]; simpl in *; auto. }
  intros df2. destruct (any _); [apply raises_only_set_index | exact I].
Qed.

End RaisesOnly.

Lemma precheck_not_undefined_rule `{Host} schema df :
  raises_only not_undefined_rule (_precheck_dataframe schema df).
Proof. apply raises_only_precheck; intros; exact I. Qed.

Lemma stopped_reports col e : stopped_elsewhere e -> reports col e.
Proof. destruct e; simpl; auto; intros []. Qed.

Lemma and_then_raises {A B} (P : exception -> Prop) (r : result A) (k : A -> result B) :
  raises_only stopped_elsewhere r ->
  (forall e, stopped_elsewhere e -> P e) ->
  (forall a, r = Ok a -> exists e, k a = Raise e /\ P e) ->
  exists e, and_then r k = Raise e /\ P e.
Proof.
  intros R Q K. destruct r as [a|e]; simpl in *; [now apply K | eauto].
Qed.

(* ===================================================================== *)
(** ** C1: the statement text is independent of the identifiers *)
(* ===================================================================== *)

Lemma alias_length {A B} (xs : list A) (ys : list B) :
  length xs = length ys -> alias xs = alias ys.
Proof. unfold alias. intros ->. reflexivity. Qed.

Lemma alias_guard (d1 d2 : option (list string)) :
  length (guard_columns d1) = length (guard_columns d2) ->
  match d1 with None => [] | Some c => alias c end
  = match d2 with None => [] | Some c => alias c end.
Proof.
  destruct d1 as [c1|], d2 as [c2|]; simpl; intros E.
  - now apply alias_length.
  - destruct c1; [reflexivity | discriminate].
  - destruct c2; [reflexivity | discriminate].
  - reflexivity.
Qed.

(** C1.  The statement text [merge] emits is assembled from the template and
    from aliases numbered by position, never from an identifier: two calls
    with the same upsert and metadata-timestamp settings, whose match,
    update, insert and delete-guard column lists have pairwise equal lengths,
    emit the same text whatever the table and column names are; the names are
    passed as the bound parameter values only, the two table names first,
    then the columns in the order match, update, insert, delete guard. *)
Theorem merge_statement_ignores_identifiers :
  forall (include_metadata_timestamps upsert : bool)
         (match1 update1 insert1 match2 update2 insert2 : list string)
         (delete1 delete2 : option (list string))
         (table1 temp1 table2 temp2 : string),
    length match1 = length match2 ->
    length update1 = length update2 ->
    length insert1 = length insert2 ->
    length (guard_columns delete1) = length (guard_columns delete2) ->
    merge_statement include_metadata_timestamps upsert match1 update1 insert1 delete1
    = merge_statement include_metadata_timestamps upsert match2 update2 insert2 delete2
    /\ merge_args table1 temp1 match1 update1 insert1 delete1
       = [table1; temp1] +++ match1 +++ update1 +++ insert1 +++ guard_columns delete1.
Proof.
  intros ts up m1 u1 i1 m2 u2 i2 d1 d2 t1 p1 t2 p2 Hm Hu Hi Hd. split.
  - unfold merge_statement.
    rewrite (alias_length m1 m2 Hm), (alias_length u1 u2 Hu), (alias_length i1 i2 Hi).
    rewrite (alias_guard d1 d2 Hd). reflexivity.
  - destruct d1; simpl; [reflexivity|]. now rewrite !app_nil_r.
Qed.

(** Two calls with different names, one of them hostile, emit one text. *)
Lemma merge_statement_ignores_identifiers_witness :
  (length ["id"] = length ["x]; DROP TABLE t; --"]
   /\ length ["name"] = length ["y"]
   /\ length ["id"; "name"] = length ["z"; "w"]
   /\ length (guard_columns (Some ["region"])) = length (guard_columns (Some ["'"])))
  /\ (merge_statement true false ["id"] ["name"] ["id"; "name"] (Some ["region"])
      = merge_statement true false ["x]; DROP TABLE t; --"] ["y"] ["z"; "w"] (Some ["'"])
      /\ merge_args "dbo.tab" "##__source_tab" ["id"] ["name"] ["id"; "name"] (Some ["region"])
         = ["dbo.tab"; "##__source_tab"] +++ ["id"] +++ ["name"] +++ ["id"; "name"]
           +++ guard_columns (Some ["region"])).
Proof.
  split; [repeat split|].
  apply (@merge_statement_ignores_identifiers true false
           ["id"] ["name"] ["id"; "name"] ["x]; DROP TABLE t; --"] ["y"] ["z"; "w"]
           (Some ["region"]) (Some ["'"]) "dbo.tab" "##__source_tab" "dbo.tab" "##__source_tab");
    reflexivity.
Defined.

(** The text and the values [merge] hands to [cursor.execute], read off a
    recording session: the statement of [merge_statement] with the values of
    [merge_args], then the removal of the staging table and the commit. *)
Lemma merge_sends_the_statement :
  forall (rows : list ColumnRow) (keys : list KeyRow)
         (include_metadata_timestamps upsert : bool) (table_name : string)
         (dataframe : DataFrame) (match_columns delete_requires : option (list string))
         (sent : list event) (log : Log),
    (match delete_requires with Some _ => true | None => false end) && upsert = false ->
    let matched := match match_columns with Some c => c | None => [] end in
    let update_columns := not_in matched (names (columns dataframe)) in
    let insert_columns :=
      if any_name (names (index dataframe))
      then names (index dataframe) +++ names (columns dataframe)
      else names (columns dataframe) in
    merge (D := recording_database rows keys) include_metadata_timestamps table_name dataframe
      match_columns upsert delete_requires (sent, log)
    = (Ok dataframe,
       (sent +++ [Execute (merge_statement include_metadata_timestamps upsert matched
                             update_columns insert_columns delete_requires)
                          (merge_args table_name ("##__source_" ++ table_name) matched
                             update_columns insert_columns delete_requires);
                  Execute ("DROP TABLE " ++ "[" ++ "##__source_" ++ table_name ++ "]") [];
                  Commit],
        log)).
Proof.
  intros rows keys ts upsert table_name dataframe match_columns delete_requires sent log G.
  unfold merge. rewrite G. cbv zeta.
  unfold bind, on_fst, run, ret; simpl. rewrite <- !app_assoc. reflexivity.
Qed.

(* ===================================================================== *)
(** ** C2: widening of object columns *)
(* ===================================================================== *)

Lemma rules_categories key r :
  lookup key rules = Some r ->
  In (sql_category r)
     ["boolean"; "exact numeric"; "approximate numeric"; "date time"; "character string"].
Proof.
  unfold rules. cbn [lookup].
  repeat match goal with
         | |- (if ?b then _ else _) = _ -> _ =>
             destruct b; [intros E; injection E as <-; cbn [sql_category In]; tauto|]
         end.
  discriminate.
Qed.

Lemma category_of_joined_row c name :
  In name ["exact_whole_numeric"; "approximate_decimal_numeric"; "date_time"] ->
  category_is name (add_conversion_rules c) = false.
Proof.
  intros I. unfold category_is, category, add_conversion_rules. cbn [conversion].
  destruct (lookup _ rules) as [r|] eqn:L; [|reflexivity].
  apply rules_categories in L. cbn [option_map option_eqb].
  destruct (String.eqb_spec (sql_category r) name) as [E|]; [|reflexivity].
  rewrite E in L.
  destruct I as [<-|[<-|[<-|[]]]];
    (destruct L as [D|[D|[D|[D|[D|[]]]]]]; discriminate).
Qed.

(** C2 (the code departs from the claim).  [convert_largest_sql_category]
    selects the columns to widen by the category names "exact_whole_numeric",
    "approximate_decimal_numeric" and "date_time", while the schema carries
    the categories of [rules], "exact numeric", "approximate numeric" and
    "date time": no schema row joined by [get_schema] belongs to a category
    the widening tests for, and object columns of a tinyint, a float and a
    datetime2 column come back as they went in, unwidened, whatever the host
    does. *)
Theorem object_columns_are_not_widened :
  (forall (c : Column) (name : string),
      In name ["exact_whole_numeric"; "approximate_decimal_numeric"; "date_time"] ->
      category_is name (add_conversion_rules c) = false)
  /\ forall H : Host,
      let schema := [("n", described "tinyint" 3); ("x", described "float" 53);
                     ("d", described "datetime2" 27)] in
      let dataframe :=
        table [("n", {| dtype := "object"; values := [Int 10000] |});
               ("x", {| dtype := "object"; values := [Str "1.5"] |});
               ("d", {| dtype := "object"; values := [Str "2020-01-01"] |})] in
      map category (map snd schema)
      = [Some "exact numeric"; Some "approximate numeric"; Some "date time"]
      /\ convert_largest_sql_category dataframe schema = Ok dataframe.
Proof.
  split; [intros c name; apply category_of_joined_row|].
  intros H. split; reflexivity.
Qed.

(* ===================================================================== *)
(** ** C3: which adjustments alter the caller-visible dataframe *)
(* ===================================================================== *)

Lemma time_rounding_assigned `{Host} schema prepped dataframe prepped' dataframe' log log' col s :
  NoDup (names schema) -> col <> "" ->
  lookup col (columns dataframe) = Some s ->
  In col (columns_of_type "time" schema) ->
  flags_column time_truncated prepped col ->
  prepare_time schema prepped dataframe log = (Ok (prepped', dataframe'), log') ->
  lookup col (columns dataframe') = Some (apply time_rounded s)
  /\ lookup col (columns prepped')
     = Some {| dtype := "object";
               values := map (as_text (slice 7 23) (apply time_rounded s))
                               (values (apply time_rounded s)) |}.
Proof.
  intros N Ne Ls I [p [x [Lp [Ix Tx]]]] E.
  unfold prepare_time in E. fold (columns_of_type "time" schema) in E.
  rewrite (any_name_in _ I Ne) in E.
  invert_bind E as invalid s0 Ei. apply lift_inv in Ei as [Ei ->].
  destruct (any (map snd invalid)); [discriminate|].
  invert_bind E as truncation s1 Et.
  invert_bind Et as applied_ s2 Ef.
  apply lift_apply_any_rows in Ef as [flags [-> [Ef ->]]]; [|exists col, p, x; auto].
  apply lift_inv in Et as [Et ->]. injection Et as <-.
  invert_bind E as u s3 Ew. clear Ew u.
  invert_bind E as tables s4 Ea. apply lift_inv in Ea as [Ea ->].
  destruct tables as [p1 d1].
  invert_bind E as p2 s5 Er. apply lift_inv in Er as [Er ->].
  apply ret_inv in E as [E ->]. injection E as E1 E2. subst prepped' dataframe'.
  assert (NoDup (columns_of_type "time" schema)) as Nd by now apply NoDup_index_where.
  assert (In col (flagged flags)) as If.
  { apply in_flagged. eapply flags_true; eauto. }
  destruct (@assign_rounded_first
              (fun _ df c => s0 <~ getitem c df ;; Ok (apply time_rounded s0)))
    with (cols := flagged flags) (p := prepped) (d := dataframe) (p' := p1) (d' := d1)
         (col := col) as [r [Er' [Lp1 Ld1]]]; auto.
  { intros q1 e1 q2 e2 c _ Ed. unfold getitem. now rewrite Ed. }
  { eapply NoDup_flagged; eauto. }
  unfold getitem in Er'. rewrite Ls in Er'. simpl in Er'. inversion Er'; subst; clear Er'.
  split; [assumption|]. eapply render_spec; eauto.
Qed.

Lemma datetime_rounding_assigned `{Host}
      schema prepped dataframe prepped' dataframe' log log' col p s :
  NoDup (names schema) -> col <> "" ->
  lookup col (columns prepped) = Some p ->
  lookup col (columns dataframe) = Some s ->
  In col (columns_of_type "datetime" schema) ->
  flags_column datetime_adjusted prepped col ->
  prepare_datetime schema prepped dataframe log = (Ok (prepped', dataframe'), log') ->
  let rounded := {| dtype := dtype s;
                    values := map2 datetime_rounded (values p) (values s) |} in
  lookup col (columns dataframe') = Some rounded
  /\ lookup col (columns prepped')
     = Some {| dtype := "object"; values := map (as_text (slice 0 27) rounded) (values rounded) |}.
Proof.
  intros N Ne Lp Ls I [p0 [x [Lp0 [Ix Tx]]]] E rounded.
  unfold prepare_datetime in E. fold (columns_of_type "datetime" schema) in E.
  rewrite (any_name_in _ I Ne) in E.
  invert_bind E as applied_ s0 Ef.
  apply lift_apply_any_rows in Ef as [flags [-> [Ef ->]]]; [|exists col, p0, x; auto].
  assert (In (col, true) flags) as T by (eapply flags_true; eauto).
  assert (any (map snd flags) = true) as At.
  { apply any_true, in_map_iff. now exists (col, true). }
  cbn [any_applied] in E. rewrite At in E.
  invert_bind E as tables s1 Ea.
  invert_bind Ea as adjust_ s2' Ex. apply lift_inv in Ex as [Ex ->]. injection Ex as <-.
  invert_bind Ea as u s2 Ew. clear Ew u.
  apply lift_inv in Ea as [Ea ->]. destruct tables as [p1 d1].
  invert_bind E as p2 s3 Er. apply lift_inv in Er as [Er ->].
  apply ret_inv in E as [E ->]. injection E as E1 E2. subst prepped' dataframe'.
  assert (NoDup (columns_of_type "datetime" schema)) as Nd by now apply NoDup_index_where.
  destruct (@assign_rounded_first
              (fun pr df c =>
                 p <~ getitem c pr ;; d <~ getitem c df ;;
                 Ok {| dtype := dtype d;
                       values := map2 datetime_rounded (values p) (values d) |}))
    with (cols := flagged flags) (p := prepped) (d := dataframe) (p' := p1) (d' := d1)
         (col := col) as [r [Er' [Lp1 Ld1]]]; auto.
  { intros q1 e1 q2 e2 c Ep Ed. unfold getitem. now rewrite Ep, Ed. }
  { eapply NoDup_flagged; eauto. }
  { now apply in_flagged. }
  unfold getitem in Er'. rewrite Lp, Ls in Er'. simpl in Er'. inversion Er'; subst; clear Er'.
  split; [assumption|]. eapply render_spec; eauto.
Qed.

Lemma datetime2_rounding_assigned `{Host}
      schema prepped dataframe prepped' dataframe' log log' col s :
  NoDup (names schema) -> col <> "" ->
  lookup col (columns dataframe) = Some s ->
  In col (columns_of_type "datetime2" schema) ->
  flags_column timestamp_truncated prepped col ->
  prepare_datetime2 schema prepped dataframe log = (Ok (prepped', dataframe'), log') ->
  exists rounded,
    astype "datetime64[ns]" (apply datetime2_rounded s) = inr rounded
    /\ lookup col (columns dataframe') = Some rounded
    /\ lookup col (columns prepped')
       = Some {| dtype := "object"; values := map (as_text (slice 0 27) rounded) (values rounded) |}.
Proof.
  intros N Ne Ls I [p0 [x [Lp0 [Ix Tx]]]] E.
  unfold prepare_datetime2 in E. fold (columns_of_type "datetime2" schema) in E.
  rewrite (any_name_in _ I Ne) in E.
  invert_bind E as applied_ s0 Ef.
  apply lift_apply_any_rows in Ef as [flags [-> [Ef ->]]]; [|exists col, p0, x; auto].
  assert (In (col, true) flags) as T by (eapply flags_true; eauto).
  assert (any (map snd flags) = true) as At.
  { apply any_true, in_map_iff. now exists (col, true). }
  cbn [any_applied] in E. rewrite At in E.
  invert_bind E as tables s1 Ea.
  invert_bind Ea as adjust_ s2' Ex. apply lift_inv in Ex as [Ex ->]. injection Ex as <-.
  invert_bind Ea as u s2 Ew. clear Ew u.
  apply lift_inv in Ea as [Ea ->]. destruct tables as [p1 d1].
  invert_bind E as p2 s3 Er. apply lift_inv in Er as [Er ->].
  apply ret_inv in E as [E ->]. injection E as E1 E2. subst prepped' dataframe'.
  assert (NoDup (columns_of_type "datetime2" schema)) as Nd by now apply NoDup_index_where.
  destruct (@assign_rounded_first
              (fun _ df c => s <~ getitem c df ;;
                             called (astype "datetime64[ns]" (apply datetime2_rounded s))))
    with (cols := flagged flags) (p := prepped) (d := dataframe) (p' := p1) (d' := d1)
         (col := col) as [r [Er' [Lp1 Ld1]]]; auto.
  { intros q1 e1 q2 e2 c Ep Ed. unfold getitem. now rewrite Ed. }
  { eapply NoDup_flagged; eauto. }
  { now apply in_flagged. }
  unfold getitem in Er'. rewrite Ls in Er'. simpl in Er'.
  exists r. split; [|split; [assumption | eapply render_spec; eauto]].
  destruct (astype _ _) as [e|r']; simpl in Er'; [discriminate | congruence].
Qed.

Lemma offsets_step_raise cols e : fold_left offsets_step cols (Raise e) = Raise e.
Proof. induction cols; simpl; auto. Qed.

Lemma offsets_loop_spec cols :
  forall p d t p1 d1 t1,
    NoDup cols ->
    fold_left offsets_step cols (Ok (p, d, t)) = Ok (p1, d1, t1) ->
    (forall col, In col cols ->
                 exists s, lookup col (columns d) = Some s
                           /\ lookup col (columns d1) = Some (apply assume_utc s)
                           /\ lookup col (columns p1) = Some (apply assume_utc s)
                           /\ In (col, any (map timestamp_truncated (values (apply assume_utc s))))
                                 t1)
    /\ (forall col, ~ In col cols ->
                    lookup col (columns p1) = lookup col (columns p)
                    /\ lookup col (columns d1) = lookup col (columns d))
    /\ names t1 = names t +++ cols
    /\ incl t t1.
Proof.
  induction cols as [|c cols IH]; intros p d t p1 d1 t1 N E; simpl in E.
  - inversion E; subst. repeat split; auto.
    + intros col [].
    + unfold names. now rewrite app_nil_r.
    + apply incl_refl.
  - inversion N as [|? ? Hc N']; subst.
    unfold getitem in E. destruct (lookup c (columns d)) as [s|] eqn:L; simpl in E.
    2:{ rewrite offsets_step_raise in E. discriminate. }
    apply IH in E as [Inside [Outside [En Inc]]]; [|assumption].
    repeat split.
    + intros col [<-|I].
      * exists s. destruct (Outside c Hc) as [Ep Ed]. simpl in Ep, Ed.
        rewrite lookup_assign_same in Ep, Ed. repeat split; auto.
        apply Inc, in_or_app. right. now left.
      * destruct (Inside col I) as [s' [Ls' R]]. exists s'. split; [|exact R].
        simpl in Ls'. rewrite lookup_assign_other in Ls'; [assumption|].
        intros ->. contradiction.
    + destruct (Outside col) as [Ep _]. { intros I. apply H. now right. }
      simpl in Ep. rewrite lookup_assign_other in Ep; [assumption|].
      intros ->. apply H. now left.
    + destruct (Outside col) as [_ Ed]. { intros I. apply H. now right. }
      simpl in Ed. rewrite lookup_assign_other in Ed; [assumption|].
      intros ->. apply H. now left.
    + rewrite En. unfold names. rewrite map_app, <- app_assoc. reflexivity.
    + intros x I. apply Inc, in_or_app. now left.
Qed.

Lemma timestamp_truncated_assume_utc x :
  timestamp_truncated (assume_utc x) = timestamp_truncated x.
Proof. destruct x as [| | | | | |ns [tz|]]; reflexivity. Qed.

Lemma datetimeoffset_rounding_assigned `{Host}
      schema prepped dataframe prepped' dataframe' log log' col s :
  NoDup (names schema) -> col <> "" ->
  lookup col (columns dataframe) = Some s ->
  In col (columns_of_type "datetimeoffset" schema) ->
  flags_column timestamp_truncated dataframe col ->
  prepare_datetimeoffset schema prepped dataframe log = (Ok (prepped', dataframe'), log') ->
  let rounded := apply datetimeoffset_rounded (apply assume_utc s) in
  lookup col (columns dataframe') = Some rounded
  /\ lookup col (columns prepped')
     = Some {| dtype := "object"; values := map (as_text datetimeoffset_trim rounded) (values rounded) |}.
Proof.
  intros N Ne Ls I [s0 [x [Ls0 [Ix Tx]]]] E rounded.
  rewrite Ls in Ls0. inversion Ls0; subst s0; clear Ls0.
  unfold prepare_datetimeoffset in E. fold (columns_of_type "datetimeoffset" schema) in E.
  rewrite (any_name_in _ I Ne) in E.
  assert (NoDup (columns_of_type "datetimeoffset" schema)) as Nd by now apply NoDup_index_where.
  invert_bind E as loop s1 El. apply lift_inv in El as [El ->].
  destruct loop as [[p1 d1] truncation].
  apply offsets_loop_spec in El as [Inside [_ [En _]]]; [|assumption].
  destruct (Inside col I) as [s' [Ls' [Ld1 [Lp1 It]]]].
  rewrite Ls in Ls'. inversion Ls'; subst s'; clear Ls'.
  assert (any (map timestamp_truncated (values (apply assume_utc s))) = true) as Ax.
  { apply any_map_true. exists (assume_utc x). split.
    - simpl. now apply in_map.
    - now rewrite timestamp_truncated_assume_utc. }
  rewrite Ax in It.
  assert (any (map snd truncation) = true) as At.
  { apply any_true, in_map_iff. now exists (col, true). }
  rewrite At in E.
  invert_bind E as tables s2 Ea. invert_bind Ea as u s3 Ew. clear Ew u.
  apply lift_inv in Ea as [Ea ->]. destruct tables as [p2 d2].
  invert_bind E as p3 s4 Er. apply lift_inv in Er as [Er ->].
  apply ret_inv in E as [E ->]. injection E as E1 E2. subst prepped' dataframe'.
  destruct (@assign_rounded_first
              (fun _ df c => s <~ getitem c df ;; Ok (apply datetimeoffset_rounded s)))
    with (cols := flagged truncation) (p := p1) (d := d1) (p' := p2) (d' := d2)
         (col := col) as [r [Er' [Lp2 Ld2]]]; auto.
  { intros q1 e1 q2 e2 c Ep Ed. unfold getitem. now rewrite Ed. }
  { unfold flagged. apply NoDup_names_filter. now rewrite En. }
  { now apply in_flagged. }
  unfold getitem in Er'. rewrite Ld1 in Er'. simpl in Er'. inversion Er'; subst; clear Er'.
  split; [assumption|]. eapply render_spec; eauto.
Qed.

Lemma numeric_loop_spec `{Host} schema cols :
  forall p d log p' d' log',
    NoDup cols ->
    for_each cols (numeric_step schema) (p, d) log = (Ok (p', d'), log') ->
    (forall col, In col cols ->
                 exists s c r, lookup col (columns d) = Some s
                               /\ lookup col schema = Some c
                               /\ numeric_rounded c s = inr r
                               /\ lookup col (columns d') = Some r
                               /\ lookup col (columns p') = Some r)
    /\ (forall col, ~ In col cols ->
                    lookup col (columns p') = lookup col (columns p)
                    /\ lookup col (columns d') = lookup col (columns d)).
Proof.
  induction cols as [|c cols IH]; intros p d log p' d' log' N E; simpl in E.
  - apply ret_inv in E as [E _]. inversion E; subst. split; [intros col [] | auto].
  - inversion N as [|? ? Hc N']; subst.
    invert_bind E as tables s1 Es. destruct tables as [p1 d1].
    unfold numeric_step in Es.
    invert_bind Es as s s2 Eg. apply lift_inv in Eg as [Eg ->].
    invert_bind Es as row s3 El. apply lift_inv in El as [El ->].
    invert_bind Es as r s4 Er. apply lift_inv in Er as [Er ->].
    invert_bind Es as u s5 Ew. clear Ew u.
    apply ret_inv in Es as [Es ->]. injection Es as -> ->.
    unfold getitem in Eg. destruct (lookup c (columns d)) as [s0|] eqn:Ld; [|discriminate].
    injection Eg as ->.
    unfold loc in El. destruct (lookup c schema) as [row0|] eqn:Lc; [|discriminate].
    injection El as ->.
    assert (numeric_rounded row s = inr r) as Nr.
    { unfold numeric_rounded. destruct (astype _ _); simpl in Er; [discriminate | congruence]. }
    apply IH in E as [Inside Outside]; [|assumption]. split.
    + intros col [<-|I].
      * exists s, row, r. destruct (Outside c Hc) as [Ep Ed]. simpl in Ep, Ed.
        rewrite lookup_assign_same in Ep, Ed. auto.
      * destruct (Inside col I) as [s' [c' [r' [Ls' R]]]]. exists s', c', r'.
        split; [|exact R]. simpl in Ls'.
        assert (col <> c) as Nc by (intros ->; contradiction).
        rewrite !(lookup_assign_other _ _ Nc) in Ls'. assumption.
    + intros col Hn. destruct (Outside col) as [Ep Ed]. { intros I. apply Hn. now right. }
      simpl in Ep, Ed.
      assert (col <> c) as Nc by (intros ->; apply Hn; now left).
      rewrite (lookup_assign_other _ _ Nc) in Ep.
      rewrite !(lookup_assign_other _ _ Nc) in Ed. auto.
Qed.

Lemma numeric_rounding_assigned `{Host}
      schema prepped dataframe prepped' dataframe' log log' col s :
  NoDup (names schema) ->
  lookup col (columns dataframe) = Some s ->
  In col (index_where (fun c => isin (sql_type c) ["numeric"; "decimal"]) schema) ->
  prepare_numeric schema prepped dataframe log = (Ok (prepped', dataframe'), log') ->
  exists c rounded,
    lookup col schema = Some c
    /\ numeric_rounded c s = inr rounded
    /\ lookup col (columns dataframe') = Some rounded
    /\ lookup col (columns prepped') = Some rounded.
Proof.
  intros N Ls I E.
  unfold prepare_numeric in E.
  eapply numeric_loop_spec in E; [|now apply NoDup_index_where].
  destruct E as [Inside _].
  destruct (Inside col I) as [s' [c [r [Ls' [Lc [Nr [Ld Lp]]]]]]].
  rewrite Ls in Ls'. injection Ls' as <-. exists c, r. auto.
Qed.

(** C3, as stated, fails: preparing a time column that holds 90 ns returns a
    dataframe that holds 100 ns, so the time adjustment does alter a value of
    the caller-visible dataframe. *)
Lemma time_rounding_alters_dataframe :
  let dataframe := table [("t", {| dtype := "timedelta64[ns]"; values := [Timedelta 90] |})] in
  prepare_values (H := plain_host) [("t", described "time" 16)] dataframe []
  = (Ok (table [("t", {| dtype := "timedelta64[ns]"; values := [Timedelta 100] |})],
         [[Str "00:00:00.0000001"]]),
     [NanosecondRounded "time" ["t"]])
  /\ table [("t", {| dtype := "timedelta64[ns]"; values := [Timedelta 100] |})] <> dataframe.
Proof. split; [reflexivity | discriminate]. Qed.

(** C3, amended.  Every adjustment that rounds a column assigns the rounded
    column to the caller-visible dataframe as well as to the prepared copy:
    the time, datetime, datetime2 and datetimeoffset adjustments for each
    column they flag, the decimal adjustment for each numeric or decimal
    column.  What is confined to the prepared copy is the rendering of the
    temporal columns as text. *)
Theorem rounding_is_assigned_to_the_dataframe :
  forall (H : Host) (schema : Schema) (prepped dataframe prepped' dataframe' : DataFrame)
         (log log' : Log) (col : string) (s : Series),
    NoDup (names schema) -> col <> "" ->
    lookup col (columns dataframe) = Some s ->
    (In col (columns_of_type "time" schema) ->
     flags_column time_truncated prepped col ->
     prepare_time schema prepped dataframe log = (Ok (prepped', dataframe'), log') ->
     lookup col (columns dataframe') = Some (apply time_rounded s)
     /\ lookup col (columns prepped')
        = Some {| dtype := "object";
                  values := map (as_text (slice 7 23) (apply time_rounded s))
                                  (values (apply time_rounded s)) |})
    /\ (forall p,
           lookup col (columns prepped) = Some p ->
           In col (columns_of_type "datetime" schema) ->
           flags_column datetime_adjusted prepped col ->
           prepare_datetime schema prepped dataframe log = (Ok (prepped', dataframe'), log') ->
           let rounded := {| dtype := dtype s;
                             values := map2 datetime_rounded (values p) (values s) |} in
           lookup col (columns dataframe') = Some rounded
           /\ lookup col (columns prepped')
              = Some {| dtype := "object";
                        values := map (as_text (slice 0 27) rounded) (values rounded) |})
    /\ (In col (columns_of_type "datetime2" schema) ->
        flags_column timestamp_truncated prepped col ->
        prepare_datetime2 schema prepped dataframe log = (Ok (prepped', dataframe'), log') ->
        exists rounded,
          astype "datetime64[ns]" (apply datetime2_rounded s) = inr rounded
          /\ lookup col (columns dataframe') = Some rounded
          /\ lookup col (columns prepped')
             = Some {| dtype := "object";
                       values := map (as_text (slice 0 27) rounded) (values rounded) |})
    /\ (In col (columns_of_type "datetimeoffset" schema) ->
        flags_column timestamp_truncated dataframe col ->
        prepare_datetimeoffset schema prepped dataframe log
        = (Ok (prepped', dataframe'), log') ->
        let rounded := apply datetimeoffset_rounded (apply assume_utc s) in
        lookup col (columns dataframe') = Some rounded
        /\ lookup col (columns prepped')
           = Some {| dtype := "object";
                     values := map (as_text datetimeoffset_trim rounded) (values rounded) |})
    /\ (In col (index_where (fun c => isin (sql_type c) ["numeric"; "decimal"]) schema) ->
        prepare_numeric schema prepped dataframe log = (Ok (prepped', dataframe'), log') ->
        exists c rounded,
          lookup col schema = Some c
          /\ numeric_rounded c s = inr rounded
          /\ lookup col (columns dataframe') = Some rounded
          /\ lookup col (columns prepped') = Some rounded).
Proof.
  intros H schema prepped dataframe prepped' dataframe' log log' col s N Ne Ls.
  split; [|split; [|split; [|split]]].
  - intros I F E. eapply time_rounding_assigned; eauto.
  - intros p Lp I F E. eapply datetime_rounding_assigned; eauto.
  - intros I F E. eapply datetime2_rounding_assigned; eauto.
  - intros I F E. eapply datetimeoffset_rounding_assigned; eauto.
  - intros I E. eapply numeric_rounding_assigned; eauto.
Qed.

(** The time adjustment on a column that holds 90 ns. *)
Lemma rounding_is_assigned_to_the_dataframe_witness :
  let schema := [("t", described "time" 16)] in
  let s := {| dtype := "timedelta64[ns]"; values := [Timedelta 90] |} in
  let dataframe := table [("t", s)] in
  (NoDup (names schema) /\ "t" <> "" /\ lookup "t" (columns dataframe) = Some s)
  /\ lookup "t" (columns (table [("t", {| dtype := "timedelta64[ns]";
                                          values := [Timedelta 100] |})]))
     = Some (apply time_rounded s).
Proof.
  intros schema s dataframe.
  assert (NoDup (names schema)) as N by (repeat constructor; simpl; tauto).
  assert ("t" <> "") as Ne by discriminate.
  assert (lookup "t" (columns dataframe) = Some s) as Ls by reflexivity.
  split; [auto|].
  destruct (@rounding_is_assigned_to_the_dataframe plain_host schema dataframe dataframe
              (table [("t", {| dtype := "object"; values := [Str "00:00:00.0000001"] |})])
              (table [("t", {| dtype := "timedelta64[ns]"; values := [Timedelta 100] |})])
              [] [NanosecondRounded "time" ["t"]] "t" s N Ne Ls) as [T _].
  apply T.
  - simpl. auto.
  - exists s, (Timedelta 90). repeat split. simpl. auto.
  - reflexivity.
Defined.

(* ===================================================================== *)
(** ** C4: the entries of the registry *)
(* ===================================================================== *)

(** C4 (the code departs from the claim).  [rules] has eleven entries: bit,
    the four integer types, float, time, date, datetime2 with precision 7,
    varchar and nvarchar.  It has no timezone-aware timestamp type
    (datetimeoffset) and no fixed-width character type (char, nchar), so
    [get_schema] rejects a table with such columns although [conversion.py]
    prepares datetimeoffset values and checks char columns. *)
Theorem registry_lacks_offset_and_fixed_width_types :
  names rules = ["bit"; "tinyint"; "smallint"; "int"; "bigint"; "float"; "time"; "date";
                 "datetime2"; "varchar"; "nvarchar"]
  /\ option_map odbc_precision (lookup "datetime2" rules) = Some 7
  /\ lookup "datetimeoffset" rules = None
  /\ lookup "char" rules = None
  /\ lookup "nchar" rules = None
  /\ forall H : Host,
       get_schema (D := recording_database
                          [reported "stamp" "datetimeoffset" 34; reported "code" "char" 3;
                           reported "label" "nchar" 3; reported "n" "int" 10] [])
         "tab" None None []
       = (Raise (UndefinedConversionRule ["stamp"; "code"; "label"]), []).
Proof. repeat split. Qed.

(* ===================================================================== *)
(** ** C5: upsert together with a delete guard *)
(* ===================================================================== *)

(** C5.  [merge] with [upsert=True] and a [delete_requires] list, empty or
    not, raises the [ValueError] of its input check at once: no collaborator
    is called, and the session and the log are left as they were, whatever
    the table name, the dataframe and the database are. *)
Theorem merge_rejects_upsert_with_delete_requires :
  forall (D : Database) (include_metadata_timestamps : bool) (table_name : string)
         (dataframe : DataFrame) (match_columns : option (list string))
         (delete_requires : list string) (state : session * Log),
    merge include_metadata_timestamps table_name dataframe match_columns true
      (Some delete_requires) state
    = (Raise (ValueError "delete_requires can only be specified if upsert==False" []), state).
Proof. reflexivity. Qed.

(* ===================================================================== *)
(** ** C6: rounding of datetime values *)
(* ===================================================================== *)








(* ===================================================================== *)
(** ** C7: rounding of time values *)
(* ===================================================================== *)

(** C7 (the code departs from the claim).  The rounded value is rebuilt from
    the components days, hours, minutes, seconds, microseconds and
    nanoseconds, without the milliseconds: 00:00:00.123456789 becomes
    00:00:00.000456800, not the nearest multiple of 100 ns, which is
    00:00:00.123456800. *)
Theorem time_rounding_drops_milliseconds :
  forall H : Host,
    let schema := [("t", described "time" 16)] in
    let dataframe :=
      table [("t", {| dtype := "timedelta64[ns]"; values := [Timedelta 123456789] |})] in
    prepare_time schema dataframe dataframe []
    = (Ok (table [("t", {| dtype := "object";
                           values := [as_text (slice 7 23)
                                        {| dtype := "timedelta64[ns]";
                                           values := [Timedelta 456800] |}
                                        (Timedelta 456800)] |})],
           table [("t", {| dtype := "timedelta64[ns]"; values := [Timedelta 456800] |})]),
       [NanosecondRounded "time" ["t"]])
    /\ Timedelta 456800 <> Timedelta (round_div 123456789 100 * 100)
    /\ round_div 123456789 100 * 100 = 123456800.
Proof. intros H. split; [reflexivity | split; [discriminate | reflexivity]]. Qed.

(* ===================================================================== *)
(** ** C8: time values out of range *)
(* ===================================================================== *)

Lemma prepare_time_range :
  forall (H : Host) (schema : Schema) (prepped dataframe : DataFrame) (log : Log),
    holds (columns_of_type "time" schema) prepped ->
    holds (columns_of_type "time" schema) dataframe ->
    (forall col s ns,
        In col (columns_of_type "time" schema) -> lookup col (columns prepped) = Some s ->
        In (Timedelta ns) (values s) -> ns_per_day <= ns \/ ns < 0 ->
        exists invalid,
          prepare_time schema prepped dataframe log
          = (Raise (ValueError time_range_message invalid), log)
          /\ In col invalid)
    /\ (has_rows (columns_of_type "time" schema) prepped
        \/ any_name (columns_of_type "time" schema) = false ->
        (forall col s ns,
            In col (columns_of_type "time" schema) -> lookup col (columns prepped) = Some s ->
            In (Timedelta ns) (values s) -> 0 <= ns < ns_per_day) ->
        exists prepped' dataframe' log',
          prepare_time schema prepped dataframe log = (Ok (prepped', dataframe'), log')).
Proof.
  intros H schema prepped dataframe log Hp Hd.
  destruct (column_flags_ok time_out_of_range Hp) as [invalid [Ei _]].
  split.
  - intros col s ns I L V R.
    assert (In (col, true) invalid) as T.
    { eapply flags_true; eauto. simpl. unfold Timedelta_kw, ns_per_day in *.
      apply orb_true_iff. destruct R; [left; apply Z.leb_le | right; apply Z.ltb_lt]; lia. }
    exists (flagged invalid). split; [|now apply in_flagged].
    unfold prepare_time. fold (columns_of_type "time" schema).
    erewrite bind_ok by (apply lift_ok, Ei).
    assert (any (map snd invalid) = true) as ->.
    { apply any_true, in_map_iff. now exists (col, true). }
    reflexivity.
  - intros R A.
    assert (any (map snd invalid) = false) as F.
    { eapply flags_false; eauto. intros col s x I L V.
      destruct x; try reflexivity. simpl. specialize (A col s ns I L V).
      unfold Timedelta_kw, ns_per_day in *.
      apply orb_false_iff. split; [apply Z.leb_gt | apply Z.ltb_ge]; lia. }
    unfold prepare_time. fold (columns_of_type "time" schema).
    erewrite bind_ok by (apply lift_ok, Ei). rewrite F.
    destruct (column_flags_ok time_truncated Hp) as [flags [Ef _]].
    set (truncation := if any_name (columns_of_type "time" schema) then flagged flags else []).
    assert (incl truncation (columns_of_type "time" schema)) as It.
    { unfold truncation. destruct (any_name _).
      - eapply flagged_incl; eauto.
      - intros c []. }
    destruct (@assign_rounded_ok
                (fun _ df col => s <~ getitem col df ;; Ok (apply time_rounded s))
                (columns_of_type "time" schema) (columns_of_type "time" schema)) with
        (cols := truncation) (p := prepped) (d := dataframe)
      as [p' [d' [Ea [Hp' [Hd' _]]]]]; auto.
    { intros p d col I _ Hd0. destruct (Hd0 col I) as [s Es].
      unfold getitem. rewrite Es. simpl. eauto. }
    destruct (render_ok (slice 7 23) (watched := []) Hp') as [p'' [Er _]].
    { intros c []. }
    erewrite bind_ok with (a := truncation) (s' := log).
    2:{ unfold truncation. destruct (any_name _) eqn:An; [|reflexivity].
        erewrite bind_ok
          by (apply lift_apply_any_ok; [exact Ef | destruct R as [R|R]; [exact R | congruence]]).
        reflexivity. }
    destruct (any_name truncation);
      (erewrite bind_ok by reflexivity);
      (erewrite bind_ok by (apply lift_ok, Ea));
      destruct (any_name (columns_of_type "time" schema));
      try (erewrite bind_ok by (apply lift_ok, Er));
      try (erewrite bind_ok by reflexivity); unfold ret; eauto.
Qed.

Lemma prepare_values_raises_with_prepare_time `{Host} schema df prepped log e log' :
  index_as_columns (names (index df)) df = Ok prepped ->
  prepare_time (filter (fun r => isin (fst r) (names (columns prepped))) schema)
    prepped prepped log = (Raise e, log') ->
  prepare_values schema df log = (Raise e, log').
Proof.
  intros Ei Et. unfold prepare_values.
  erewrite bind_ok by (apply lift_ok, Ei).
  erewrite bind_ok by (apply lift_ok, Ei).
  erewrite bind_raise by exact Et. reflexivity.
Qed.

Lemma insert_values_raises_with_prepare_values `{Host} `{Database}
      table_name df include schema s log t s1 cs s2 e log' :
  escape table_name s = (inr t, s1) ->
  escape_all (if any_name (names (index df))
              then names (index df) +++ names (columns df)
              else names (columns df)) s1 = (inr cs, s2) ->
  prepare_values schema df log = (Raise e, log') ->
  insert_values table_name df include schema (s, log) = (Raise e, (s2, log')).
Proof.
  intros E1 E2 Ep. unfold insert_values.
  erewrite bind_ok by (apply on_fst_run, E1).
  erewrite bind_ok by (apply on_fst_run, E2).
  erewrite bind_raise by (apply on_snd_result, Ep). reflexivity.
Qed.

(** C8, as stated, fails: with a database whose [dynamic.escape] has the
    server quote the names, [insert_values] on a time column holding
    24:00:00 raises the range error after two statements have been executed,
    the two that quote the name of the table and the names of the columns. *)
Lemma time_range_failure_follows_escape :
  insert_values (H := plain_host) (D := escaping_database [] []) "T"
    (table [("t", {| dtype := "timedelta64[ns]"; values := [Timedelta ns_per_day] |})])
    false [("t", described "time" 16)] ([], [])
  = (Raise (ValueError time_range_message ["t"]),
     ([Execute "SELECT QUOTENAME(?)" ["T"]; Execute "SELECT QUOTENAME(?)" ["t"]], [])).
Proof. reflexivity. Qed.

(** C8, amended.  When a time column holds a value of one day or more, or a
    negative one, [prepare_time] raises the [ValueError] of its range check,
    naming the column and logging nothing; when every value lies from
    00:00:00 up to but not including one day, and the time columns hold a
    row (or the schema has no time column), it returns; and what
    [prepare_time] raises on the tables [prepare_values] hands it,
    [insert_values] raises with the session as its two calls of
    [dynamic.escape] left it: after the names have been quoted, and before
    input sizes are set, rows are sent or anything is committed. *)
Theorem time_out_of_range_is_rejected :
  forall (H : Host) (schema : Schema) (prepped dataframe : DataFrame) (log : Log),
    holds (columns_of_type "time" schema) prepped ->
    holds (columns_of_type "time" schema) dataframe ->
    (forall col s ns,
        In col (columns_of_type "time" schema) -> lookup col (columns prepped) = Some s ->
        In (Timedelta ns) (values s) -> ns_per_day <= ns \/ ns < 0 ->
        exists invalid,
          prepare_time schema prepped dataframe log
          = (Raise (ValueError time_range_message invalid), log)
          /\ In col invalid)
    /\ (has_rows (columns_of_type "time" schema) prepped
        \/ any_name (columns_of_type "time" schema) = false ->
        (forall col s ns,
            In col (columns_of_type "time" schema) -> lookup col (columns prepped) = Some s ->
            In (Timedelta ns) (values s) -> 0 <= ns < ns_per_day) ->
        exists prepped' dataframe' log',
          prepare_time schema prepped dataframe log = (Ok (prepped', dataframe'), log'))
    /\ (forall (D : Database) (table_name : string) (include_metadata_timestamps : bool)
               (whole : Schema) (source : DataFrame) (s s1 s2 : session)
               (quoted : string) (quoted_columns : list string) (e : exception) (log' : Log),
           index_as_columns (names (index source)) source = Ok prepped ->
           dataframe = prepped ->
           schema = filter (fun r => isin (fst r) (names (columns prepped))) whole ->
           escape table_name s = (inr quoted, s1) ->
           escape_all (if any_name (names (index source))
                       then names (index source) +++ names (columns source)
                       else names (columns source)) s1 = (inr quoted_columns, s2) ->
           prepare_time schema prepped dataframe log = (Raise e, log') ->
           insert_values table_name source include_metadata_timestamps whole (s, log)
           = (Raise e, (s2, log'))).
Proof.
  intros H schema prepped dataframe log Hp Hd.
  destruct (prepare_time_range H schema log Hp Hd) as [A B].
  split; [exact A | split; [exact B|]].
  intros D table_name include whole source s s1 s2 quoted quoted_columns e log'
         Ei -> -> E1 E2 Et.
  eapply insert_values_raises_with_prepare_values; eauto.
  eapply prepare_values_raises_with_prepare_time; eauto.
Qed.

(** A time column that holds 24:00:00: [prepare_time] raises, and
    [insert_values] with it, whatever the session was. *)
Lemma time_out_of_range_is_rejected_witness :
  let schema := [("t", described "time" 16)] in
  let dataframe :=
    table [("t", {| dtype := "timedelta64[ns]";
                    values := [Timedelta 0; Timedelta ns_per_day] |})] in
  holds (columns_of_type "time" schema) dataframe
  /\ (exists invalid,
         prepare_time (H := plain_host) schema dataframe dataframe []
         = (Raise (ValueError time_range_message invalid), [])
         /\ In "t" invalid)
  /\ insert_values (H := plain_host) (D := escaping_database [] []) "T" dataframe false
       schema ([Commit], [])
     = (Raise (ValueError time_range_message ["t"]),
        ([Commit; Execute "SELECT QUOTENAME(?)" ["T"]; Execute "SELECT QUOTENAME(?)" ["t"]],
         [])).
Proof.
  intros schema dataframe.
  assert (holds (columns_of_type "time" schema) dataframe) as Hd.
  { intros col [<-|[]]. eexists. reflexivity. }
  split; [exact Hd|].
  destruct (@time_out_of_range_is_rejected plain_host schema dataframe dataframe [] Hd Hd)
    as [A [_ B]].
  split.
  - apply (A "t" {| dtype := "timedelta64[ns]";
                    values := [Timedelta 0; Timedelta ns_per_day] |} ns_per_day).
    + simpl. auto.
    + reflexivity.
    + simpl. auto.
    + left. lia.
  - apply (B (escaping_database [] []) "T" false schema dataframe [Commit]
             [Commit; Execute "SELECT QUOTENAME(?)" ["T"]]
             [Commit; Execute "SELECT QUOTENAME(?)" ["T"]; Execute "SELECT QUOTENAME(?)" ["t"]]
             "[T]" ["[t]"]); reflexivity.
Defined.

(* ===================================================================== *)
(** ** C9: identity columns *)
(* ===================================================================== *)

Lemma add_conversion_rules_type c : sql_type (add_conversion_rules c) = sql_type c.
Proof.
  unfold add_conversion_rules. simpl.
  destruct (String.eqb_spec (sql_type c) "int identity") as [E|_]; congruence.
Qed.

Lemma add_conversion_rules_identity c :
  sql_type c = "int identity" -> conversion (add_conversion_rules c) = lookup "int" rules.
Proof. unfold add_conversion_rules. simpl. now intros ->. Qed.

Lemma merge_primary_key_type pk row r :
  In r (merge_primary_key pk row) ->
  fst r = column_name row /\ sql_type (snd r) = type_name row.
Proof.
  unfold merge_primary_key.
  destruct (filter _ pk) as [|k ks].
  - intros [<-|[]]. now split.
  - intros I. apply in_map_iff in I as [k' [<- _]]. now split.
Qed.

(** C9, as stated, fails: a column reported as "bigint identity" carries an
    identity flag on an integer type and fails the conversion-rule check. *)
Lemma bigint_identity_has_no_rule :
  get_schema (H := plain_host)
    (D := recording_database [reported "id" "bigint identity" 19; reported "v" "int" 10] [])
    "tab" None None []
  = (Raise (UndefinedConversionRule ["id"]), []).
Proof. reflexivity. Qed.

Lemma merge_primary_key_inhabited pk row :
  exists c, In (column_name row, c) (merge_primary_key pk row) /\ sql_type c = type_name row.
Proof.
  unfold merge_primary_key.
  destruct (filter _ pk) as [|k ks]; eexists; (split; [left; reflexivity | reflexivity]).
Qed.

(** What [get_schema] makes of the rows reported as "int identity", by the
    outcome of the call. *)
Lemma get_schema_identity_rows (H : Host) (D : Database) (table_name : string)
      (dataframe : option DataFrame) (additional_columns : option (list string))
      (s : session) :
  match get_schema table_name dataframe additional_columns s with
  | (Ok (schema, _), _) =>
      exists table catalog schema_name rows s',
        cursor_columns table catalog schema_name s = (inr rows, s')
        /\ (forall row, In row rows -> type_name row = "int identity" ->
                        exists c, In (column_name row, c) schema
                                  /\ sql_type c = "int identity"
                                  /\ conversion c = lookup "int" rules
                                  /\ conversion c <> None)
        /\ (forall col c, In (col, c) schema -> sql_type c = "int identity" ->
                          conversion c = lookup "int" rules /\ conversion c <> None)
  | (Raise (UndefinedConversionRule missing), _) =>
      exists table catalog schema_name rows s',
        cursor_columns table catalog schema_name s = (inr rows, s')
        /\ forall col, In col missing ->
                       exists row, In row rows /\ column_name row = col
                                   /\ type_name row <> "int identity"
  | _ => True
  end.
Proof.
  unfold get_schema.
  unfold bind at 1. unfold lift at 1.
  assert (exists schema_name table,
             match split_dot table_name with
             | [a; b] => Ok (Some a, b)
             | [] | [_] => Ok (None, table_name)
             | _ => Raise (ValueError "too many values to unpack (expected 2)" [])
             end = Ok (schema_name, table)
          \/ match split_dot table_name with
             | [a; b] => Ok (Some a, b)
             | [] | [_] => Ok (None, table_name)
             | _ => @Raise (option string * string)
                      (ValueError "too many values to unpack (expected 2)" [])
             end = Raise (ValueError "too many values to unpack (expected 2)" []))
    as [schema_name [table [-> | ->]]]; [| |exact I].
  { destruct (split_dot table_name) as [|a [|b [|c l]]];
      try (eexists _, _; left; reflexivity).
    exists None, table_name. now right. }
  unfold bind at 1. unfold run at 1.
  destruct (cursor_columns table _ schema_name s) as [[e|rows] s1] eqn:Ec;
    [destruct e; exact I|]. simpl called.
  cbv beta iota.
  destruct (Datatypes.length rows =? 0)%nat; [unfold raise; exact I|].
  destruct (match additional_columns with Some _ => _ | None => _ end);
    [|unfold raise; exact I].
  destruct (match dataframe with Some _ => _ | None => _ end) eqn:Em;
    [|unfold raise; exact I].
  unfold bind at 1. unfold run at 1.
  destruct (cursor_primaryKeys table _ s1) as [[e|pk] s2] eqn:Ek;
    [destruct e; exact I|]. simpl called. cbv beta iota.
  set (schema := map (fun r => (fst r, add_conversion_rules (snd r)))
                     (flat_map (merge_primary_key pk) rows)).
  assert (forall col c, In (col, c) schema ->
            exists row, In row rows /\ column_name row = col /\ sql_type c = type_name row
                        /\ (type_name row = "int identity" -> conversion c = lookup "int" rules)
                        /\ (conversion c = None -> type_name row <> "int identity")) as Hs.
  { intros col c I. unfold schema in I. apply in_map_iff in I as [[col' c'] [E I]].
    simpl in E. inversion E; subst; clear E.
    apply in_flat_map in I as [row [Ir I]].
    apply merge_primary_key_type in I as [E1 E2]. simpl fst in *. simpl snd in *.
    exists row. split; [assumption|]. split; [congruence|]. split; [|split].
    - rewrite add_conversion_rules_type. assumption.
    - intros E. apply add_conversion_rules_identity. congruence.
    - intros N E. rewrite add_conversion_rules_identity in N by congruence. discriminate. }
  destruct (any _) eqn:A.
  - unfold raise. exists table, (if startswith "#" table then Some "tempdb" else None),
      schema_name, rows, s1. split; [exact Ec|].
    intros col I. unfold names in I. apply in_map_iff in I as [[col' c] [E I]].
    simpl in E. subst col'. apply filter_In in I as [I N]. simpl in N.
    destruct (Hs col c I) as [row [Ir [En [_ [_ Hn]]]]].
    exists row. repeat split; auto. apply Hn. now destruct (conversion c).
  - assert (exists table catalog schema_name rows s',
               cursor_columns table catalog schema_name s = (inr rows, s')
               /\ (forall row, In row rows -> type_name row = "int identity" ->
                               exists c, In (column_name row, c) schema
                                         /\ sql_type c = "int identity"
                                         /\ conversion c = lookup "int" rules
                                         /\ conversion c <> None)
               /\ (forall col c, In (col, c) schema -> sql_type c = "int identity" ->
                                 conversion c = lookup "int" rules /\ conversion c <> None))
      as Hok.
    { exists table, (if startswith "#" table then Some "tempdb" else None),
        schema_name, rows, s1. split; [exact Ec|]. split.
      - intros row Ir Et.
        destruct (merge_primary_key_inhabited pk row) as [c [Ic Tc]].
        exists (add_conversion_rules c). split.
        + unfold schema. apply in_map_iff. exists (column_name row, c). split; [reflexivity|].
          apply in_flat_map. exists row. now split.
        + rewrite add_conversion_rules_type, add_conversion_rules_identity by congruence.
          split; [congruence|]. split; [reflexivity | discriminate].
      - intros col c I E. destruct (Hs col c I) as [row [_ [_ [Et [Hi _]]]]].
        rewrite Hi by congruence. split; [reflexivity | discriminate]. }
    destruct dataframe as [df|].
    + unfold bind, lift. pose proof (precheck_not_undefined_rule schema df) as R.
      destruct (_precheck_dataframe schema df) as [df'|e]; simpl in *.
      * exact Hok.
      * destruct e; try exact I. contradiction.
    + exact Hok.
Qed.

(** C9, amended.  A column reported as "int identity", and no other
    designation, is joined with the rule of "int" and has "int identity"
    restored as its [sql_type]: when [get_schema] returns, every column that
    [cursor.columns] reported as "int identity" has a row in the schema whose
    [sql_type] is "int identity" and which carries the rule of "int", a rule
    the registry has; every row of the schema of that type carries it; and
    when [get_schema] raises [UndefinedConversionRule], every column it
    lists was reported with a type other than "int identity". *)
Theorem int_identity_joined_under_int :
  forall (H : Host) (D : Database) (table_name : string) (dataframe : option DataFrame)
         (additional_columns : option (list string)) (s : session),
    (forall schema dataframe' s0,
        get_schema table_name dataframe additional_columns s = (Ok (schema, dataframe'), s0) ->
        exists table catalog schema_name rows s',
          cursor_columns table catalog schema_name s = (inr rows, s')
          /\ (forall row, In row rows -> type_name row = "int identity" ->
                          exists c, In (column_name row, c) schema
                                    /\ sql_type c = "int identity"
                                    /\ conversion c = lookup "int" rules
                                    /\ conversion c <> None)
          /\ (forall col c, In (col, c) schema -> sql_type c = "int identity" ->
                            conversion c = lookup "int" rules /\ conversion c <> None))
    /\ (forall missing s0,
           get_schema table_name dataframe additional_columns s
           = (Raise (UndefinedConversionRule missing), s0) ->
           exists table catalog schema_name rows s',
             cursor_columns table catalog schema_name s = (inr rows, s')
             /\ forall col, In col missing ->
                            exists row, In row rows /\ column_name row = col
                                        /\ type_name row <> "int identity").
Proof.
  intros H D table_name dataframe additional_columns s.
  pose proof (get_schema_identity_rows H D table_name dataframe additional_columns s) as G.
  split.
  - intros schema dataframe' s0 E. rewrite E in G. exact G.
  - intros missing s0 E. rewrite E in G. exact G.
Qed.

(** A table whose key [id] is reported as "int identity": the schema holds
    it under that type, with the rule of "int". *)
Lemma int_identity_joined_under_int_witness :
  let rows := [reported "id" "int identity" 10; reported "v" "int" 10] in
  let schema := [("id", described "int identity" 10); ("v", described "int" 10)] in
  get_schema (H := plain_host) (D := recording_database rows []) "tab" None None []
  = (Ok (schema, None), [])
  /\ exists c, In ("id", c) schema
               /\ sql_type c = "int identity"
               /\ conversion c = lookup "int" rules
               /\ conversion c <> None.
Proof.
  intros rows schema.
  assert (get_schema (H := plain_host) (D := recording_database rows []) "tab" None None []
          = (Ok (schema, None), [])) as E by reflexivity.
  split; [exact E|].
  destruct (@int_identity_joined_under_int plain_host (recording_database rows [])
              "tab" None None []) as [A _].
  destruct (A schema None [] E) as [table [catalog [schema_name [rows' [s' [Ec [Ar _]]]]]]].
  injection Ec as <- _.
  apply (Ar (reported "id" "int identity" 10)); [now left | reflexivity].
Defined.

(* ===================================================================== *)
(** ** C10: the empty string *)
(* ===================================================================== *)

Lemma value_lt_Int a b : value_lt (Int a) (Int b) = Ok (a <? b).
Proof.
  simpl. unfold Qle_bool. simpl. rewrite !Z.mul_1_r. f_equal.
  destruct (Z.leb_spec b a), (Z.ltb_spec a b); simpl; auto; lia.
Qed.

Lemma str_len_length_or_null x : length_or_null (str_len x).
Proof. destruct x; simpl; try (now left). right. eexists. split; [reflexivity | lia]. Qed.

Lemma value_lt_length_below r bound :
  length_or_null r -> value_lt r (Int bound) = Ok (length_below bound r).
Proof. intros [->|[n [-> _]]]; [reflexivity | apply value_lt_Int]. Qed.

Lemma value_lt_length_above r bound :
  length_or_null r -> value_lt (Int bound) r = Ok (length_above bound r).
Proof. intros [->|[n [-> _]]]; [reflexivity | apply value_lt_Int]. Qed.

(** The least length lies below a bound exactly when some length does. *)
Lemma agg_min_below bound xs :
  Forall length_or_null xs ->
  forall best,
    length_or_null best ->
    exists r, agg_best value_lt xs best = Ok r /\ length_or_null r
              /\ length_below bound r
                 = length_below bound best || existsb (length_below bound) xs.
Proof.
  induction 1 as [|x xs Hx Hxs IH]; intros best Hb; cbn [agg_best existsb].
  - exists best. split; [reflexivity|]. split; [assumption|]. now rewrite orb_false_r.
  - destruct Hx as [->|[n [-> Hn]]]; cbn [notnull].
    + destruct (IH best Hb) as [r [E [Lr Er]]]. exists r. auto.
    + destruct Hb as [->|[b [-> Hb]]]; cbn [notnull].
      * destruct (IH (Int n)) as [r [E [Lr Er]]]. { right. eauto. }
        exists r. auto.
      * rewrite value_lt_Int. cbn [and_then].
        destruct (IH (if n <? b then Int n else Int b)) as [r [E [Lr Er]]].
        { destruct (n <? b); right; eauto. }
        exists r. split; [assumption|]. split; [assumption|]. rewrite Er.
        rewrite orb_assoc. f_equal. cbn [length_below].
        destruct (Z.ltb_spec n b); cbn [length_below];
          destruct (Z.ltb_spec n bound), (Z.ltb_spec b bound); simpl; auto; lia.
Qed.

(** The greatest length lies above a bound exactly when some length does. *)
Lemma agg_max_above bound xs :
  Forall length_or_null xs ->
  forall best,
    length_or_null best ->
    exists r, agg_best (fun x y => value_lt y x) xs best = Ok r /\ length_or_null r
              /\ length_above bound r
                 = length_above bound best || existsb (length_above bound) xs.
Proof.
  induction 1 as [|x xs Hx Hxs IH]; intros best Hb; cbn [agg_best existsb].
  - exists best. split; [reflexivity|]. split; [assumption|]. now rewrite orb_false_r.
  - destruct Hx as [->|[n [-> Hn]]]; cbn [notnull].
    + destruct (IH best Hb) as [r [E [Lr Er]]]. exists r. auto.
    + destruct Hb as [->|[b [-> Hb]]]; cbn [notnull].
      * destruct (IH (Int n)) as [r [E [Lr Er]]]. { right. eauto. }
        exists r. auto.
      * rewrite value_lt_Int. cbn [and_then].
        destruct (IH (if b <? n then Int n else Int b)) as [r [E [Lr Er]]].
        { destruct (b <? n); right; eauto. }
        exists r. split; [assumption|]. split; [assumption|]. rewrite Er.
        rewrite orb_assoc. f_equal. cbn [length_above].
        destruct (Z.ltb_spec b n); cbn [length_above];
          destruct (Z.ltb_spec bound n), (Z.ltb_spec bound b); simpl; auto; lia.
Qed.

Lemma lengths_or_null (s : Series) : Forall length_or_null (values (apply str_len s)).
Proof.
  apply Forall_forall. intros x Ix. simpl in Ix. apply in_map_iff in Ix as [y [<- _]].
  apply str_len_length_or_null.
Qed.

(** The extremes of the lengths of a column, against the bounds. *)
Lemma agg_lengths (s : Series) (lo hi : Z) :
  exists least greatest,
    agg_min (values (apply str_len s)) = Ok least
    /\ agg_max (values (apply str_len s)) = Ok greatest
    /\ value_lt least (Int lo) = Ok (existsb (length_below lo) (values (apply str_len s)))
    /\ value_lt (Int hi) greatest
       = Ok (existsb (length_above hi) (values (apply str_len s))).
Proof.
  destruct (agg_min_below lo (lengths_or_null s)) with (best := NA)
    as [least [El [Ll Bl]]]; [now left|].
  destruct (agg_max_above hi (lengths_or_null s)) with (best := NA)
    as [greatest [Eg [Lg Bg]]]; [now left|].
  exists least, greatest. split; [exact El|]. split; [exact Eg|].
  rewrite value_lt_length_below, value_lt_length_above by assumption.
  now rewrite Bl, Bg.
Qed.

(** Some length lies outside the bounds exactly when some text does. *)
Lemma lengths_outside lo hi (xs : list value) :
  existsb (length_below lo) (map str_len xs) || existsb (length_above hi) (map str_len xs)
  = negb (forallb (length_within lo hi) xs).
Proof.
  induction xs as [|x xs IH]; [reflexivity|]. cbn [map existsb forallb].
  rewrite negb_andb, <- IH.
  assert (length_below lo (str_len x) || length_above hi (str_len x)
          = negb (length_within lo hi x)) as <-.
  { destruct x; try reflexivity. cbn [str_len length_below length_above length_within].
    destruct (Z.ltb_spec (Z.of_nat (String.length s)) lo),
             (Z.ltb_spec hi (Z.of_nat (String.length s))),
             (Z.leb_spec lo (Z.of_nat (String.length s))),
             (Z.leb_spec (Z.of_nat (String.length s)) hi); simpl; auto; lia. }
  destruct (length_below lo (str_len x)), (length_above hi (str_len x)),
           (existsb (length_below lo) (map str_len xs)),
           (existsb (length_above hi) (map str_len xs)); reflexivity.
Qed.

Lemma minimum_with_max_value v c : minimum (with_max_value v c) = minimum c.
Proof. unfold minimum, with_max_value. simpl. now destruct (conversion c). Qed.

Lemma minimum_character c :
  sql_type c = "varchar" \/ sql_type c = "nvarchar" ->
  conversion c = lookup (sql_type c) rules -> minimum c = Int 1.
Proof. unfold minimum. intros [E|E] ->; rewrite E; reflexivity. Qed.

(** The upper bound of a string column is what the size check puts there. *)
Lemma maximum_with_max_value v c :
  sql_type c = "varchar" \/ sql_type c = "nvarchar" ->
  conversion c = lookup (sql_type c) rules -> maximum (with_max_value v c) = v.
Proof. unfold maximum, with_max_value. simpl. intros [E|E] ->; rewrite E; reflexivity. Qed.

(** The size check of a table of one string column against its schema row. *)
Lemma check_column_size_of_one_column (dataframe : DataFrame) (col : string) (s : Series)
      (c : Column) :
  col <> "" ->
  columns dataframe = [(col, s)] ->
  dtype s = "string" ->
  sql_type c = "varchar" \/ sql_type c = "nvarchar" ->
  conversion c = lookup (sql_type c) rules ->
  check_column_size dataframe [(col, c)]
  = if forallb (length_within 1 (column_size c)) (values s)
    then Ok tt
    else Raise (SQLInsufficientColumnSize [col]).
Proof.
  intros Ne Ec Ds Tc Cc. unfold check_column_size. rewrite Ec.
  cbn [filter snd fst]. rewrite Ds. cbn [String.eqb Ascii.eqb Bool.eqb andb names map fst].
  rewrite (@any_name_in col [col]) by (simpl; auto).
  unfold loc, isin. cbn [map_result lookup existsb]. rewrite String.eqb_refl.
  cbn [and_then fold_left assign fst snd orb]. rewrite String.eqb_refl.
  set (bounded := with_max_value (Int (column_size c)) c).
  assert (index_where (fun c0 => String.eqb (sql_type c0) "datetimeoffset") [(col, bounded)]
          = []) as ->.
  { unfold index_where. cbn [filter snd]. unfold bounded. cbn [with_max_value sql_type].
    destruct Tc as [->| ->]; reflexivity. }
  cbn [map_result and_then filter fst existsb negb].
  destruct (agg_lengths s 1 (column_size c)) as [least [greatest [El [Eg [Bl Bg]]]]].
  cbn [snd]. rewrite El, Eg. cbn [and_then app flat_map fst snd lookup].
  rewrite String.eqb_refl.
  cbn [app map_result min max min_allowed max_allowed fst snd].
  unfold bounded. rewrite minimum_with_max_value, (@minimum_character c Tc Cc).
  rewrite (@maximum_with_max_value _ c Tc Cc). rewrite Bl, Bg. cbn [and_then].
  cbn [values apply]. rewrite lengths_outside.
  destruct (forallb (length_within 1 (column_size c)) (values s)); reflexivity.
Qed.

(** C10.  For a string column of a varchar or nvarchar schema row joined from
    [rules], the size check replaces the upper bound by the declared size
    and keeps the lower bound 1 of the registry.  When the column holds an
    empty string, or a text longer than the declared size, the check never
    passes: it raises [SQLInsufficientColumnSize] naming the column, unless
    another column stopped the check before with an error of its own.  And
    on a table of that one column, the check passes exactly when every text
    has from 1 to the declared size characters, and raises
    [SQLInsufficientColumnSize] naming the column otherwise: a text of the
    declared size passes, the empty string does not. *)
Theorem empty_string_fails_size_check :
  forall (dataframe : DataFrame) (schema : Schema) (col : string) (s : Series) (c : Column),
    NoDup (names schema) ->
    col <> "" ->
    In (col, s) (columns dataframe) ->
    dtype s = "string" ->
    lookup col schema = Some c ->
    sql_type c = "varchar" \/ sql_type c = "nvarchar" ->
    conversion c = lookup (sql_type c) rules ->
    (forall t,
        In (Str t) (values s) ->
        t = "" \/ column_size c < Z.of_nat (String.length t) ->
        exists e, check_column_size dataframe schema = Raise e /\ reports col e)
    /\ (columns dataframe = [(col, s)] ->
        schema = [(col, c)] ->
        check_column_size dataframe schema
        = if forallb (length_within 1 (column_size c)) (values s)
          then Ok tt
          else Raise (SQLInsufficientColumnSize [col])).
Proof.
  intros dataframe schema col s c N Ne Is Ds Lc Tc Cc.
  split; [|intros Ec ->; now apply check_column_size_of_one_column].
  intros t It Out.
  pose proof (stopped_reports col) as SR.
  unfold check_column_size.
  set (strings := names (filter (fun c0 => String.eqb (dtype (snd c0)) "string")
                                (columns dataframe))).
  assert (In col strings) as Istr.
  { unfold strings, names. apply in_map_iff. exists (col, s). split; [reflexivity|].
    apply filter_In. split; [assumption|]. simpl. rewrite Ds. reflexivity. }
  rewrite (any_name_in _ Istr Ne).
  (* the upper bounds of the string columns are replaced *)
  apply and_then_raises; [|exact SR|].
  { apply raises_only_and_then; [|intros; exact I].
    apply raises_only_map_result. intros k.
    apply raises_only_and_then; [|intros; exact I].
    apply raises_only_loc. simpl. auto. }
  intros [schema1 check1] E1.
  destruct (map_result _ strings) as [updates|] eqn:Eu; simpl in E1; [|discriminate].
  injection E1 as <- <-.
  set (schema1 := fold_left (fun sc r => assign (fst r) (snd r) sc) updates schema).
  set (bounded := with_max_value (Int (column_size c)) c).
  assert (forall k v, In (k, v) updates ->
                      exists c0, lookup k schema = Some c0
                                 /\ v = with_max_value (Int (column_size c0)) c0) as Hu.
  { intros k v I. destruct (map_result_out _ _ _ Eu I) as [k0 [F _]].
    unfold loc in F. destruct (lookup k0 schema) as [c0|] eqn:L0; simpl in F; [|discriminate].
    inversion F; subst. eauto. }
  assert (lookup col schema1 = Some bounded) as L1.
  { unfold schema1. rewrite fold_assign_lookup.
    destruct (map_result_in _ _ _ Eu Istr) as [y [F Iy]].
    unfold loc in F. rewrite Lc in F. simpl in F. inversion F; subst y.
    destruct (lookup col (rev updates)) as [v|] eqn:Lr.
    - apply lookup_In, in_rev in Lr. destruct (Hu _ _ Lr) as [c0 [L0 ->]].
      rewrite Lc in L0. injection L0 as <-. reflexivity.
    - apply lookup_None in Lr. exfalso. apply Lr. unfold names. apply in_map_iff.
      exists (col, with_max_value (Int (column_size c)) c). split; [reflexivity|].
      now apply in_rev in Iy. }
  assert (names schema1 = names schema) as En1.
  { apply names_fold_assign. intros k I. unfold names in I.
    apply in_map_iff in I as [[k' v] [E I]].
    simpl in E. subst k'. destruct (Hu _ _ I) as [c0 [L0 _]].
    apply lookup_In in L0. unfold names. apply in_map_iff. now exists (k, c0). }
  set (datetimeoffset :=
         index_where (fun c0 => String.eqb (sql_type c0) "datetimeoffset") schema1).
  assert (isin col datetimeoffset = false) as Nd.
  { destruct (isin col datetimeoffset) eqn:D; [|reflexivity]. exfalso.
    unfold isin in D. apply existsb_exists in D as [k [I E]].
    apply String.eqb_eq in E. subst k.
    unfold datetimeoffset, index_where, names in I.
    apply in_map_iff in I as [[k v] [E I]]. simpl in E. subst k.
    apply filter_In in I as [I T]. simpl in T.
    apply lookup_In_NoDup in I; [|now rewrite En1].
    rewrite L1 in I. inversion I; subst v. unfold bounded in T. simpl in T.
    destruct Tc as [E|E]; rewrite E in T; discriminate. }
  (* the offset-aware columns are set apart *)
  apply and_then_raises; [|exact SR|].
  { apply raises_only_map_result. intros k.
    match goal with |- raises_only _ (match ?l with _ => _ end) => destruct l end;
      simpl; auto. }
  intros _ _.
  (* the observed ranges *)
  apply and_then_raises; [|exact SR|].
  { apply raises_only_map_result. intros k.
    apply raises_only_and_then;
      [apply raises_only_agg_best; intros; apply raises_only_value_lt; simpl; auto|intros lo].
    apply raises_only_and_then;
      [apply raises_only_agg_best; intros; apply raises_only_value_lt; simpl; auto
      |intros; exact I]. }
  intros observed Eo.
  destruct (agg_lengths s 1 (column_size c)) as [least [greatest [El [Eg [Bl Bg]]]]].
  assert (In (col, (least, greatest)) observed) as Io.
  { destruct (map_result_in _ _ (col, apply str_len s) Eo) as [y [F Iy]].
    - apply filter_In. split.
      + apply in_map_iff. exists (col, s). split; [|assumption].
        simpl. unfold isin.
        replace (existsb (String.eqb col) strings) with true; [reflexivity|].
        symmetry. apply existsb_exists. exists col. split; [assumption | apply String.eqb_refl].
      + simpl. now rewrite Nd.
    - cbn [fst snd] in F. rewrite El, Eg in F. cbn [and_then] in F.
      inversion F; subst y. exact Iy. }
  apply and_then_raises; [|exact SR|].
  { apply raises_only_map_result. intros k.
    apply raises_only_and_then; [apply raises_only_getitem; simpl; auto | intros s0].
    apply raises_only_and_then.
    { unfold builtin_min. destruct (values s0); simpl; auto.
      apply raises_only_builtin_best; intros; apply raises_only_value_lt; simpl; auto. }
    intros lo. apply raises_only_and_then; [|intros; exact I].
    unfold builtin_max. destruct (values s0); simpl; auto.
    apply raises_only_builtin_best; intros; apply raises_only_value_lt; simpl; auto. }
  intros offsets _.
  (* the comparison with the allowed ranges *)
  set (joined := flat_map _ (observed +++ offsets)).
  assert (In (col, {| min := least; max := greatest;
                      min_allowed := Int 1; max_allowed := Int (column_size c) |}) joined)
    as Ij.
  { unfold joined. apply in_flat_map. exists (col, (least, greatest)). split.
    - apply in_or_app. now left.
    - simpl. fold schema1. rewrite L1. left. f_equal. f_equal.
      + unfold bounded. rewrite minimum_with_max_value. now apply minimum_character.
      + unfold bounded. now apply maximum_with_max_value. }
  apply and_then_raises; [|exact SR|].
  { match goal with |- raises_only _ (match ?m with _ => _ end) =>
      assert (raises_only (fun e => e = TypeError \/ stopped_elsewhere e) m) as R end.
    { apply raises_only_map_result. intros r.
      apply raises_only_and_then; [apply raises_only_value_lt; simpl; auto | intros].
      apply raises_only_and_then; [apply raises_only_value_lt; simpl; auto | intros; exact I]. }
    destruct (map_result _ joined) as [|[]]; simpl in *; auto; destruct R as [D|[]];
      discriminate. }
  intros flags Ef.
  assert (Ef' : map_result
                  (fun r => below <~ value_lt (min (snd r)) (min_allowed (snd r)) ;;
                            above <~ value_lt (max_allowed (snd r)) (max (snd r)) ;;
                            Ok (fst r, below || above)) joined = Ok flags).
  { destruct (map_result _ joined) as [|[]]; simpl in Ef; try discriminate; assumption. }
  destruct (map_result_in _ _ _ Ef' Ij) as [y [F Iy]]. cbn [fst snd min max min_allowed
                                                            max_allowed] in F.
  rewrite Bl, Bg in F. cbn [and_then] in F.
  cbn [values apply] in F. rewrite lengths_outside in F.
  assert (forallb (length_within 1 (column_size c)) (values s) = false) as Fw.
  { destruct (forallb _ (values s)) eqn:W; [|reflexivity]. exfalso.
    rewrite forallb_forall in W. specialize (W _ It). cbn [length_within] in W.
    apply andb_true_iff in W as [W1 W2]. apply Z.leb_le in W1, W2.
    destruct Out as [->|Out]; [simpl in W1; lia | lia]. }
  rewrite Fw in F. cbn [negb] in F. inversion F; subst y. clear F.
  assert (In col (names (filter (fun r => snd r) flags))) as Iinv.
  { unfold names. apply in_map_iff. exists (col, true). split; [reflexivity|].
    apply filter_In. split; [assumption | reflexivity]. }
  set (invalid := names (filter (fun r => snd r) flags)) in *.
  destruct invalid as [|k invalid']; [contradiction|].
  simpl. eexists. split; [reflexivity|]. exact Iinv.
Qed.

(** A varchar(2) column: "ab" beside a null passes, "ab" beside the empty
    string does not, and neither does "abc". *)
Lemma empty_string_fails_size_check_witness :
  let schema := [("name", described "varchar" 2)] in
  let column := fun cells => table [("name", {| dtype := "string"; values := cells |})] in
  check_column_size (column [Str "ab"; NA]) schema = Ok tt
  /\ check_column_size (column [Str "ab"; Str ""]) schema
     = Raise (SQLInsufficientColumnSize ["name"])
  /\ check_column_size (column [Str "abc"]) schema
     = Raise (SQLInsufficientColumnSize ["name"])
  /\ exists e, check_column_size (column [Str "ab"; Str ""]) schema = Raise e
               /\ reports "name" e.
Proof.
  intros schema column.
  assert (forall cells,
             (forall t, In (Str t) cells -> t = "" \/ 2 < Z.of_nat (String.length t) ->
                        exists e, check_column_size (column cells) schema = Raise e
                                  /\ reports "name" e)
             /\ check_column_size (column cells) schema
                = if forallb (length_within 1 2) cells
                  then Ok tt
                  else Raise (SQLInsufficientColumnSize ["name"])) as W.
  { intros cells.
    destruct (@empty_string_fails_size_check (column cells) schema "name"
                {| dtype := "string"; values := cells |} (described "varchar" 2))
      as [A B].
    - repeat constructor. simpl. tauto.
    - discriminate.
    - simpl. auto.
    - reflexivity.
    - reflexivity.
    - left. reflexivity.
    - reflexivity.
    - split; [exact A | now apply B]. }
  split; [exact (proj2 (W [Str "ab"; NA]))|].
  split; [exact (proj2 (W [Str "ab"; Str ""]))|].
  split; [exact (proj2 (W [Str "abc"]))|].
  apply (proj1 (W [Str "ab"; Str ""]) ""); simpl; auto.
Defined.

(* ===================================================================== *)
(** ** The buffers of the driver: TIME *)
(* ===================================================================== *)

Lemma unsigned_le_range bs : 0 <= unsigned_le bs < 256 ^ Z.of_nat (length bs).
Proof.
  induction bs as [|b bs IH]; simpl length; [simpl; lia|].
  rewrite Nat2Z.inj_succ, Z.pow_succ_r by lia. cbn [unsigned_le].
  pose proof (Byte.to_N_bounded b) as B.
  set (P := 256 ^ Z.of_nat (length bs)) in *. set (u := unsigned_le bs) in *.
  assert (0 <= Z.of_N (Byte.to_N b) <= 255) by lia. clearbody P u. lia.
Qed.

Lemma integer_fits order c bs : length bs = item_size c -> fits c (integer order c bs).
Proof.
  intros L. unfold fits, integer.
  set (u := unsigned_le _).
  assert (0 <= u < 256 ^ Z.of_nat (item_size c)) as R.
  { subst u. destruct order.
    - rewrite <- L. apply unsigned_le_range.
    - rewrite <- L, <- length_rev. apply unsigned_le_range. }
  destruct c; simpl in *; try lia;
    match goal with |- context [?a <=? u] => destruct (Z.leb_spec a u) end; lia.
Qed.

Lemma time_fields_total hour minute second fraction :
  0 <= fraction ->
  Timedelta_kw 0 hour minute second 0 (fraction / 1000) (fraction mod 1000)
  = hour * ns_per_hour + minute * ns_per_minute + second * ns_per_s + fraction.
Proof.
  intros F. unfold Timedelta_kw, ns_per_day, ns_per_hour, ns_per_minute, ns_per_ms, ns_per_s, ns_per_us.
  Z.div_mod_to_equations. lia.
Qed.

Lemma components_of_fields hour minute second fraction :
  0 <= hour < 24 -> 0 <= minute < 60 -> 0 <= second < 60 -> 0 <= fraction < 1000000000 ->
  components (hour * ns_per_hour + minute * ns_per_minute + second * ns_per_s + fraction)
  = {| days := 0; hours := hour; minutes := minute; seconds := second;
       milliseconds := fraction / 1000000;
       microseconds := fraction / 1000 mod 1000;
       nanoseconds := fraction mod 1000 |}.
Proof.
  intros Hh Hm Hs Hf.
  unfold components, ns_per_day, ns_per_hour, ns_per_minute, ns_per_ms, ns_per_s, ns_per_us.
  f_equal; Z.div_mod_to_equations; lia.
Qed.

Lemma unpack_length sys s buffer fields :
  unpack sys s buffer = Ok fields -> length buffer = struct_size s.
Proof.
  unfold unpack. destruct (Nat.eqb_spec (length buffer) (struct_size s)); [auto | discriminate].
Qed.

Lemma SQL_SS_TIME2_unfold raw_bytes :
  Converter.SQL_SS_TIME2 raw_bytes
  = (fields <~ struct_unpack little "<4hI" raw_bytes ;;
     match fields with
     | [hour; minute; second; _; fraction] =>
         Ok (Timedelta (Timedelta_kw 0 hour minute second 0 (fraction / 1000) (fraction mod 1000)))
     | _ => Raise (ValueError "not enough values to unpack" [])
     end).
Proof. reflexivity. Qed.

Lemma struct_unpack_short sys format pattern buffer :
  struct_Struct format = Ok pattern -> length buffer <> struct_size pattern ->
  struct_unpack sys format buffer
  = Raise (Error "struct.error"
             ("unpack requires a buffer of " ++ str (Z.of_nat (struct_size pattern)) ++ " bytes")).
Proof.
  intros E L. unfold struct_unpack. rewrite E. cbn [and_then]. unfold unpack.
  destruct (Nat.eqb_spec (length buffer) (struct_size pattern)); [contradiction | reflexivity].
Qed.

(** X1: every buffer of twelve bytes is decoded, its fields unchecked. *)
Theorem SQL_SS_TIME2_decodes_twelve_bytes :
  forall raw_bytes,
    (length raw_bytes = 12%nat ->
     exists hour minute second pad fraction,
       struct_unpack little "<4hI" raw_bytes = Ok [hour; minute; second; pad; fraction]
       /\ fits fmt_h hour /\ fits fmt_h minute /\ fits fmt_h second /\ fits fmt_I fraction
       /\ Converter.SQL_SS_TIME2 raw_bytes
          = Ok (Timedelta (hour * ns_per_hour + minute * ns_per_minute
                           + second * ns_per_s + fraction)))
    /\ (length raw_bytes <> 12%nat ->
        Converter.SQL_SS_TIME2 raw_bytes
        = Raise (Error "struct.error" "unpack requires a buffer of 12 bytes")).
Proof.
  intros raw. split.
  - intros L.
    do 12 (destruct raw as [|? raw]; [discriminate L|]). destruct raw; [|discriminate L].
    exists (integer little fmt_h [b; b0]), (integer little fmt_h [b1; b2]),
      (integer little fmt_h [b3; b4]), (integer little fmt_h [b5; b6]),
      (integer little fmt_I [b7; b8; b9; b10]).
    assert (struct_unpack little "<4hI" [b; b0; b1; b2; b3; b4; b5; b6; b7; b8; b9; b10]
            = Ok [integer little fmt_h [b; b0]; integer little fmt_h [b1; b2];
                  integer little fmt_h [b3; b4]; integer little fmt_h [b5; b6];
                  integer little fmt_I [b7; b8; b9; b10]]) as U by reflexivity.
    split; [exact U|].
    do 4 (split; [apply integer_fits; reflexivity|]).
    rewrite SQL_SS_TIME2_unfold, U. cbn [and_then].
    rewrite time_fields_total; [reflexivity|].
    pose proof (@integer_fits little fmt_I [b7; b8; b9; b10] eq_refl) as F.
    exact (proj1 F).
  - intros L. rewrite SQL_SS_TIME2_unfold.
    rewrite (@struct_unpack_short little "<4hI"
               {| native := false; items := [fmt_h; fmt_h; fmt_h; fmt_h; fmt_I] |});
      [reflexivity | reflexivity | exact L].
Qed.

(* ===================================================================== *)
(** ** The buffers of the driver: DATETIME2 *)
(* ===================================================================== *)

Ltac unfold_units :=
  unfold Timedelta_kw, ns_per_day, ns_per_hour, ns_per_minute, ns_per_ms, ns_per_s, ns_per_us in *.

Lemma month_cases month : 1 <= month <= 12 -> In month [1; 2; 3; 4; 5; 6; 7; 8; 9; 10; 11; 12].
Proof. intros R. simpl. lia. Qed.

Lemma day_of_year_range year month day :
  1 <= month <= 12 -> 1 <= day <= days_in_month year month ->
  1 <= days_before_month year month + day <= 366.
Proof.
  intros Rm Rd. unfold days_before_month, days_in_month in *.
  apply month_cases in Rm. simpl in Rm.
  destruct (is_leap year);
    repeat (destruct Rm as [E|Rm];
            [subst month;
             match goal with
             | |- context [Z.to_nat ?k] =>
                 let v := eval compute in (Z.to_nat k) in
                 change (Z.to_nat k) with v in *
             end;
             cbv [nth andb Z.eqb Z.ltb Z.compare Pos.compare Pos.compare_cont Pos.eqb] in *;
             lia|]); contradiction.
Qed.

Lemma ymd2ord_range year month day :
  1 <= month <= 12 -> 1 <= day <= days_in_month year month ->
  days_before_year year < ymd2ord year month day <= days_before_year year + 366.
Proof.
  intros Rm Rd. pose proof (day_of_year_range _ Rm Rd). unfold ymd2ord. lia.
Qed.


Lemma wall_clock_parts year month day hour minute second fraction :
  0 <= fraction ->
  wall_clock year month day hour minute second (fraction / 1000) (fraction mod 1000)
  = (ymd2ord year month day - ymd2ord 1970 1 1) * ns_per_day
    + time_of_day hour minute second fraction.
Proof.
  intros F. unfold wall_clock, time_of_day. rewrite time_fields_total by assumption. reflexivity.
Qed.

Lemma days_before_year_bounds year :
  1678 <= year <= 2261 -> 612512 <= days_before_year year <= 825448.
Proof. intros R. unfold days_before_year. Z.div_mod_to_equations. lia. Qed.

Lemma time_of_day_range hour minute second fraction :
  0 <= hour <= 23 -> 0 <= minute <= 59 -> 0 <= second <= 59 -> 0 <= fraction < 1000000000 ->
  0 <= time_of_day hour minute second fraction < ns_per_day.
Proof. intros. unfold time_of_day. unfold_units. lia. Qed.

Lemma Timestamp_of_fields year month day hour minute second fraction tzinfo :
  1678 <= year <= 2261 -> 1 <= month <= 12 -> 1 <= day <= days_in_month year month ->
  0 <= hour <= 23 -> 0 <= minute <= 59 -> 0 <= second <= 59 -> 0 <= fraction < 1000000000 ->
  match tzinfo with Some offset => Z.abs offset < 1440 | None => True end ->
  Timestamp_of year month day hour minute second (fraction / 1000) (fraction mod 1000) tzinfo
  = inr (Timestamp ((ymd2ord year month day - ymd2ord 1970 1 1) * ns_per_day
                    + time_of_day hour minute second fraction) tzinfo).
Proof.
  intros Ry Rm Rd Rh Rmi Rs Rf Rtz. unfold Timestamp_of.
  rewrite wall_clock_parts by lia.
  pose proof (ymd2ord_range _ Rm Rd) as Ro.
  pose proof (days_before_year_bounds Ry) as Rb.
  pose proof (time_of_day_range Rh Rmi Rs Rf) as Rt.
  change (ymd2ord 1970 1 1) with 719163 in *.
  set (ord := ymd2ord year month day) in *.
  set (tod := time_of_day hour minute second fraction) in *.
  assert (0 <= fraction / 1000 <= 999999) as Rus by (Z.div_mod_to_equations; lia).
  repeat match goal with
         | |- context [negb ((?a <=? ?b) && (?c <=? ?d))] =>
             replace (negb ((a <=? b) && (c <=? d))) with false
               by (symmetry; apply negb_false_iff, andb_true_iff; split; apply Z.leb_le; lia)
         end.
  match goal with
  | |- (if ?c then _ else _) = _ => replace c with true; [reflexivity|]
  end.
  symmetry. unfold Timestamp_min, Timestamp_max, instant. 
  change (2 ^ 63) with 9223372036854775808.
  unfold ns_per_day, ns_per_minute, ns_per_s in *.
  destruct tzinfo as [offset|];
    repeat (apply andb_true_iff; split); apply Z.leb_le; lia.
Qed.

Lemma struct_unpack_length sys format pattern buffer fields :
  struct_Struct format = Ok pattern -> struct_unpack sys format buffer = Ok fields ->
  length buffer = struct_size pattern.
Proof.
  intros E U. unfold struct_unpack in U. rewrite E in U. cbn [and_then] in U.
  eapply unpack_length; eauto.
Qed.

Lemma SQL_TYPE_TIMESTAMP_sixteen sys raw_bytes :
  length raw_bytes = 16%nat ->
  Converter.SQL_TYPE_TIMESTAMP sys raw_bytes
  = (fields <~ struct_unpack sys "hHHHHHI" raw_bytes ;;
     match fields with
     | [year; month; day; hour; minute; second; fraction] =>
         called (Timestamp_of year month day hour minute second
                   (fraction / 1000) (fraction mod 1000) None)
     | _ => Raise (ValueError "not enough values to unpack" [])
     end).
Proof. intros L. unfold Converter.SQL_TYPE_TIMESTAMP. rewrite L. reflexivity. Qed.

Lemma sub_second_fields days_ hour minute second fraction :
  0 <= hour <= 23 -> 0 <= minute <= 59 -> 0 <= second <= 59 -> 0 <= fraction < 1000000000 ->
  let ns := days_ * ns_per_day + time_of_day hour minute second fraction in
  ns / ns_per_day = days_
  /\ ns mod ns_per_day = time_of_day hour minute second fraction
  /\ microsecond ns = fraction / 1000
  /\ nanosecond ns = fraction mod 1000.
Proof.
  intros Rh Rm Rs Rf ns. subst ns. unfold microsecond, nanosecond, time_of_day. unfold_units.
  repeat split; Z.div_mod_to_equations; lia.
Qed.

(** X3: a DATETIME2 buffer is read to the nanosecond. *)
Theorem datetime2_is_read_to_the_nanosecond :
  forall sys raw_bytes year month day hour minute second fraction,
    struct_unpack sys "hHHHHHI" raw_bytes
    = Ok [year; month; day; hour; minute; second; fraction] ->
    1678 <= year <= 2261 -> 1 <= month <= 12 -> 1 <= day <= days_in_month year month ->
    0 <= hour <= 23 -> 0 <= minute <= 59 -> 0 <= second <= 59 -> 0 <= fraction < 1000000000 ->
    exists ns,
      Converter.SQL_TYPE_TIMESTAMP sys raw_bytes = Ok (Timestamp ns None)
      /\ ns / ns_per_day = ymd2ord year month day - ymd2ord 1970 1 1
      /\ ns mod ns_per_day = time_of_day hour minute second fraction
      /\ microsecond ns = fraction / 1000
      /\ nanosecond ns = fraction mod 1000
      /\ timestamp_truncated (Timestamp ns None) = negb (fraction mod 100 =? 0).
Proof.
  intros sys raw year month day hour minute second fraction U Ry Rm Rd Rh Rmi Rs Rf.
  assert (length raw = 16%nat) as L.
  { apply (@struct_unpack_length sys "hHHHHHI"
             {| native := true; items := [fmt_h; fmt_H; fmt_H; fmt_H; fmt_H; fmt_H; fmt_I] |}
             raw _ eq_refl U). }
  rewrite (SQL_TYPE_TIMESTAMP_sixteen _ _ L), U. cbn [and_then].
  rewrite (@Timestamp_of_fields year month day hour minute second fraction None) by auto.
  cbn [called]. eexists. split; [reflexivity|].
  destruct (@sub_second_fields (ymd2ord year month day - ymd2ord 1970 1 1)
              hour minute second fraction Rh Rmi Rs Rf) as [Ed [Et [Eus Ens]]].
  repeat (split; [assumption|]).
  unfold timestamp_truncated. rewrite Ens.
  destruct (Z.eqb_spec (fraction mod 100) 0) as [E|E]; cbn [negb].
  - apply Z.ltb_ge. Z.div_mod_to_equations. lia.
  - apply Z.ltb_lt. Z.div_mod_to_equations. lia.
Qed.

Lemma datetime2_is_read_to_the_nanosecond_witness :
  exists ns,
    Converter.SQL_TYPE_TIMESTAMP little
      [Byte.xd0; Byte.x07; Byte.x02; Byte.x00; Byte.x1d; Byte.x00; Byte.x17; Byte.x00;
       Byte.x3b; Byte.x00; Byte.x3b; Byte.x00; Byte.x9c; Byte.xc9; Byte.x9a; Byte.x3b]
    = Ok (Timestamp ns None)
    /\ ns / ns_per_day = ymd2ord 2000 2 29 - ymd2ord 1970 1 1
    /\ ns mod ns_per_day = time_of_day 23 59 59 999999900
    /\ microsecond ns = 999999900 / 1000
    /\ nanosecond ns = 999999900 mod 1000
    /\ timestamp_truncated (Timestamp ns None) = negb (999999900 mod 100 =? 0).
Proof.
  apply (@datetime2_is_read_to_the_nanosecond little _ 2000 2 29 23 59 59 999999900);
    [reflexivity | lia | lia | vm_compute; intuition discriminate | lia | lia | lia | lia].
Defined.

(** X4: a DATETIME2 value outside the years pandas counts in nanoseconds is refused. *)
Theorem datetime2_outside_nanosecond_range_is_refused :
  forall sys raw_bytes year month day hour minute second fraction,
    struct_unpack sys "hHHHHHI" raw_bytes
    = Ok [year; month; day; hour; minute; second; fraction] ->
    1 <= year <= 1676 \/ 2263 <= year <= 9999 ->
    1 <= month <= 12 -> 1 <= day <= days_in_month year month ->
    0 <= hour <= 23 -> 0 <= minute <= 59 -> 0 <= second <= 59 -> 0 <= fraction < 1000000000 ->
    Converter.SQL_TYPE_TIMESTAMP sys raw_bytes
    = Raise (Error "OutOfBoundsDatetime" "Out of bounds nanosecond timestamp").
Proof.
  intros sys raw year month day hour minute second fraction U Ry Rm Rd Rh Rmi Rs Rf.
  assert (length raw = 16%nat) as L.
  { apply (@struct_unpack_length sys "hHHHHHI"
             {| native := true; items := [fmt_h; fmt_H; fmt_H; fmt_H; fmt_H; fmt_H; fmt_I] |}
             raw _ eq_refl U). }
  rewrite (SQL_TYPE_TIMESTAMP_sixteen _ _ L), U. cbn [and_then].
  unfold Timestamp_of. rewrite wall_clock_parts by lia.
  pose proof (ymd2ord_range _ Rm Rd) as Ro.
  pose proof (time_of_day_range Rh Rmi Rs Rf) as Rt.
  change (ymd2ord 1970 1 1) with 719163 in *.
  set (ord := ymd2ord year month day) in *.
  set (tod := time_of_day hour minute second fraction) in *.
  assert (0 <= fraction / 1000 <= 999999) as Rus by (Z.div_mod_to_equations; lia).
  repeat match goal with
         | |- context [negb ((?a <=? ?b) && (?c <=? ?d))] =>
             replace (negb ((a <=? b) && (c <=? d))) with false
               by (symmetry; apply negb_false_iff, andb_true_iff; split; apply Z.leb_le; lia)
         end.
  match goal with
  | |- called (if ?c then _ else _) = _ => replace c with false; [reflexivity|]
  end.
  symmetry. unfold Timestamp_min, Timestamp_max.
  change (2 ^ 63) with 9223372036854775808.
  unfold ns_per_day, ns_per_s in *. unfold days_before_year in Ro. cbv zeta in Ro.
  destruct Ry as [Ry|Ry].
  - assert (ord * 86400000000000 + tod - 719163 * 86400000000000 < - (9223372036854775808 - 1))
      by (Z.div_mod_to_equations; lia).
    replace (- (9223372036854775808 - 1) <=? (ord - 719163) * (86400 * 1000000000) + tod)
      with false by (symmetry; apply Z.leb_gt; lia).
    reflexivity.
  - assert (9223372036854775808 - 1 < ord * 86400000000000 + tod - 719163 * 86400000000000)
      by (Z.div_mod_to_equations; lia).
    replace ((ord - 719163) * (86400 * 1000000000) + tod <=? 9223372036854775808 - 1)
      with false by (symmetry; apply Z.leb_gt; lia).
    rewrite andb_false_r. reflexivity.
Qed.

Lemma datetime2_outside_nanosecond_range_is_refused_witness :
  Converter.SQL_TYPE_TIMESTAMP little
    [Byte.x0f; Byte.x27; Byte.x0c; Byte.x00; Byte.x1f; Byte.x00; Byte.x00; Byte.x00;
     Byte.x00; Byte.x00; Byte.x00; Byte.x00; Byte.x00; Byte.x00; Byte.x00; Byte.x00]
  = Raise (Error "OutOfBoundsDatetime" "Out of bounds nanosecond timestamp").
Proof.
  apply (@datetime2_outside_nanosecond_range_is_refused little _ 9999 12 31 0 0 0 0);
    [reflexivity | lia | lia | vm_compute; intuition discriminate | lia | lia | lia | lia].
Defined.

(* ===================================================================== *)
(** ** The buffers of the driver: DATETIME, and TIME within its range *)
(* ===================================================================== *)

Lemma round_div_near n d :
  0 <= n -> 0 < d -> Z.abs (2 * (round_div n d * d - n)) <= d.
Proof.
  intros Hn Hd. unfold round_div.
  pose proof (Z.div_mod n d ltac:(lia)) as E.
  pose proof (Z.mod_pos_bound n d Hd) as R.
  set (q := n / d) in *. set (r := n mod d) in *. clearbody q r.
  destruct (Z.ltb_spec (2 * r) d); [lia|].
  destruct (Z.ltb_spec d (2 * r)); [lia|].
  destruct (Z.even q); lia.
Qed.

Lemma round_div_unique n d r :
  0 <= n -> 0 < d -> Z.abs (2 * (r * d - n)) < d -> round_div n d = r.
Proof.
  intros Hn Hd Hr. unfold round_div.
  pose proof (Z.div_mod n d ltac:(lia)) as E.
  pose proof (Z.mod_pos_bound n d Hd) as R.
  set (q := n / d) in *. set (m := n mod d) in *. clearbody q m.
  assert (r = q \/ r = q + 1) as [->| ->] by nia.
  - destruct (Z.ltb_spec (2 * m) d); [reflexivity|]. nia.
  - destruct (Z.ltb_spec (2 * m) d); [nia|].
    destruct (Z.ltb_spec d (2 * m)); [reflexivity|]. nia.
Qed.

Lemma round_tenths ticks :
  0 <= ticks -> In (round_div (10 * ticks) 3 mod 10) [0; 3; 7].
Proof.
  intros T. unfold round_div.
  pose proof (Z.div_mod (10 * ticks) 3 ltac:(lia)) as E.
  pose proof (Z.mod_pos_bound (10 * ticks) 3 ltac:(lia)) as R.
  set (q := 10 * ticks / 3) in *. set (r := (10 * ticks) mod 3) in *. clearbody q r.
  cbn [In].
  destruct (Z.ltb_spec (2 * r) 3).
  - assert (r = 0 \/ r = 1) as [-> | ->] by lia.
    + left. assert (exists k, q = 0 + k * 10) as [k ->] by (exists (7 * ticks - 2 * q); lia).
      rewrite Z.mod_add by lia. reflexivity.
    + right. left.
      assert (exists k, q = 3 + k * 10) as [k ->] by (exists (7 * ticks - 2 * q - 1); lia).
      rewrite Z.mod_add by lia. reflexivity.
  - destruct (Z.ltb_spec 3 (2 * r)); [|lia].
    right. right. left.
    assert (exists k, q + 1 = 7 + k * 10) as [k ->] by (exists (7 * ticks - 2 * q - 2); lia).
    rewrite Z.mod_add by lia. reflexivity.
Qed.

(** The error of [binary64_nearest] below 2^52: at most half a unit of the last place. *)
Lemma binary64_nearest_below n d :
  0 < n -> 0 < d -> Z.log2 n - Z.log2 d < 52 ->
  exists m k,
    binary64_nearest n d = Qmake m (Z.to_pos (2 ^ k))
    /\ 52 - (Z.log2 n - Z.log2 d) <= k
    /\ 0 <= m
    /\ Z.abs (2 * (m * d - n * 2 ^ k)) <= d.
Proof.
  intros Hn Hd L. unfold binary64_nearest.
  set (e0 := Z.log2 n - Z.log2 d - 53).
  set (over := if e0 <? 0 then _ else _).
  set (e := if over then e0 + 1 else e0).
  assert (e <= Z.log2 n - Z.log2 d - 52 /\ e < 0) as [Ee Eneg].
  { subst e e0. destruct over; lia. }
  destruct (Z.ltb_spec e 0); [|lia].
  exists (round_div (n * 2 ^ (- e)) d), (- e).
  assert (0 < 2 ^ (- e)) as Hp by (apply Z.pow_pos_nonneg; lia).
  pose proof (@round_div_near (n * 2 ^ (- e)) d ltac:(nia) Hd) as Near.
  repeat split; try lia; try assumption.
  set (m := round_div _ d) in *. clearbody m. 
  set (P := 2 ^ (- e)) in *. clearbody P. nia.
Qed.

Lemma binary64_of_int t :
  0 < t < 2 ^ 52 ->
  exists k, 0 < k /\ binary64 (inject_Z t) = Qmake (t * 2 ^ k) (Z.to_pos (2 ^ k)).
Proof.
  intros [T1 T2]. unfold binary64. simpl Qnum. simpl Qden.
  destruct t as [|p|p]; try lia.
  assert (Z.log2 (Z.pos p) < 52) as L by (apply Z.log2_lt_pow2; lia).
  destruct (@binary64_nearest_below (Z.pos p) 1 T1 ltac:(lia)) as [m [k [E [Hk [Hm Near]]]]].
  { simpl Z.log2 at 2. lia. }
  change (Z.log2 1) with 0 in Hk.
  exists k. split; [lia|]. rewrite E. f_equal.
  assert (0 < 2 ^ k) by (apply Z.pow_pos_nonneg; lia). lia.
Qed.

Lemma literal_three_and_a_third :
  binary64 (333333333 # 100000000) = Qmake 7505999371444827 (Z.to_pos (2 ^ 51)).
Proof. vm_compute. reflexivity. Qed.

(** [round(3.33333333 * ticks)] is the time of the ticks, thirds of a hundredth of a second, to the nearest millisecond. *)
Lemma ticks_milliseconds_exact ticks :
  0 <= ticks < 25920000 -> ticks_milliseconds ticks = round_div (10 * ticks) 3.
Proof.
  intros [T0 T1]. unfold ticks_milliseconds, float_times_int.
  rewrite literal_three_and_a_third.
  destruct (Z.eq_dec ticks 0) as [->|Tn]; [vm_compute; reflexivity|].
  destruct (@binary64_of_int ticks ltac:(split; [lia|]; change (2 ^ 52) with 4503599627370496; lia))
    as [k1 [Hk1 ->]].
  assert (0 < 2 ^ k1) as P1 by (apply Z.pow_pos_nonneg; lia).
  unfold Qmult. cbn [Qnum Qden].
  unfold binary64. cbn [Qnum Qden].
  set (n2 := 7505999371444827 * (ticks * 2 ^ k1)).
  assert (0 < n2) as Hn2 by (subst n2; nia).
  destruct n2 as [|p|p] eqn:En2; try lia. rewrite <- En2 in *. clear p En2 Hn2.
  rewrite Pos2Z.inj_mul, !Z2Pos.id by (try apply Z.pow_pos_nonneg; lia).
  assert (2 ^ 51 * 2 ^ k1 = 2 ^ (51 + k1)) as Ed by (rewrite Z.pow_add_r; lia).
  rewrite Ed.
  destruct (@binary64_nearest_below n2 (2 ^ (51 + k1))) as [m [k [E [Hk [Hm Near]]]]].
  { subst n2. nia. }
  { apply Z.pow_pos_nonneg; lia. }
  { rewrite Z.log2_pow2 by lia.
    assert (Z.log2 n2 < 78 + k1); [|lia].
    apply Z.log2_lt_pow2; [subst n2; nia|].
    replace (78 + k1) with (27 + 51 + k1) by lia. rewrite !Z.pow_add_r by lia.
    change (2 ^ 27) with 134217728. change (2 ^ 51) with 2251799813685248.
    subst n2. nia. }
  rewrite E. unfold float_round. cbn [Qnum Qden].
  rewrite Z.log2_pow2 in Hk by lia.
  assert (Z.log2 n2 < 78 + k1) as Ln.
  { apply Z.log2_lt_pow2; [subst n2; nia|].
    replace (78 + k1) with (27 + 51 + k1) by lia. rewrite !Z.pow_add_r by lia.
    change (2 ^ 27) with 134217728. change (2 ^ 51) with 2251799813685248.
    subst n2. nia. }
  assert (25 <= k) as Hk25 by lia.
  assert (2 ^ 25 <= 2 ^ k) as Hp by (apply Z.pow_le_mono_r; lia).
  change (2 ^ 25) with 33554432 in Hp.
  rewrite Z2Pos.id by lia.
  assert (round_div m (2 ^ k) = round_div (10 * ticks) 3) as R.
  { pose proof (@round_div_near (10 * ticks) 3 ltac:(lia) ltac:(lia)) as N3.
    set (r := round_div (10 * ticks) 3) in *. clearbody r.
    apply round_div_unique; [assumption | lia |].
    rewrite <- Ed in Near. subst n2.
    change (2 ^ 51) with 2251799813685248 in Near.
    set (P := 2 ^ k) in *. set (P1v := 2 ^ k1) in *. clearbody P P1v.
    assert (Z.abs (2 * (m * 2251799813685248 - 7505999371444827 * ticks * P)) <= 2251799813685248)
      as Near'.
    { assert (Z.abs (2 * (m * 2251799813685248 - 7505999371444827 * ticks * P)) * P1v
              <= 2251799813685248 * P1v) as X.
      { rewrite <- (Z.abs_eq P1v) at 1 by lia. rewrite <- Z.abs_mul.
        replace (2 * (m * 2251799813685248 - 7505999371444827 * ticks * P) * P1v)
          with (2 * (m * (2251799813685248 * P1v) - 7505999371444827 * (ticks * P1v) * P))
          by ring.
        exact Near. }
      nia. }
    clear Near.
    set (u := ticks * P) in *.
    assert (0 <= u <= 25919999 * P) as Hu by (subst u; nia).
    set (v := r * P).
    assert (Z.abs (3 * v - 10 * u) <= P) as Hv.
    { subst u v. replace (3 * (r * P) - 10 * (ticks * P)) with ((3 * r - 10 * ticks) * P) by ring.
      rewrite Z.abs_mul, (Z.abs_eq P) by lia.
      assert (Z.abs (3 * r - 10 * ticks) <= 1) by lia. nia. }
    replace (7505999371444827 * ticks * P) with (7505999371444827 * u) in Near'
      by (subst u; ring).
    clearbody u v. lia. }
  destruct m as [|p|p]; try lia; exact R.
Qed.

Lemma SQL_TYPE_TIMESTAMP_eight sys raw_bytes :
  length raw_bytes <> 16%nat ->
  Converter.SQL_TYPE_TIMESTAMP sys raw_bytes
  = (fields <~ struct_unpack sys "iI" raw_bytes ;;
     match fields with
     | [days_; ticks] =>
         start <~ called (Timestamp_of 1900 1 1 0 0 0 0 0 None) ;;
         span <~ called (Timedelta_of days_ (ticks_milliseconds ticks)) ;;
         called (Timestamp_add start span)
     | _ => Raise (ValueError "not enough values to unpack" [])
     end).
Proof.
  intros L. unfold Converter.SQL_TYPE_TIMESTAMP.
  destruct (Nat.eqb_spec (length raw_bytes) 16); [contradiction | reflexivity].
Qed.

(** X5: a DATETIME buffer is read to the millisecond the engine stores. *)
Theorem datetime_ticks_are_read_to_the_millisecond :
  forall sys raw_bytes days_ ticks,
    struct_unpack sys "iI" raw_bytes = Ok [days_; ticks] ->
    -53690 <= days_ <= 106750 -> 0 <= ticks < 25920000 ->
    let milliseconds_ := round_div (10 * ticks) 3 in
    Converter.SQL_TYPE_TIMESTAMP sys raw_bytes
    = Ok (Timestamp ((ymd2ord 1900 1 1 - ymd2ord 1970 1 1 + days_) * ns_per_day
                     + milliseconds_ * ns_per_ms) None)
    /\ In (milliseconds_ mod 10) [0; 3; 7].
Proof.
  intros sys raw days_ ticks U Rd Rt ms.
  assert (length raw = 8%nat) as L.
  { apply (@struct_unpack_length sys "iI" {| native := true; items := [fmt_i; fmt_I] |}
             raw _ eq_refl U). }
  split; [|apply round_tenths; lia].
  rewrite SQL_TYPE_TIMESTAMP_eight by (rewrite L; discriminate).
  rewrite U. cbn [and_then].
  change (called (Timestamp_of 1900 1 1 0 0 0 0 0 None))
    with (Ok (Timestamp (-2208988800000000000) None)).
  cbn [and_then]. rewrite ticks_milliseconds_exact by assumption. fold ms.
  pose proof (@round_div_near (10 * ticks) 3 ltac:(lia) ltac:(lia)) as N3. fold ms in N3.
  clearbody ms. unfold Timedelta_of, Timedelta_kw. unfold_units.
  change (2 ^ 63) with 9223372036854775808.
  match goal with
  | |- context [if ?c then _ else _] => replace c with true
  end.
  2:{ symmetry. apply andb_true_iff. split; apply Z.leb_le; lia. }
  cbn [called and_then]. unfold Timestamp_add, Timestamp_min, Timestamp_max.
  change (2 ^ 63) with 9223372036854775808.
  match goal with
  | |- context [if ?c then _ else _] => replace c with true
  end.
  2:{ symmetry. apply andb_true_iff. split; apply Z.leb_le; lia. }
  cbn [called]. do 2 f_equal. change (ymd2ord 1900 1 1 - ymd2ord 1970 1 1) with (-25567). lia.
Qed.

Lemma datetime_ticks_are_read_to_the_millisecond_witness :
  let milliseconds_ := round_div (10 * 25919999) 3 in
  Converter.SQL_TYPE_TIMESTAMP little
    [Byte.x00; Byte.x00; Byte.x00; Byte.x00; Byte.xff; Byte.x81; Byte.x8b; Byte.x01]
  = Ok (Timestamp ((ymd2ord 1900 1 1 - ymd2ord 1970 1 1 + 0) * ns_per_day
                   + milliseconds_ * ns_per_ms) None)
  /\ In (milliseconds_ mod 10) [0; 3; 7].
Proof.
  apply (@datetime_ticks_are_read_to_the_millisecond little _ 0 25919999);
    [reflexivity | lia | lia].
Defined.

(** X6: a DATETIME date further from 1900 than a timedelta spans is refused. *)
Theorem datetime_beyond_timedelta_span_is_refused :
  forall sys raw_bytes days_ ticks,
    struct_unpack sys "iI" raw_bytes = Ok [days_; ticks] ->
    106752 <= days_ -> 0 <= ticks < 25920000 ->
    Converter.SQL_TYPE_TIMESTAMP sys raw_bytes
    = Raise (Error "OverflowError" "Python int too large to convert to C long").
Proof.
  intros sys raw days_ ticks U Rd Rt.
  assert (length raw = 8%nat) as L.
  { apply (@struct_unpack_length sys "iI" {| native := true; items := [fmt_i; fmt_I] |}
             raw _ eq_refl U). }
  rewrite SQL_TYPE_TIMESTAMP_eight by (rewrite L; discriminate).
  rewrite U. cbn [and_then].
  change (called (Timestamp_of 1900 1 1 0 0 0 0 0 None))
    with (Ok (Timestamp (-2208988800000000000) None)).
  cbn [and_then]. rewrite ticks_milliseconds_exact by assumption.
  pose proof (@round_div_near (10 * ticks) 3 ltac:(lia) ltac:(lia)) as N3.
  set (ms := round_div (10 * ticks) 3) in *. clearbody ms.
  unfold Timedelta_of, Timedelta_kw. unfold_units.
  change (2 ^ 63) with 9223372036854775808.
  match goal with
  | |- context [if ?a && ?b then _ else _] => replace b with false
  end.
  2:{ symmetry. apply Z.leb_gt. lia. }
  rewrite andb_false_r. reflexivity.
Qed.

Lemma datetime_beyond_timedelta_span_is_refused_witness :
  Converter.SQL_TYPE_TIMESTAMP little
    [Byte.x00; Byte.xa1; Byte.x01; Byte.x00; Byte.x00; Byte.x00; Byte.x00; Byte.x00]
  = Raise (Error "OverflowError" "Python int too large to convert to C long").
Proof.
  apply (@datetime_beyond_timedelta_span_is_refused little _ 106752 0);
    [reflexivity | lia | lia].
Defined.

(** X2: a TIME buffer with the fields of a time of day is read exactly. *)
Theorem time_of_day_is_read_exactly :
  forall raw_bytes hour minute second pad fraction,
    struct_unpack little "<4hI" raw_bytes = Ok [hour; minute; second; pad; fraction] ->
    0 <= hour <= 23 -> 0 <= minute <= 59 -> 0 <= second <= 59 -> 0 <= fraction < 1000000000 ->
    exists ns,
      Converter.SQL_SS_TIME2 raw_bytes = Ok (Timedelta ns)
      /\ components ns
         = {| days := 0; hours := hour; minutes := minute; seconds := second;
              milliseconds := fraction / 1000000;
              microseconds := fraction / 1000 mod 1000;
              nanoseconds := fraction mod 1000 |}
      /\ time_out_of_range (Timedelta ns) = false
      /\ time_truncated (Timedelta ns) = negb (fraction mod 100 =? 0).
Proof.
  intros raw hour minute second pad fraction U Rh Rm Rs Rf.
  rewrite SQL_SS_TIME2_unfold, U. cbn [and_then].
  rewrite time_fields_total by lia. eexists. split; [reflexivity|].
  assert (components (hour * ns_per_hour + minute * ns_per_minute + second * ns_per_s + fraction)
          = {| days := 0; hours := hour; minutes := minute; seconds := second;
               milliseconds := fraction / 1000000;
               microseconds := fraction / 1000 mod 1000;
               nanoseconds := fraction mod 1000 |}) as C
    by (apply components_of_fields; lia).
  split; [exact C|]. split.
  - unfold time_out_of_range. unfold_units. apply orb_false_iff.
    split; [apply Z.leb_gt | apply Z.ltb_ge]; lia.
  - unfold time_truncated. rewrite C. cbn [nanoseconds].
    destruct (Z.eqb_spec (fraction mod 100) 0) as [E|E]; cbn [negb].
    + apply Z.ltb_ge. Z.div_mod_to_equations. lia.
    + apply Z.ltb_lt. Z.div_mod_to_equations. lia.
Qed.

Lemma time_of_day_is_read_exactly_witness :
  exists ns,
    Converter.SQL_SS_TIME2 [Byte.x17; Byte.x00; Byte.x3b; Byte.x00; Byte.x3b; Byte.x00;
                  Byte.x00; Byte.x00; Byte.x9c; Byte.xc9; Byte.x9a; Byte.x3b]
    = Ok (Timedelta ns)
    /\ components ns
       = {| days := 0; hours := 23; minutes := 59; seconds := 59;
            milliseconds := 999999900 / 1000000;
            microseconds := 999999900 / 1000 mod 1000;
            nanoseconds := 999999900 mod 1000 |}
    /\ time_out_of_range (Timedelta ns) = false
    /\ time_truncated (Timedelta ns) = negb (999999900 mod 100 =? 0).
Proof.
  apply (@time_of_day_is_read_exactly _ 23 59 59 0 999999900);
    [reflexivity | lia | lia | lia | lia].
Defined.

(* ===================================================================== *)
(** ** The buffers of the driver: DATETIMEOFFSET *)
(* ===================================================================== *)

Lemma SQL_TYPE_DATETIMEOFFSET_unfold raw_bytes :
  Converter.SQL_TYPE_DATETIMEOFFSET raw_bytes
  = (fields <~ struct_unpack little "<6hI2h" raw_bytes ;;
     match fields with
     | [year; month; day; hour; minute; second; fraction; offset_hour; offset_minute] =>
         tzinfo <~ called (FixedOffset (offset_hour * 60 + offset_minute)) ;;
         called (Timestamp_of year month day hour minute second
                   (fraction / 1000) (fraction mod 1000) (Some tzinfo))
     | _ => Raise (ValueError "not enough values to unpack" [])
     end).
Proof. reflexivity. Qed.

(** X7: a DATETIMEOFFSET buffer is read as its wall-clock reading with its offset. *)
Theorem datetimeoffset_is_read_with_its_offset :
  forall raw_bytes year month day hour minute second fraction offset_hour offset_minute,
    struct_unpack little "<6hI2h" raw_bytes
    = Ok [year; month; day; hour; minute; second; fraction; offset_hour; offset_minute] ->
    1678 <= year <= 2261 -> 1 <= month <= 12 -> 1 <= day <= days_in_month year month ->
    0 <= hour <= 23 -> 0 <= minute <= 59 -> 0 <= second <= 59 -> 0 <= fraction < 1000000000 ->
    let offset := offset_hour * 60 + offset_minute in
    (Z.abs offset < 1440 ->
     exists ns,
       Converter.SQL_TYPE_DATETIMEOFFSET raw_bytes = Ok (Timestamp ns (Some offset))
       /\ ns / ns_per_day = ymd2ord year month day - ymd2ord 1970 1 1
       /\ ns mod ns_per_day = time_of_day hour minute second fraction
       /\ timestamp_truncated (Timestamp ns (Some offset)) = negb (fraction mod 100 =? 0))
    /\ (1440 <= Z.abs offset ->
        Converter.SQL_TYPE_DATETIMEOFFSET raw_bytes = Raise (ValueError "absolute offset is too large" [])).
Proof.
  intros raw year month day hour minute second fraction oh om U Ry Rm Rd Rh Rmi Rs Rf offset.
  rewrite SQL_TYPE_DATETIMEOFFSET_unfold, U. cbn [and_then]. fold offset.
  unfold FixedOffset. split; intros Ro.
  - destruct (Z.leb_spec 1440 (Z.abs offset)); [lia|]. cbn [called and_then].
    rewrite (@Timestamp_of_fields year month day hour minute second fraction (Some offset))
      by auto.
    cbn [called]. eexists. split; [reflexivity|].
    destruct (@sub_second_fields (ymd2ord year month day - ymd2ord 1970 1 1)
                hour minute second fraction Rh Rmi Rs Rf) as [Ed [Et [Eus Ens]]].
    repeat (split; [assumption|]).
    unfold timestamp_truncated. rewrite Ens.
    destruct (Z.eqb_spec (fraction mod 100) 0) as [E|E]; cbn [negb].
    + apply Z.ltb_ge. Z.div_mod_to_equations. lia.
    + apply Z.ltb_lt. Z.div_mod_to_equations. lia.
  - destruct (Z.leb_spec 1440 (Z.abs offset)); [reflexivity | lia].
Qed.

Lemma datetimeoffset_is_read_with_its_offset_witness :
  let offset := (-5) * 60 + (-30) in
  (Z.abs offset < 1440 ->
   exists ns,
     Converter.SQL_TYPE_DATETIMEOFFSET
       [Byte.xd0; Byte.x07; Byte.x02; Byte.x00; Byte.x1d; Byte.x00; Byte.x17; Byte.x00;
        Byte.x3b; Byte.x00; Byte.x3b; Byte.x00; Byte.x9c; Byte.xc9; Byte.x9a; Byte.x3b;
        Byte.xfb; Byte.xff; Byte.xe2; Byte.xff]
     = Ok (Timestamp ns (Some offset))
     /\ ns / ns_per_day = ymd2ord 2000 2 29 - ymd2ord 1970 1 1
     /\ ns mod ns_per_day = time_of_day 23 59 59 999999900
     /\ timestamp_truncated (Timestamp ns (Some offset)) = negb (999999900 mod 100 =? 0))
  /\ (1440 <= Z.abs offset ->
      Converter.SQL_TYPE_DATETIMEOFFSET
        [Byte.xd0; Byte.x07; Byte.x02; Byte.x00; Byte.x1d; Byte.x00; Byte.x17; Byte.x00;
         Byte.x3b; Byte.x00; Byte.x3b; Byte.x00; Byte.x9c; Byte.xc9; Byte.x9a; Byte.x3b;
         Byte.xfb; Byte.xff; Byte.xe2; Byte.xff]
      = Raise (ValueError "absolute offset is too large" [])).
Proof.
  apply (@datetimeoffset_is_read_with_its_offset _ 2000 2 29 23 59 59 999999900 (-5) (-30));
    [reflexivity | lia | lia | vm_compute; intuition discriminate | lia | lia | lia | lia].
Defined.

(* ===================================================================== *)
(** ** The table read_values returns *)
(* ===================================================================== *)

Lemma map_result_raise {A B} (f : A -> result B) xs e :
  map_result f xs = Raise e -> exists x, In x xs /\ f x = Raise e.
Proof.
  induction xs as [|a xs IH]; simpl; [discriminate|].
  destruct (f a) as [b|e'] eqn:F.
  - destruct (map_result f xs) as [l|e'] eqn:R; [discriminate|].
    intros E. inversion E; subst. destruct (IH eq_refl) as [x [I Fx]]. exists x. auto.
  - intros E. inversion E; subst. exists a. auto.
Qed.

Lemma map_result_names {A B} (f : A -> result (string * B)) (key : A -> string) xs ys :
  (forall x y, f x = Ok y -> fst y = key x) ->
  map_result f xs = Ok ys -> names ys = map key xs.
Proof.
  intros K. revert ys. induction xs as [|a xs IH]; simpl; intros ys E.
  - inversion E. reflexivity.
  - destruct (f a) as [b|] eqn:F; [|discriminate].
    destruct (map_result f xs) as [l|]; [|discriminate]. inversion E; subst; clear E.
    simpl. f_equal; [now apply K | now apply IH].
Qed.

Lemma getitems_names cols df fr : getitems cols df = Ok fr -> names fr = cols.
Proof.
  intros E. unfold getitems in E.
  match type of E with
  | map_result ?f _ = _ => assert (forall x y, f x = Ok y -> fst y = x) as K
  end.
  { intros x y. destruct (getitem x df); simpl; [|discriminate].
    intros Y. inversion Y. reflexivity. }
  rewrite (@map_result_names _ _ _ (fun c => c) _ _ K E). apply map_id.
Qed.

Lemma names_assign_incl {A} (l : list (string * A)) k v :
  incl (names (assign k v l)) (k :: names l).
Proof.
  induction l as [|[k' v'] l IH]; simpl.
  - intros x [<-|[]]. now left.
  - destruct (String.eqb_spec k k') as [->|Ne]; simpl.
    + intros x [<-|I]; [now left | right; now right].
    + intros x [<-|I]; [right; now left|].
      destruct (IH x I) as [<-|I']; [now left | right; now right].
Qed.

Lemma names_fold_assign_incl {A} (upd l : list (string * A)) :
  incl (names (fold_left (fun d cv => assign (fst cv) (snd cv) d) upd l))
       (names upd +++ names l).
Proof.
  revert l. induction upd as [|[k v] upd IH]; intros l; simpl; [apply incl_refl|].
  intros x I. apply IH in I. apply in_app_or in I as [I|I].
  - right. apply in_or_app. now left.
  - apply names_assign_incl in I as [<-|I]; [now left|]. right. apply in_or_app. now right.
Qed.

Lemma isin_In x xs : isin x xs = true <-> In x xs.
Proof.
  unfold isin. rewrite existsb_exists. split.
  - intros [y [I E]]. apply String.eqb_eq in E. now subst.
  - intros I. exists x. split; [assumption | apply String.eqb_refl].
Qed.

(** The columns of a table [form_output] returns are columns of the query. *)
Lemma form_output_columns `{Connection} schema rows cols frame :
  form_output schema rows cols = inl (Ok frame) ->
  index frame = [] /\ incl (names (columns frame)) cols.
Proof.
  unfold form_output. destruct (any _); [discriminate|]. intros E. inversion E as [E']; clear E.
  destruct (map_result _ cols) as [dtypes|] eqn:D; cbn [and_then] in E'; [|discriminate].
  destruct (map_result _ (enumerate cols)) as [cells|] eqn:Ce; cbn [and_then] in E'; [|discriminate].
  destruct (map_result _ (fold_left _ cells [])) as [series|] eqn:S; cbn [and_then] in E';
    [|discriminate].
  destruct (getitems _ _); cbn [and_then] in E'; [|discriminate].
  inversion E'; subst; clear E'. split; [reflexivity|]. cbn [columns].
  match type of S with
  | map_result ?f _ = _ => assert (forall x y, f x = Ok y -> fst y = fst x) as Ks
  end.
  { intros x y. destruct (lookup (fst x) dtypes); [|discriminate].
    destruct (called _); simpl; [|discriminate]. intros Y. inversion Y. reflexivity. }
  rewrite (@map_result_names _ _ _ (fun cv => fst cv) _ _ Ks S).
  change (map (fun cv => fst cv) ?l) with (names l).
  intros x I. apply names_fold_assign_incl in I. rewrite app_nil_r in I.
  match type of Ce with
  | map_result ?f _ = _ => assert (forall x y, f x = Ok y -> fst y = snd x) as Kc
  end.
  { intros ic y. destruct (map_result _ rows); simpl; [|discriminate].
    intros Y. inversion Y. reflexivity. }
  rewrite (@map_result_names _ _ _ (fun ic => snd ic) _ _ Kc Ce) in I.
  unfold enumerate in I. apply in_map_iff in I as [[i c] [<- I]]. simpl.
  now apply in_combine_r in I.
Qed.

Lemma read_values_fetched `{Connection} sys statement schema args c rows cols c' :
  execute_fetchall statement args (prepare_connection sys c) = (inr (rows, cols), c') ->
  read_values sys statement schema args c
  = (match form_output schema rows cols with
     | inr e => inl e
     | inl (Raise e) => inl (Raised e)
     | inl (Ok frame) =>
         match key_columns schema with
         | [] => inr frame
         | _ :: _ =>
             match set_index (key_columns schema) true frame with
             | Ok indexed => inr indexed
             | Raise (KeyError _) =>
                 inl (KeyError_of "primary key column missing from query: " (key_columns schema))
             | Raise e => inl (Raised e)
             end
         end
     end, c').
Proof. intros E. unfold read_values. rewrite E. reflexivity. Qed.

Lemma set_index_raises keys drop df e :
  set_index keys drop df = Raise e -> exists k, In k keys /\ e = KeyError k
                                                /\ lookup k (columns df) = None.
Proof.
  unfold set_index. destruct (getitems keys df) as [fr|e'] eqn:G; cbn [and_then]; [discriminate|].
  intros E. inversion E; subst; clear E. unfold getitems in G.
  apply map_result_raise in G as [k [I F]]. exists k. split; [assumption|].
  unfold getitem in F. destruct (lookup k (columns df)); simpl in F; [discriminate|].
  inversion F. auto.
Qed.

(** X8: a query that leaves out a key column of the schema is not answered. *)
Theorem read_values_requires_every_key_column :
  forall (C : Connection) sys statement schema args c rows cols c' key,
    execute_fetchall statement args (prepare_connection sys c) = (inr (rows, cols), c') ->
    In key (key_columns schema) -> ~ In key cols ->
    fails (fst (read_values sys statement schema args c))
    /\ forall frame,
         form_output schema rows cols = inl (Ok frame) ->
         read_values sys statement schema args c
         = (inl (KeyError_of "primary key column missing from query: " (key_columns schema)), c').
Proof.
  intros C sys statement schema args c rows cols c' key E K N.
  rewrite (read_values_fetched _ _ _ _ _ E).
  assert (forall frame, form_output schema rows cols = inl (Ok frame) ->
                        exists k, set_index (key_columns schema) true frame = Raise (KeyError k))
    as Missing.
  { intros frame F. destruct (form_output_columns _ _ _ F) as [_ Inc].
    destruct (set_index (key_columns schema) true frame) as [indexed|e] eqn:S.
    - exfalso. unfold set_index in S.
      destruct (getitems (key_columns schema) frame) as [fr|] eqn:G; cbn [and_then] in S;
        [|discriminate].
      destruct (holds_of_getitems _ _ G key K) as [s L].
      apply N, Inc. apply lookup_In in L. unfold names. apply in_map_iff. now exists (key, s).
    - destruct (set_index_raises _ _ _ S) as [k [_ [-> _]]]. eauto. }
  split.
  - cbn [fst]. destruct (form_output schema rows cols) as [[frame|e]|e] eqn:F; cbn; auto.
    destruct (Missing frame eq_refl) as [k S]. rewrite S.
    destruct (key_columns schema); [contradiction | exact I].
  - intros frame F. rewrite F. destruct (Missing frame F) as [k S]. rewrite S.
    destruct (key_columns schema); [contradiction | reflexivity].
Qed.

Lemma read_values_requires_every_key_column_witness :
  let C := canned_connection [[Int 7]] ["a"] in
  let schema := [("id", keyed 1 "pk" (described "int" 10)); ("a", described "int" 10)] in
  fails (fst (read_values little "SELECT a FROM t" schema None []))
  /\ forall frame,
       form_output schema [[Int 7]] ["a"] = inl (Ok frame) ->
       read_values little "SELECT a FROM t" schema None []
       = (inl (KeyError_of "primary key column missing from query: " (key_columns schema)),
          [pyodbc_SQL_SS_TIME2; pyodbc_SQL_TYPE_TIMESTAMP; SQL_SS_TIMESTAMPOFFSET]).
Proof.
  intros C schema.
  apply (@read_values_requires_every_key_column C little "SELECT a FROM t" schema None []
           [[Int 7]] ["a"] _ "id");
    [reflexivity | vm_compute; auto | simpl; intuition discriminate].
Defined.

(** X9: the index of a table read is the key columns in the order of the schema rows. *)
Theorem read_values_index_follows_the_schema_rows :
  forall (C : Connection) sys statement schema args c c' frame,
    read_values sys statement schema args c = (inr frame, c') ->
    names (index frame) = key_columns schema
    /\ (forall col, In col (names (columns frame)) -> ~ In col (key_columns schema))
    /\ forall col, In col (names (index frame) +++ names (columns frame)) ->
                   In col (names schema).
Proof.
  intros C sys statement schema args c c' frame. unfold read_values.
  destruct (execute_fetchall statement args (prepare_connection sys c)) as [[e|[rows cols]] c1];
    [discriminate|].
  fold (key_columns schema).
  destruct (form_output schema rows cols) as [[fr|e]|e] eqn:F; try discriminate.
  destruct (form_output_columns _ _ _ F) as [Ix Inc].
  assert (forall col, In col cols -> In col (names schema)) as InSchema.
  { intros col I. unfold form_output in F.
    destruct (any (map (fun col => negb (isin col (names schema))) cols)) eqn:A; [discriminate|].
    destruct (isin col (names schema)) eqn:S; [now apply isin_In in S|].
    exfalso. assert (any (map (fun col => negb (isin col (names schema))) cols) = true) as T.
    { apply any_map_true. exists col. split; [assumption|]. now rewrite S. }
    congruence. }
  assert (forall k, In k (key_columns schema) -> In k (names schema)) as KeysIn.
  { intros k I. unfold key_columns, index_where, names in *.
    apply in_map_iff in I as [r [<- I]]. apply filter_In in I as [I _].
    apply in_map_iff. now exists r. }
  destruct (key_columns schema) as [|k keys] eqn:K.
  - intros E. inversion E; subst; clear E. rewrite Ix. split; [reflexivity|].
    split; [intros col _ []|]. intros col I. cbn [names map app] in I. auto.
  - destruct (set_index (k :: keys) true fr) as [indexed|[]] eqn:S; try discriminate.
    intros E. inversion E; subst; clear E.
    unfold set_index in S.
    destruct (getitems (k :: keys) fr) as [levels|] eqn:G; cbn [and_then] in S; [|discriminate].
    inversion S; subst; clear S. cbn [index columns].
    split; [now apply getitems_names in G|]. split.
    + intros col I. unfold names in I. apply in_map_iff in I as [[c0 s] [<- I]].
      apply filter_In in I as [_ T]. cbn [fst] in *. intros X. apply isin_In in X.
      change ((c0 =? k)%string || isin c0 keys) with (isin c0 (k :: keys)) in T.
      now rewrite X in T.
    + intros col I. apply in_app_or in I as [I|I].
      * rewrite (getitems_names _ _ G) in I. now apply KeysIn.
      * apply InSchema, Inc. unfold names in *. apply in_map_iff in I as [r [<- I]].
        apply filter_In in I as [I _]. apply in_map_iff. now exists r.
Qed.

Lemma read_values_index_follows_the_schema_rows_witness :
  let C := canned_connection [[Int 7; Int 1; Int 2]] ["a"; "second"; "first"] in
  let schema := [("first", keyed 2 "pk" (described "int" 10));
                 ("a", described "int" 10);
                 ("second", keyed 1 "pk" (described "int" 10))] in
  let frame := {| index := [("first", {| dtype := "Int32"; values := [Int 2] |});
                            ("second", {| dtype := "Int32"; values := [Int 1] |})];
                  columns := [("a", {| dtype := "Int32"; values := [Int 7] |})] |} in
  names (index frame) = key_columns schema
  /\ (forall col, In col (names (columns frame)) -> ~ In col (key_columns schema))
  /\ forall col, In col (names (index frame) +++ names (columns frame)) ->
                 In col (names schema).
Proof.
  intros C schema frame.
  apply (@read_values_index_follows_the_schema_rows C little "SELECT a, second, first FROM t"
           schema None [] [pyodbc_SQL_SS_TIME2; pyodbc_SQL_TYPE_TIMESTAMP; SQL_SS_TIMESTAMPOFFSET]
           frame).
  reflexivity.
Defined.

(* ===================================================================== *)
(** ** The parameter markers of the MERGE statement *)
(* ===================================================================== *)

Lemma count_char_app c s t : count_char c (s ++ t) = (count_char c s + count_char c t)%nat.
Proof. induction s as [|a s IH]; simpl; [reflexivity|]. rewrite IH. lia. Qed.

Lemma count_char_join c sep xs :
  count_char c sep = 0%nat ->
  count_char c (join sep xs) = list_sum (map (count_char c) xs).
Proof.
  intros S. unfold join. induction xs as [|x xs IH]; simpl; [reflexivity|].
  destruct xs as [|y xs]; [simpl; lia|].
  rewrite !count_char_app, S, IH. simpl. lia.
Qed.

Lemma list_sum_map_const {A} (f : A -> nat) (xs : list A) k :
  (forall x, In x xs -> f x = k) -> list_sum (map f xs) = (k * length xs)%nat.
Proof.
  induction xs as [|x xs IH]; intros Hf; simpl; [lia|].
  rewrite (Hf x) by now left. rewrite IH by (intros; apply Hf; now right). lia.
Qed.

Lemma count_char_uint d :
  count_char "?" (NilEmpty.string_of_uint d) = 0%nat.
Proof. induction d; simpl; auto. Qed.

Lemma count_char_str z : count_char "?" (str z) = 0%nat.
Proof.
  unfold str, NilEmpty.string_of_int. destruct (Z.to_int z); simpl; apply count_char_uint.
Qed.

Lemma count_char_alias {A} (columns : list A) x :
  In x (alias columns) -> count_char "?" x = 0%nat.
Proof.
  unfold alias. intros I. apply in_map_iff in I as [z [<- _]]. apply count_char_str.
Qed.

Lemma count_char_join_map {A} (f : A -> string) sep xs k :
  count_char "?" sep = 0%nat ->
  (forall x, In x xs -> count_char "?" (f x) = k) ->
  count_char "?" (join sep (map f xs)) = (k * length xs)%nat.
Proof.
  intros S F. rewrite count_char_join by assumption. rewrite map_map.
  apply list_sum_map_const. assumption.
Qed.

Lemma alias_count {A} (columns : list A) : length (alias columns) = length columns.
Proof. unfold alias, range. now rewrite !length_map, length_seq. Qed.

Lemma count_char_join_all sep xs k :
  count_char "?" sep = 0%nat -> Forall (fun x => count_char "?" x = k) xs ->
  count_char "?" (join sep xs) = (k * length xs)%nat.
Proof.
  intros S F. rewrite count_char_join by assumption.
  apply list_sum_map_const. now apply Forall_forall.
Qed.

Ltac in_alias I :=
  repeat match type of I with
         | In _ (map _ _) => apply in_map_iff in I as [? [<- I]]
         end.

(** X10: the statement has one parameter marker for each bound value. *)
Theorem merge_statement_binds_every_argument :
  forall include_metadata_timestamps upsert table_name temp_name
         match_columns update_columns insert_columns delete_requires,
    count_char "?" (merge_statement include_metadata_timestamps upsert match_columns
                      update_columns insert_columns delete_requires)
    = length (merge_args table_name temp_name match_columns update_columns insert_columns
                delete_requires).
Proof.
  intros ts upsert table_name temp_name m u i d.
  unfold merge_statement, statement_format.
  rewrite count_char_join by reflexivity.
  cbn [map list_sum].
  set (am := alias m). set (au := alias u). set (ai := alias i).
  set (ad := match d with None => [] | Some dr => alias dr end).
  assert (forall x, In x am -> count_char "?" x = 0%nat) as Zm
      by (intros; eapply count_char_alias; eauto).
  assert (forall x, In x au -> count_char "?" x = 0%nat) as Zu
      by (intros; eapply count_char_alias; eauto).
  assert (forall x, In x ai -> count_char "?" x = 0%nat) as Zi
      by (intros; eapply count_char_alias; eauto).
  assert (forall x, In x ad -> count_char "?" x = 0%nat) as Zd.
  { subst ad. destruct d; [intros; eapply count_char_alias; eauto | intros ? []]. }
  assert (forall sep (xs : list string) k,
             count_char "?" sep = 0%nat -> Forall (fun x => count_char "?" x = k) xs ->
             count_char "?" (join sep xs) = (k * length xs)%nat) as J
      by (intros; now apply count_char_join_all).
  destruct ts, upsert; cbn [negb]; rewrite ?count_char_app;
    repeat match goal with
           | |- context [count_char "?" (join ?sep (map ?f ?l1 +++ ?rest))] =>
               rewrite (J sep (map f l1 +++ rest) 1%nat) by
                 (try reflexivity;
                  repeat (apply Forall_app; split); apply Forall_forall; intros x I; in_alias I;
                  rewrite ?count_char_app;
                  first [rewrite !(Zm _ I) | rewrite !(Zu _ I) | rewrite !(Zi _ I)
                        | rewrite !(Zd _ I)];
                  reflexivity)
           | |- context [count_char "?" (join ?sep (map ?f ?l1 +++ ?rest))] =>
               rewrite (J sep (map f l1 +++ rest) 0%nat) by
                 (try reflexivity;
                  repeat (apply Forall_app; split); apply Forall_forall; intros x I; in_alias I;
                  rewrite ?count_char_app;
                  first [rewrite !(Zm _ I) | rewrite !(Zu _ I) | rewrite !(Zi _ I)
                        | rewrite !(Zd _ I)];
                  reflexivity)
           | |- context [count_char "?" (join ?sep (map ?f ?l))] =>
               rewrite (J sep (map f l) 0%nat) by
                 (try reflexivity;
                  apply Forall_forall; intros x I; in_alias I;
                  rewrite ?count_char_app;
                  first [rewrite !(Zm _ I) | rewrite !(Zu _ I) | rewrite !(Zi _ I)
                        | rewrite !(Zd _ I)];
                  reflexivity)
           end;
    rewrite ?length_app, ?length_map;
    unfold merge_args; subst am au ai ad;
    destruct d as [dr|]; rewrite ?length_app, ?alias_count; cbn [length count_char list_sum];
    simpl; lia.
Qed.

(* ===================================================================== *)
(** ** The unicode check *)
(* ===================================================================== *)

Lemma encode_ascii_ignore_length s :
  (String.length (encode_ascii_ignore s) <= String.length s)%nat.
Proof. induction s as [|c s IH]; simpl; [lia|]. destruct (is_ascii c); simpl; lia. Qed.

Lemma encode_ascii_ignore_same s :
  String.length s = String.length (encode_ascii_ignore s) <-> all_ascii s.
Proof.
  unfold all_ascii. induction s as [|c s IH]; simpl.
  - split; [intros _ ? [] | reflexivity].
  - pose proof (encode_ascii_ignore_length s) as L.
    destruct (is_ascii c) eqn:A; simpl.
    + split.
      * intros E x [<-|I]; [assumption|]. apply IH; [lia | assumption].
      * intros H. f_equal. apply IH. intros x I. apply H. now right.
    + split; [lia|]. intros H. specialize (H c (or_introl eq_refl)). congruence.
Qed.

Lemma contains_unicode_false `{Host} series :
  contains_unicode series = Ok false
  <-> str_accessor series = Ok tt
      /\ forall text, In (Str text) (values series) -> all_ascii text.
Proof.
  unfold contains_unicode. destruct (str_accessor series) as [[]|e]; cbn [and_then].
  2:{ split; [discriminate | intros [X _]; discriminate]. }
  split.
  - intros F. injection F as F. split; [reflexivity|].
    intros text I. apply encode_ascii_ignore_same.
    destruct (Nat.eqb_spec (String.length text) (String.length (encode_ascii_ignore text)));
      [assumption|].
    exfalso. assert (any (map (fun x => match x with
                                        | Str s => negb (String.length s
                                                         =? String.length (encode_ascii_ignore s))%nat
                                        | _ => false
                                        end) (values series)) = true) as T.
    { apply any_map_true. exists (Str text). split; [assumption|].
      apply negb_true_iff. now apply Nat.eqb_neq. }
    congruence.
  - intros [_ A]. f_equal.
    match goal with |- ?a = false => destruct a eqn:T end; [|reflexivity].
    apply any_map_true in T as [x [I T]]. destruct x; try discriminate.
    apply negb_true_iff, Nat.eqb_neq in T. exfalso. apply T.
    apply encode_ascii_ignore_same. now apply A.
Qed.

(** X11: the check of unicode passes exactly the columns that have the
    [.str] accessor and hold ASCII text only; a column whose dtype is not
    string, object or category has no such accessor. *)
Theorem check_unicode_accepts_exactly_ascii :
  forall (H : Host) (dataframe : DataFrame) (schema : Schema),
    (check_unicode dataframe schema = Ok tt
     <-> forall col, In col (non_unicode_columns schema) ->
                     exists s, lookup col (columns dataframe) = Some s
                               /\ str_accessor s = Ok tt
                               /\ forall text, In (Str text) (values s) -> all_ascii text)
    /\ (forall s, str_accessor s = Ok tt -> In (dtype s) ["string"; "object"; "category"]).
Proof.
  intros H df schema. split.
  2:{ intros s. unfold str_accessor.
      destruct (String.eqb_spec (dtype s) "string") as [->|_]; [simpl; auto|].
      destruct (isin (dtype s) ["object"; "category"]) eqn:I; [|discriminate].
      intros _. apply isin_In in I. now right. }
  unfold check_unicode. fold (non_unicode_columns schema).
  induction (non_unicode_columns schema) as [|c cols IH]; cbn [map_result].
  - split; [intros _ ? [] | reflexivity].
  - unfold getitem at 1. destruct (lookup c (columns df)) as [s|] eqn:L; cbn [and_then].
    + destruct (contains_unicode s) as [[|]|e] eqn:U; cbn [and_then].
      * split; [discriminate|]. intros A. destruct (A c (or_introl eq_refl)) as [s' [L' A']].
        rewrite L in L'. inversion L'; subst s'. apply contains_unicode_false in A'. congruence.
      * destruct (map_result _ cols) as [l|e] eqn:R; cbn [and_then] in *.
        -- split; [|reflexivity]. intros _ col [<-|I].
           ++ exists s. split; [assumption | now apply contains_unicode_false].
           ++ now apply IH.
        -- split; [discriminate|]. intros A.
           assert (Raise e = Ok tt) as X; [|discriminate X].
           apply IH. intros col I. apply A. now right.
      * split; [discriminate|]. intros A. destruct (A c (or_introl eq_refl)) as [s' [L' A']].
        rewrite L in L'. inversion L'; subst s'. apply contains_unicode_false in A'. congruence.
    + split; [discriminate|]. intros A. destruct (A c (or_introl eq_refl)) as [s [L' _]].
      congruence.
Qed.

(** A varchar column of text and a null passes; one of dtype float64 that
    holds nothing but a null has no [.str] accessor. *)
Lemma check_unicode_accepts_exactly_ascii_witness :
  check_unicode (H := plain_host)
    (table [("v", {| dtype := "object"; values := [Str "abc"; NA] |})])
    [("v", described "varchar" 10)] = Ok tt
  /\ check_unicode (H := plain_host)
       (table [("v", {| dtype := "float64"; values := [NA] |})])
       [("v", described "varchar" 10)]
     = Raise (Error "AttributeError" "Can only use .str accessor with string values!").
Proof.
  split; [|reflexivity].
  apply (proj1 (@check_unicode_accepts_exactly_ascii plain_host
                  (table [("v", {| dtype := "object"; values := [Str "abc"; NA] |})])
                  [("v", described "varchar" 10)])).
  intros col [<-|[]]. eexists. split; [reflexivity|]. split; [reflexivity|].
  intros text [E|[E|[]]]; [|discriminate]. injection E as <-.
  intros x I. simpl in I. repeat (destruct I as [<-|I]; [reflexivity|]). destruct I.
Defined.

(* ===================================================================== *)
(** ** The schema get_schema returns *)
(* ===================================================================== *)

(** What a call of [get_schema] that returns has gone through. *)
Lemma get_schema_returns `{Host} `{Database} table_name dataframe additional_columns s
      schema dataframe' s' :
  get_schema table_name dataframe additional_columns s = (Ok (schema, dataframe'), s') ->
  exists table catalog schema_name rows pk s1,
    cursor_columns table catalog schema_name s = (inr rows, s1)
    /\ cursor_primaryKeys table catalog s1 = (inr pk, s')
    /\ rows <> []
    /\ schema = joined_schema pk rows
    /\ (forall col c, In (col, c) schema -> conversion c <> None)
    /\ match additional_columns with
       | Some columns_ => not_in (map column_name rows) columns_ = []
       | None => True
       end
    /\ match dataframe with
       | Some df => not_in (map column_name rows) (names (columns df)) = []
                    /\ exists df', dataframe' = Some df' /\ _precheck_dataframe schema df = Ok df'
       | None => dataframe' = None
       end.
Proof.
  unfold get_schema. intros E.
  invert_bind E as parsed s0 E0. apply lift_inv in E0 as [E0 ->].
  destruct parsed as [schema_name table].
  invert_bind E as rows s1 Ec.
  unfold run in Ec. destruct (cursor_columns table _ schema_name s) as [[e|rows'] s1'] eqn:Cc;
    [discriminate|]. cbn [called] in Ec. inversion Ec; subst rows' s1'; clear Ec.
  destruct (Nat.eqb_spec (length rows) 0); [discriminate|].
  destruct (match additional_columns with Some _ => _ | None => _ end) eqn:Ea; [|discriminate].
  destruct (match dataframe with Some _ => _ | None => _ end) eqn:Ed; [|discriminate].
  invert_bind E as pk s2 Ek.
  unfold run in Ek. destruct (cursor_primaryKeys table _ s1) as [[e|pk'] s2'] eqn:Ck;
    [discriminate|]. cbn [called] in Ek. inversion Ek; subst pk' s2'; clear Ek.
  fold (joined_schema pk rows) in E.
  destruct (any _) eqn:A; [discriminate|].
  assert (forall col c, In (col, c) (joined_schema pk rows) -> conversion c <> None) as Rules.
  { intros col c I N.
    assert (any (map (fun r : string * Column =>
                        match conversion (snd r) with None => true | Some _ => false end)
                     (joined_schema pk rows)) = true) as T.
    { apply any_map_true. exists (col, c). split; [assumption|]. simpl. now rewrite N. }
    congruence. }
  exists table, (if startswith "#" table then Some "tempdb" else None), schema_name, rows, pk, s1.
  destruct dataframe as [df|].
  - invert_bind E as df' s3 Ep. apply lift_inv in Ep as [Ep ->].
    apply ret_inv in E as [E ->]. inversion E; subst; clear E.
    split; [exact Cc|]. split; [exact Ck|]. split; [now destruct rows|].
    split; [reflexivity|]. split; [exact Rules|]. split.
    + destruct additional_columns; [exact Ea | exact I].
    + split; [exact Ed|]. eauto.
  - apply ret_inv in E as [E ->]. inversion E; subst; clear E.
    split; [exact Cc|]. split; [exact Ck|]. split; [now destruct rows|].
    split; [reflexivity|]. split; [exact Rules|]. split.
    + destruct additional_columns; [exact Ea | exact I].
    + reflexivity.
Qed.

Lemma not_in_nil present wanted :
  not_in present wanted = [] <-> forall col, In col wanted -> In col present.
Proof.
  unfold not_in. induction wanted as [|w ws IH]; simpl.
  - split; [intros _ ? [] | reflexivity].
  - destruct (isin w present) eqn:E; simpl.
    + rewrite IH. apply isin_In in E. split.
      * intros A col [<-|I]; auto.
      * intros A col I. apply A. now right.
    + split; [discriminate|]. intros A. exfalso.
      assert (isin w present = true) by (apply isin_In, A; now left). congruence.
Qed.

Lemma joined_schema_names pk rows :
  forall row, In row rows -> In (column_name row) (names (joined_schema pk rows)).
Proof.
  intros row I. unfold joined_schema, names. rewrite map_map. cbn [fst].
  apply in_map_iff.
  assert (exists r, In r (merge_primary_key pk row) /\ fst r = column_name row) as [r [Ir Er]].
  { unfold merge_primary_key. destruct (filter _ pk) as [|k ks]; simpl; eauto. }
  exists r. split; [assumption|]. apply in_flat_map. eauto.
Qed.

(** X12: every row of a schema [get_schema] returns carries the rule of the registry for its type. *)
Theorem returned_schema_rows_carry_registry_rules :
  forall (H : Host) (D : Database) table_name dataframe additional_columns s
         schema dataframe' s',
    get_schema table_name dataframe additional_columns s = (Ok (schema, dataframe'), s') ->
    (forall col c, In (col, c) schema ->
       In (sql_type c) registry_types
       /\ exists rule, conversion c = Some rule
                       /\ lookup (if String.eqb (sql_type c) "int identity"
                                  then "int" else sql_type c) rules = Some rule)
    /\ (forall columns_, additional_columns = Some columns_ ->
          forall col, In col columns_ -> In col (names schema))
    /\ (forall df, dataframe = Some df ->
          forall col, In col (names (columns df)) -> In col (names schema)).
Proof.
  intros H D table_name dataframe additional_columns s schema dataframe' s' E.
  destruct (get_schema_returns _ _ _ _ E)
    as [table [catalog [schema_name [rows [pk [s1 [Ec [Ek [Nr [-> [Rules [Ha Hd]]]]]]]]]]]].
  assert (forall col, In col (map column_name rows) -> In col (names (joined_schema pk rows)))
    as Present.
  { intros col I. apply in_map_iff in I as [row [<- I]]. now apply joined_schema_names. }
  split; [|split].
  - intros col c I. pose proof (Rules col c I) as N.
    unfold joined_schema in I. apply in_map_iff in I as [[col' c'] [Ex I]].
    cbn [fst snd] in Ex. inversion Ex; subst; clear Ex.
    unfold add_conversion_rules in *. cbn [sql_type conversion] in *.
    destruct (String.eqb_spec (sql_type c') "int identity") as [Ei|Ei].
    + cbn. split; [now left|]. eexists. split; reflexivity.
    + destruct (String.eqb_spec (sql_type c') "int identity"); [contradiction|].
      destruct (lookup (sql_type c') rules) as [rule|] eqn:L; [|contradiction].
      split; [|eauto]. right. apply lookup_In in L. unfold names. apply in_map_iff.
      now exists (sql_type c', rule).
  - intros columns_ -> col I. apply Present. now apply (proj1 (not_in_nil _ _) Ha).
  - intros df -> col I. destruct Hd as [Hd _]. apply Present.
    now apply (proj1 (not_in_nil _ _) Hd).
Qed.

Lemma returned_schema_rows_carry_registry_rules_witness :
  let D := recording_database [reported "id" "int identity" 10; reported "name" "varchar" 20] [] in
  let schema := [("id", described "int identity" 10); ("name", described "varchar" 20)] in
  (forall col c, In (col, c) schema ->
     In (sql_type c) registry_types
     /\ exists rule, conversion c = Some rule
                     /\ lookup (if String.eqb (sql_type c) "int identity"
                                then "int" else sql_type c) rules = Some rule)
  /\ (forall columns_, Some ["name"] = Some columns_ ->
        forall col, In col columns_ -> In col (names schema))
  /\ (forall df, @None DataFrame = Some df ->
        forall col, In col (names (columns df)) -> In col (names schema)).
Proof.
  intros D schema.
  apply (@returned_schema_rows_carry_registry_rules plain_host D "t" None (Some ["name"]) []
           schema None []).
  vm_compute. reflexivity.
Defined.

Lemma index_where_nil p (schema : Schema) :
  (forall col c, In (col, c) schema -> p c = false) -> index_where p schema = [].
Proof.
  intros F. unfold index_where. induction schema as [|[col c] rest IH]; simpl; [reflexivity|].
  rewrite (F col c) by now left. apply IH. intros col' c' I. apply (F col' c'). now right.
Qed.

(** X13: for the types of the registry three of the five preparations do nothing. *)
Theorem registry_types_skip_three_preparations :
  forall (H : Host) schema prepped dataframe log,
    (forall col c, In (col, c) schema -> In (sql_type c) registry_types) ->
    prepare_datetime schema prepped dataframe log = (Ok (prepped, dataframe), log)
    /\ prepare_datetimeoffset schema prepped dataframe log = (Ok (prepped, dataframe), log)
    /\ prepare_numeric schema prepped dataframe log = (Ok (prepped, dataframe), log).
Proof.
  intros H schema prepped dataframe log T.
  assert (forall p, (forall t, In t registry_types -> p t = false) ->
                    index_where (fun c => p (sql_type c)) schema = []) as Nil.
  { intros p F. apply index_where_nil. intros col c I. apply F. eapply T; eauto. }
  assert (forall name, ~ In name registry_types ->
            index_where (fun c => String.eqb (sql_type c) name) schema = []) as Nil1.
  { intros name N. apply (Nil (fun t => String.eqb t name)). intros t I.
    destruct (String.eqb_spec t name); [subst; contradiction | reflexivity]. }
  split; [|split].
  - unfold prepare_datetime. rewrite Nil1; [reflexivity|]. vm_compute. intuition discriminate.
  - unfold prepare_datetimeoffset. rewrite Nil1; [reflexivity|]. vm_compute. intuition discriminate.
  - unfold prepare_numeric.
    rewrite (Nil (fun t => isin t ["numeric"; "decimal"])); [reflexivity|].
    intros t I. vm_compute in I.
    repeat (destruct I as [<-|I]; [reflexivity|]). contradiction.
Qed.

Lemma registry_types_skip_three_preparations_witness :
  let schema := [("id", described "int identity" 10); ("at", described "datetime2" 27)] in
  let df := table [("id", {| dtype := "Int32"; values := [Int 1] |});
                   ("at", {| dtype := "datetime64[ns]"; values := [Timestamp 1001 None] |})] in
  @prepare_datetime plain_host schema df df [] = (Ok (df, df), [])
  /\ @prepare_datetimeoffset plain_host schema df df [] = (Ok (df, df), [])
  /\ @prepare_numeric plain_host schema df df [] = (Ok (df, df), []).
Proof.
  intros schema df.
  apply (@registry_types_skip_three_preparations plain_host schema df df []).
  intros col c I. vm_compute in I.
  destruct I as [E|[E|[]]]; inversion E; subst; vm_compute; tauto.
Defined.

(* ===================================================================== *)
(** ** Values that need no rounding *)
(* ===================================================================== *)

Lemma flagged_none (flags : list (string * bool)) :
  any (map snd flags) = false -> flagged flags = [].
Proof.
  unfold flagged, names. induction flags as [|[c b] l IH]; simpl; [reflexivity|].
  intros E. apply orb_false_iff in E as [-> E]. now apply IH.
Qed.

Lemma time_truncated_aligned ns : ns mod 100 = 0 -> time_truncated (Timedelta ns) = false.
Proof.
  intros A. unfold time_truncated, components, ns_per_us. cbn [nanoseconds].
  apply Z.ltb_ge. Z.div_mod_to_equations. lia.
Qed.

Lemma timestamp_truncated_aligned ns tz :
  ns mod 100 = 0 -> timestamp_truncated (Timestamp ns tz) = false.
Proof.
  intros A. unfold timestamp_truncated, nanosecond, ns_per_us.
  apply Z.ltb_ge. Z.div_mod_to_equations. lia.
Qed.

(** X14: in a table with rows, values that already have the precision of
    SQL pass the preparation unaltered and without a warning: when the time
    columns hold a row (or there is none) and each of their values is null or
    a multiple of 100 ns within one day, [prepare_time] returns the caller's
    dataframe and the log as they were; and so does [prepare_datetime2] when
    the datetime2 columns hold a row (or there is none) and each of their
    values is null or a multiple of 100 ns. *)
Theorem aligned_values_are_prepared_unaltered :
  forall (H : Host) schema prepped dataframe log,
    holds (columns_of_type "time" schema) prepped ->
    holds (columns_of_type "datetime2" schema) prepped ->
    (has_rows (columns_of_type "time" schema) prepped
     \/ any_name (columns_of_type "time" schema) = false) ->
    (has_rows (columns_of_type "datetime2" schema) prepped
     \/ any_name (columns_of_type "datetime2" schema) = false) ->
    (forall col s x, In col (columns_of_type "time" schema) ->
                     lookup col (columns prepped) = Some s -> In x (values s) ->
                     x = NA \/ exists ns, x = Timedelta ns /\ 0 <= ns < ns_per_day
                                          /\ ns mod 100 = 0) ->
    (forall col s x, In col (columns_of_type "datetime2" schema) ->
                     lookup col (columns prepped) = Some s -> In x (values s) ->
                     x = NA \/ exists ns tz, x = Timestamp ns tz /\ ns mod 100 = 0) ->
    (exists prepped',
        prepare_time schema prepped dataframe log = (Ok (prepped', dataframe), log))
    /\ (exists prepped',
          prepare_datetime2 schema prepped dataframe log = (Ok (prepped', dataframe), log)).
Proof.
  intros H schema prepped dataframe log Hp Hp2 R R2 A A2. split.
  - destruct (column_flags_ok time_out_of_range Hp) as [invalid [Ei _]].
    assert (any (map snd invalid) = false) as F.
    { eapply flags_false; eauto. intros col s x I L V.
      destruct (A col s x I L V) as [->|[ns [-> [Rg _]]]]; [reflexivity|].
      simpl. unfold Timedelta_kw, ns_per_day in *.
      apply orb_false_iff. split; [apply Z.leb_gt | apply Z.ltb_ge]; lia. }
    unfold prepare_time. fold (columns_of_type "time" schema).
    erewrite bind_ok by (apply lift_ok, Ei). rewrite F.
    destruct (column_flags_ok time_truncated Hp) as [flags [Ef _]].
    assert (flagged flags = []) as Fn.
    { apply flagged_none. eapply flags_false; eauto. intros col s x I L V.
      destruct (A col s x I L V) as [->|[ns [-> [_ Al]]]]; [reflexivity|].
      now apply time_truncated_aligned. }
    destruct (render_ok (slice 7 23) (watched := []) Hp) as [p' [Er _]].
    { intros c []. }
    erewrite bind_ok with (a := []) (s' := log).
    2:{ destruct (any_name _) eqn:An; [|reflexivity].
        erewrite bind_ok
          by (apply lift_apply_any_ok; [exact Ef | destruct R as [R|R]; [exact R | congruence]]).
        cbn [flagged_index]. now rewrite Fn. }
    cbn [any_name existsb]. erewrite bind_ok by reflexivity.
    cbn [assign_rounded]. erewrite bind_ok by reflexivity.
    destruct (any_name (columns_of_type "time" schema)).
    + erewrite bind_ok by (apply lift_ok, Er). eexists. reflexivity.
    + erewrite bind_ok by reflexivity. eexists. reflexivity.
  - clear Hp A R. rename Hp2 into Hp. rename A2 into A. rename R2 into R.
    unfold prepare_datetime2. fold (columns_of_type "datetime2" schema).
    destruct (column_flags_ok timestamp_truncated Hp) as [flags [Ef _]].
    assert (any (map snd flags) = false) as F.
    { eapply flags_false; eauto. intros col s x I L V.
      destruct (A col s x I L V) as [->|[ns [tz [-> Al]]]]; [reflexivity|].
      now apply timestamp_truncated_aligned. }
    destruct (render_ok (slice 0 27) (watched := []) Hp) as [p' [Er _]].
    { intros c []. }
    destruct (any_name (columns_of_type "datetime2" schema)) eqn:An.
    + erewrite bind_ok
        by (apply lift_apply_any_ok; [exact Ef | destruct R as [R|R]; [exact R | congruence]]).
      cbn [any_applied]. rewrite F.
      erewrite bind_ok by reflexivity. cbv beta iota.
      erewrite bind_ok by (apply lift_ok, Er). eexists. reflexivity.
    + erewrite bind_ok by reflexivity. cbn [any_applied map any existsb].
      erewrite bind_ok by reflexivity. cbv beta iota.
      erewrite bind_ok by reflexivity. eexists. reflexivity.
Qed.

(** A time of 23:59:59.9999999 beside a null, and a timestamp on a multiple
    of 100 ns. *)
Lemma aligned_values_are_prepared_unaltered_witness :
  let schema := [("t", described "time" 16); ("at", described "datetime2" 27)] in
  let df := table [("t", {| dtype := "timedelta64[ns]";
                            values := [Timedelta 86399999999900; NA] |});
                   ("at", {| dtype := "datetime64[ns]";
                             values := [Timestamp 1000000100 None; NA] |})] in
  (has_rows (columns_of_type "time" schema) df
   /\ has_rows (columns_of_type "datetime2" schema) df)
  /\ (exists prepped', @prepare_time plain_host schema df df [] = (Ok (prepped', df), []))
  /\ (exists prepped', @prepare_datetime2 plain_host schema df df [] = (Ok (prepped', df), [])).
Proof.
  intros schema df.
  assert (has_rows (columns_of_type "time" schema) df) as R.
  { exists "t", {| dtype := "timedelta64[ns]"; values := [Timedelta 86399999999900; NA] |}, NA.
    repeat split; simpl; auto. }
  assert (has_rows (columns_of_type "datetime2" schema) df) as R2.
  { exists "at", {| dtype := "datetime64[ns]"; values := [Timestamp 1000000100 None; NA] |}, NA.
    repeat split; simpl; auto. }
  split; [split; assumption|].
  apply (@aligned_values_are_prepared_unaltered plain_host schema df df []).
  - intros col [<-|[]]. eexists. reflexivity.
  - intros col [<-|[]]. eexists. reflexivity.
  - now left.
  - now left.
  - intros col s x [<-|[]] L V. vm_compute in L. inversion L; subst; clear L.
    destruct V as [<-|[<-|[]]]; [right | now left].
    exists 86399999999900. repeat split; vm_compute; congruence.
  - intros col s x [<-|[]] L V. vm_compute in L. inversion L; subst; clear L.
    destruct V as [<-|[<-|[]]]; [right | now left].
    exists 1000000100, None. split; reflexivity.
Defined.

(* ===================================================================== *)
(** ** The grid of DATETIME *)
(* ===================================================================== *)

Lemma nearest_increment_cases us :
  let t := us mod 10000 in
  (nearest_increment us = 10 /\ 8500 <= t)
  \/ (nearest_increment us = 7 /\ 5000 <= t < 8500)
  \/ (nearest_increment us = 3 /\ 1500 <= t < 5000)
  \/ (nearest_increment us = 0 /\ t < 1500).
Proof.
  intros t. unfold nearest_increment, increments, argmin_from. fold t.
  pose proof (Z.mod_pos_bound us 10000 ltac:(lia)) as R. fold t in R. clearbody t.
  repeat match goal with
         | |- context [if ?a <? ?b then _ else _] =>
             lazymatch a with context [if _ then _ else _] => fail | _ => idtac end;
             lazymatch b with context [if _ then _ else _] => fail | _ => idtac end;
             destruct (Z.ltb_spec a b)
         end; lia.
Qed.

(** X15: the rounding of datetime values lands on the grid of SQL and stays there. *)
Theorem datetime_rounding_is_idempotent :
  forall x,
    let y := datetime_rounded x x in
    datetime_rounded y y = y
    /\ match y with
       | Timestamp ns _ => ns mod ns_per_ms = 0 /\ In (ns / ns_per_ms mod 10) [0; 3; 7]
       | _ => True
       end.
Proof.
  intros x y. subst y. destruct x; try (split; [reflexivity | exact I]).
  cbn [datetime_rounded].
  unfold datetime_milliseconds.
  set (n := nearest_increment (microsecond ns)).
  set (ns' := floor_s ns + (microsecond ns / 10000 * 10 + n) * ns_per_ms).
  set (n' := nearest_increment (microsecond ns')).
  pose proof (nearest_increment_cases (microsecond ns)) as C. fold n in C.
  pose proof (nearest_increment_cases (microsecond ns')) as C'. fold n' in C'.
  cbv zeta in C, C'. clearbody n n'.
  assert (ns' = floor_s ns + (microsecond ns / 10000 * 10 + n) * ns_per_ms) as E by reflexivity.
  clearbody ns'.
  unfold floor_s, microsecond, ns_per_ms, ns_per_s, ns_per_us in *.
  assert (floor_s_eq : ns' - ns' mod 1000000000
                       + (ns' mod 1000000000 / 1000 / 10000 * 10 + n') * 1000000 = ns'
                       /\ ns' mod 1000000 = 0
                       /\ (ns' / 1000000 mod 10 = 0 \/ ns' / 1000000 mod 10 = 3
                           \/ ns' / 1000000 mod 10 = 7)).
  { destruct C as [[-> C]|[[-> C]|[[-> C]|[-> C]]]];
      destruct C' as [[-> C']|[[-> C']|[[-> C']|[-> C']]]];
      Z.div_mod_to_equations; lia. }
  destruct floor_s_eq as [E1 [E2 E3]].
  split; [now rewrite E1|]. split; [assumption|]. cbn [In]. intuition lia.
Qed.



(* ===================================================================== *)
(** ** The order of the cells *)
(* ===================================================================== *)

Lemma string_ltb_chain x b a :
  String.ltb x b = false -> String.ltb b a = false -> String.ltb x a = false.
Proof.
  unfold String.ltb. intros H1 H2.
  destruct (String.compare x a) eqn:C; try reflexivity. exfalso.
  apply OrderedTypeEx.String_as_OT.cmp_lt in C.
  destruct (String.compare x b) eqn:C1; try discriminate.
  - apply OrderedTypeEx.String_as_OT.cmp_eq in C1. subst b.
    apply OrderedTypeEx.String_as_OT.cmp_lt in C.
    unfold OrderedTypeEx.String_as_OT.cmp in C. rewrite C in H2. discriminate.
  - assert (String.compare b x = Lt) as C2.
    { rewrite String.compare_antisym, C1. reflexivity. }
    apply OrderedTypeEx.String_as_OT.cmp_lt in C2.
    pose proof (@OrderedTypeEx.String_as_OT.lt_trans _ _ _ C2 C) as T.
    apply OrderedTypeEx.String_as_OT.cmp_lt in T.
    unfold OrderedTypeEx.String_as_OT.cmp in T. rewrite T in H2. discriminate.
Qed.

Lemma string_ltb_below x b a :
  String.ltb x b = true -> String.ltb x a = false -> String.ltb b a = false.
Proof.
  unfold String.ltb. intros H1 H2.
  destruct (String.compare b a) eqn:C; try reflexivity. exfalso.
  destruct (String.compare x b) eqn:C1; try discriminate.
  apply OrderedTypeEx.String_as_OT.cmp_lt in C, C1.
  pose proof (@OrderedTypeEx.String_as_OT.lt_trans _ _ _ C1 C) as T.
  apply OrderedTypeEx.String_as_OT.cmp_lt in T.
  unfold OrderedTypeEx.String_as_OT.cmp in T. rewrite T in H2. discriminate.
Qed.

Lemma string_ltb_above x b a :
  String.ltb x b = true -> String.ltb a b = false -> String.ltb a x = false.
Proof.
  unfold String.ltb. intros H1 H2.
  destruct (String.compare a x) eqn:C; try reflexivity. exfalso.
  destruct (String.compare x b) eqn:C1; try discriminate.
  apply OrderedTypeEx.String_as_OT.cmp_lt in C, C1.
  pose proof (@OrderedTypeEx.String_as_OT.lt_trans _ _ _ C C1) as T.
  apply OrderedTypeEx.String_as_OT.cmp_lt in T.
  unfold OrderedTypeEx.String_as_OT.cmp in T. rewrite T in H2. discriminate.
Qed.

Lemma Q_lt_chain x b a :
  negb (Qle_bool b x) = false -> negb (Qle_bool a b) = false -> negb (Qle_bool a x) = false.
Proof.
  rewrite !negb_false_iff, !Qle_bool_iff. intros H1 H2. eapply Qle_trans; eassumption.
Qed.

Lemma Q_lt_below x b a :
  negb (Qle_bool b x) = true -> negb (Qle_bool a x) = false -> negb (Qle_bool a b) = false.
Proof.
  rewrite !negb_false_iff, negb_true_iff, !Qle_bool_iff. intros H1 H2.
  apply Qlt_le_weak. eapply Qle_lt_trans; [exact H2|].
  apply Qnot_le_lt. intros L. apply Qle_bool_iff in L. congruence.
Qed.

Lemma Q_lt_above x b a :
  negb (Qle_bool b x) = true -> negb (Qle_bool b a) = false -> negb (Qle_bool x a) = false.
Proof.
  rewrite !negb_false_iff, negb_true_iff, !Qle_bool_iff. intros H1 H2.
  apply Qlt_le_weak. eapply Qlt_le_trans; [|exact H2].
  apply Qnot_le_lt. intros L. apply Qle_bool_iff in L. congruence.
Qed.

Ltac order_cells chainQ chainS :=
  intros;
  repeat match goal with
         | v : value |- _ => destruct v as [| ? | ? | ? | ? | ? | ? [?|]]
         end;
  cbn [value_lt number notnull] in *;
  try discriminate; try reflexivity;
  repeat match goal with
         | H : Ok _ = Ok _ |- _ => injection H as H
         end;
  f_equal;
  first [ eapply chainQ; eassumption
        | eapply chainS; eassumption
        | unfold instant in *; lia ].

(** [a <= b <= x] gives [a <= x]: none of the three comparisons holds. *)
Lemma value_lt_chain x b a :
  notnull x = true -> notnull b = true ->
  value_lt x b = Ok false -> value_lt b a = Ok false -> value_lt x a = Ok false.
Proof. order_cells Q_lt_chain string_ltb_chain. Qed.

(** [a <= x < b] gives [a <= b]. *)
Lemma value_lt_below x b a :
  value_lt x b = Ok true -> value_lt x a = Ok false -> value_lt b a = Ok false.
Proof. order_cells Q_lt_below string_ltb_below. Qed.

(** [x < b <= a] gives [x <= a]. *)
Lemma value_lt_above x b a :
  value_lt x b = Ok true -> value_lt a b = Ok false -> value_lt a x = Ok false.
Proof. order_cells Q_lt_above string_ltb_above. Qed.

Lemma value_lt_irrefl x : value_lt x x = Ok false.
Proof.
  destruct x as [| ? | ? | ? | ? | ? | ? [?|]]; cbn [value_lt number]; try reflexivity; f_equal.
  - apply negb_false_iff, Qle_bool_iff, Qle_refl.
  - apply negb_false_iff, Qle_bool_iff, Qle_refl.
  - apply negb_false_iff, Qle_bool_iff, Qle_refl.
  - unfold String.ltb. destruct (String.compare s s) eqn:C; try reflexivity.
    apply OrderedTypeEx.String_as_OT.cmp_lt in C.
    exfalso. eapply OrderedTypeEx.String_as_OT.lt_not_eq; [exact C | reflexivity].
  - apply Z.ltb_irrefl.
  - apply Z.ltb_irrefl.
  - apply Z.ltb_irrefl.
Qed.

(** The aggregate [min] is a cell below which no cell of the column lies. *)
Lemma agg_min_lower xs :
  forall best lo,
    agg_best value_lt xs best = Ok lo ->
    (notnull best = true -> notnull lo = true /\ value_lt best lo = Ok false)
    /\ (forall x, In x xs -> notnull x = true ->
                  notnull lo = true /\ value_lt x lo = Ok false).
Proof.
  induction xs as [|x xs IH]; intros best lo E; cbn [agg_best] in E.
  - inversion E; subst. split; [|intros ? []].
    intros N. split; [assumption | apply value_lt_irrefl].
  - destruct (notnull x) eqn:Nx.
    + destruct (notnull best) eqn:Nb.
      * destruct (value_lt x best) as [b|] eqn:L; cbn [and_then] in E; [|discriminate].
        destruct (IH _ _ E) as [Hb Hx].
        assert (notnull (if b then x else best) = true) as Nn by (destruct b; assumption).
        destruct (Hb Nn) as [Nl Ll].
        assert (value_lt x lo = Ok false /\ value_lt best lo = Ok false) as [Lx Lb].
        { destruct b; cbv iota in Ll.
          - split; [assumption|]. eapply value_lt_below; eassumption.
          - split; [|assumption]. apply (@value_lt_chain x best lo); assumption. }
        split; [intros _; now split|].
        intros x0 [<-|I] N0; [now split | now apply Hx].
      * destruct (IH _ _ E) as [Hb Hx]. split; [discriminate|].
        intros x0 [<-|I] N0; [now apply Hb | now apply Hx].
    + destruct (IH _ _ E) as [Hb Hx]. split; [assumption|].
      intros x0 [<-|I] N0; [congruence | now apply Hx].
Qed.

(** The aggregate [max] is a cell above which no cell of the column lies. *)
Lemma agg_max_upper xs :
  forall best hi,
    agg_best (fun x y => value_lt y x) xs best = Ok hi ->
    (notnull best = true -> notnull hi = true /\ value_lt hi best = Ok false)
    /\ (forall x, In x xs -> notnull x = true ->
                  notnull hi = true /\ value_lt hi x = Ok false).
Proof.
  induction xs as [|x xs IH]; intros best hi E; cbn [agg_best] in E.
  - inversion E; subst. split; [|intros ? []].
    intros N. split; [assumption | apply value_lt_irrefl].
  - destruct (notnull x) eqn:Nx.
    + destruct (notnull best) eqn:Nb.
      * destruct (value_lt best x) as [b|] eqn:L; cbn [and_then] in E; [|discriminate].
        destruct (IH _ _ E) as [Hb Hx].
        assert (notnull (if b then x else best) = true) as Nn by (destruct b; assumption).
        destruct (Hb Nn) as [Nl Ll].
        assert (value_lt hi x = Ok false /\ value_lt hi best = Ok false) as [Lx Lb].
        { destruct b; cbv iota in Ll.
          - split; [assumption|]. eapply value_lt_above; eassumption.
          - split; [|assumption]. apply (@value_lt_chain hi best x); assumption. }
        split; [intros _; now split|].
        intros x0 [<-|I] N0; [now split | now apply Hx].
      * destruct (IH _ _ E) as [Hb Hx]. split; [discriminate|].
        intros x0 [<-|I] N0; [now apply Hb | now apply Hx].
    + destruct (IH _ _ E) as [Hb Hx]. split; [assumption|].
      intros x0 [<-|I] N0; [congruence | now apply Hx].
Qed.

Lemma value_lt_null_left x : value_lt NA x = Ok false.
Proof. reflexivity. Qed.

Lemma value_lt_null_right x : value_lt x NA = Ok false.
Proof. now destruct x as [| ? | ? | ? | ? | ? | ? [?|]]. Qed.

(** A column whose aggregates lie within the allowed range holds no cell
    outside it. *)
Lemma aggregates_bound_cells xs lo hi lo_allowed hi_allowed x :
  agg_min xs = Ok lo -> agg_max xs = Ok hi ->
  value_lt lo lo_allowed = Ok false -> value_lt hi_allowed hi = Ok false ->
  In x xs ->
  value_lt x lo_allowed = Ok false /\ value_lt hi_allowed x = Ok false.
Proof.
  intros El Eh Ll Lh I.
  destruct (notnull x) eqn:Nx;
    [|destruct x; try discriminate; split;
      [apply value_lt_null_left | apply value_lt_null_right]].
  destruct (agg_min_lower _ _ El) as [_ Hl]. destruct (Hl _ I Nx) as [Nl Lx].
  destruct (agg_max_upper _ _ Eh) as [_ Hh]. destruct (Hh _ I Nx) as [Nh Hx].
  split.
  - apply (@value_lt_chain x lo lo_allowed); assumption.
  - destruct (notnull hi_allowed) eqn:Na;
      [|destruct hi_allowed; try discriminate; apply value_lt_null_left].
    apply (@value_lt_chain hi_allowed hi x); assumption.
Qed.

Lemma check_column_size_passed df schema :
  check_column_size df schema = Ok tt ->
  let strings := names (filter (fun c => String.eqb (dtype (snd c)) "string") (columns df)) in
  exists schema1 check1,
    (if any_name strings
     then (exists upd,
              map_result
                (fun col => c <~ loc col schema ;;
                            Ok (col, with_max_value (Int (column_size c)) c)) strings = Ok upd
              /\ schema1 = fold_left (fun sc r => assign (fst r) (snd r) sc) upd schema)
          /\ check1 = map (fun c => if isin (fst c) strings
                                    then (fst c, apply str_len (snd c)) else c) (columns df)
     else schema1 = schema /\ check1 = columns df)
    /\ forall col s1 c1 x,
        In (col, s1) check1 ->
        isin col (index_where (fun c => String.eqb (sql_type c) "datetimeoffset") schema1) = false ->
        lookup col schema1 = Some c1 ->
        In x (values s1) ->
        value_lt x (minimum c1) = Ok false /\ value_lt (maximum c1) x = Ok false.
Proof.
  intros E strings. unfold check_column_size in E. fold strings in E.
  match type of E with and_then ?m _ = _ => destruct m as [[schema1 check1]|] eqn:E1 end;
    cbn [and_then] in E; [|discriminate].
  exists schema1, check1. split.
  { destruct (any_name strings).
    - match type of E1 with and_then ?m _ = _ => destruct m as [upd|] eqn:Eu end;
        cbn [and_then] in E1; [|discriminate].
      injection E1 as <- <-. split; [|reflexivity]. exists upd. split; reflexivity.
    - injection E1 as <- <-. split; reflexivity. }
  clear E1.
  match type of E with and_then ?m _ = _ => destruct m as [?|] eqn:Ed end;
    cbn [and_then] in E; [|discriminate]. clear Ed.
  match type of E with and_then ?m _ = _ => destruct m as [observed|] eqn:Eo end;
    cbn [and_then] in E; [|discriminate].
  match type of E with and_then ?m _ = _ => destruct m as [offsets|] eqn:Ef end;
    cbn [and_then] in E; [|discriminate]. clear Ef.
  match type of E with and_then ?m _ = _ => destruct m as [flags|] eqn:Ei end;
    cbn [and_then] in E; [|discriminate].
  match type of Ei with match ?m with _ => _ end = _ =>
    assert (m = Ok flags) as Ej by (destruct m as [|[]]; try discriminate; assumption) end.
  clear Ei.
  destruct (names (filter (fun r => snd r) flags)) as [|k ks] eqn:Inv; [|discriminate].
  clear E.
  intros col s1 c1 x Ic Nd Lc Ix.
  destruct (map_result_in _ _ (col, s1) Eo) as [[k [lo hi]] [F Io]].
  { apply filter_In. split; [assumption|]. cbn [fst]. now rewrite Nd. }
  cbn [fst snd] in F.
  destruct (agg_min (values s1)) as [lo'|] eqn:Amin; cbn [and_then] in F; [|discriminate].
  destruct (agg_max (values s1)) as [hi'|] eqn:Amax; cbn [and_then] in F; [|discriminate].
  injection F as <- <- <-.
  destruct (map_result_in _ _ (col, {| min := lo'; max := hi';
                                       min_allowed := minimum c1;
                                       max_allowed := maximum c1 |}) Ej) as [[k b] [F If]].
  { apply in_flat_map. exists (col, (lo', hi')). split.
    - apply in_or_app. now left.
    - cbn [fst snd]. rewrite Lc. now left. }
  cbn [fst snd min max min_allowed max_allowed] in F.
  destruct (value_lt lo' (minimum c1)) as [below|] eqn:Lb; cbn [and_then] in F; [|discriminate].
  destruct (value_lt (maximum c1) hi') as [above|] eqn:La; cbn [and_then] in F; [|discriminate].
  injection F as <- <-.
  assert (below || above = false) as Z.
  { destruct (below || above) eqn:B; [|reflexivity]. exfalso.
    assert (In col (names (filter (fun r => snd r) flags))) as I'.
    { unfold names. apply in_map_iff. exists (col, true). split; [reflexivity|].
      apply filter_In. split; [assumption | reflexivity]. }
    rewrite Inv in I'. contradiction. }
  apply orb_false_iff in Z as [-> ->].
  eapply aggregates_bound_cells; eassumption.
Qed.

(** The schema with the upper bounds of the string columns replaced by their
    declared sizes: the rows keep their names, and a row is replaced exactly
    when it is one of the string columns. *)
Lemma bounded_schema schema strings upd :
  map_result (fun col => c <~ loc col schema ;;
                         Ok (col, with_max_value (Int (column_size c)) c)) strings = Ok upd ->
  let schema1 := fold_left (fun sc r => assign (fst r) (snd r) sc) upd schema in
  names schema1 = names schema
  /\ forall col c, lookup col schema = Some c ->
                   lookup col schema1
                   = Some (if isin col strings
                           then with_max_value (Int (column_size c)) c else c).
Proof.
  intros Eu schema1.
  assert (forall k v, In (k, v) upd ->
                      In k strings
                      /\ exists c0, lookup k schema = Some c0
                                    /\ v = with_max_value (Int (column_size c0)) c0) as Hu.
  { intros k v I. destruct (map_result_out _ _ _ Eu I) as [k0 [F I0]].
    unfold loc in F. destruct (lookup k0 schema) as [c0|] eqn:L0; simpl in F; [|discriminate].
    inversion F; subst. eauto. }
  split.
  - apply names_fold_assign. intros k I. unfold names in I.
    apply in_map_iff in I as [[k' v] [E I]]. simpl in E. subst k'.
    destruct (Hu _ _ I) as [_ [c0 [L0 _]]].
    apply lookup_In in L0. unfold names. apply in_map_iff. now exists (k, c0).
  - intros col c Lc. unfold schema1. rewrite fold_assign_lookup.
    destruct (lookup col (rev upd)) as [v|] eqn:Lr.
    + apply lookup_In, in_rev in Lr. destruct (Hu _ _ Lr) as [Is [c0 [L0 ->]]].
      rewrite Lc in L0. injection L0 as <-.
      apply isin_In in Is. now rewrite Is.
    + destruct (isin col strings) eqn:Is; [|assumption]. exfalso.
      apply isin_In in Is. destruct (map_result_in _ _ _ Eu Is) as [y [F Iy]].
      unfold loc in F. rewrite Lc in F. simpl in F. inversion F; subst y.
      apply lookup_None in Lr. apply Lr. unfold names. apply in_map_iff.
      exists (col, with_max_value (Int (column_size c)) c). split; [reflexivity|].
      now apply in_rev in Iy.
Qed.

Lemma not_datetimeoffset (schema : Schema) col c :
  NoDup (names schema) -> lookup col schema = Some c ->
  sql_type c <> "datetimeoffset" ->
  isin col (index_where (fun c0 => String.eqb (sql_type c0) "datetimeoffset") schema) = false.
Proof.
  intros N L T. destruct (isin col _) eqn:D; [|reflexivity]. exfalso.
  apply isin_In in D. unfold index_where, names in D.
  apply in_map_iff in D as [[k v] [E I]]. simpl in E. subst k.
  apply filter_In in I as [I P]. simpl in P. apply String.eqb_eq in P.
  apply (@lookup_In_NoDup _ _ _ _ N) in I. rewrite L in I. injection I as <-. contradiction.
Qed.



(** X17: when [check_column_size] returns, every string of a string column
    whose schema row is varchar or nvarchar, joined from [rules], has at
    least one character and at most [column_size] characters. *)
Theorem passed_size_check_bounds_every_string :
  forall (dataframe : DataFrame) (schema : Schema) (col : string) (s : Series) (c : Column)
         (t : string),
    check_column_size dataframe schema = Ok tt ->
    NoDup (names schema) ->
    col <> "" ->
    In (col, s) (columns dataframe) ->
    dtype s = "string" ->
    lookup col schema = Some c ->
    sql_type c = "varchar" \/ sql_type c = "nvarchar" ->
    conversion c = lookup (sql_type c) rules ->
    In (Str t) (values s) ->
    1 <= Z.of_nat (String.length t) <= column_size c.
Proof.
  intros dataframe schema col s c t E N Ne Is Ds Lc Tc Cc It.
  destruct (check_column_size_passed _ _ E) as [schema1 [check1 [B H]]].
  set (strings := names (filter (fun c0 => String.eqb (dtype (snd c0)) "string")
                                (columns dataframe))) in *.
  assert (In col strings) as Istr.
  { unfold strings, names. apply in_map_iff. exists (col, s). split; [reflexivity|].
    apply filter_In. split; [assumption|]. simpl. rewrite Ds. reflexivity. }
  rewrite (any_name_in _ Istr Ne) in B. destruct B as [[upd [Eu ->]] ->].
  destruct (bounded_schema _ _ Eu) as [En Hl].
  apply isin_In in Istr.
  set (bounded := with_max_value (Int (column_size c)) c).
  assert (value_lt (Int (Z.of_nat (String.length t))) (minimum bounded) = Ok false
          /\ value_lt (maximum bounded) (Int (Z.of_nat (String.length t))) = Ok false)
    as [Lo Hi].
  { apply (H col (apply str_len s) bounded).
    - apply in_map_iff. exists (col, s). cbn [fst snd]. rewrite Istr. now split.
    - apply not_datetimeoffset with (c := bounded).
      + now rewrite En.
      + rewrite (Hl _ _ Lc), Istr. reflexivity.
      + unfold bounded. cbn [sql_type with_max_value].
        destruct Tc as [T|T]; rewrite T; discriminate.
    - rewrite (Hl _ _ Lc), Istr. reflexivity.
    - cbn [apply values]. apply in_map_iff. exists (Str t). now split. }
  unfold bounded in Lo, Hi. rewrite minimum_with_max_value, (minimum_character _ Tc Cc) in Lo.
  assert (maximum (with_max_value (Int (column_size c)) c) = Int (column_size c)) as Mx.
  { unfold maximum, with_max_value. cbn [conversion]. rewrite Cc.
    destruct Tc as [T|T]; rewrite T; reflexivity. }
  rewrite Mx in Hi. cbn [value_lt number] in Lo, Hi.
  injection Lo as Lo. injection Hi as Hi.
  apply negb_false_iff, Qle_bool_iff in Lo, Hi.
  rewrite <- Zle_Qle in Lo, Hi. lia.
Qed.

(** A varchar(3) column that holds "ab" and "abc". *)
Lemma passed_size_check_bounds_every_string_witness :
  check_column_size
    (table [("name", {| dtype := "string"; values := [Str "ab"; Str "abc"] |})])
    [("name", described "varchar" 3)] = Ok tt
  /\ 1 <= Z.of_nat (String.length "abc") <= column_size (described "varchar" 3).
Proof.
  split; [reflexivity|].
  apply (@passed_size_check_bounds_every_string
           (table [("name", {| dtype := "string"; values := [Str "ab"; Str "abc"] |})])
           [("name", described "varchar" 3)] "name"
           {| dtype := "string"; values := [Str "ab"; Str "abc"] |}
           (described "varchar" 3) "abc").
  - reflexivity.
  - repeat constructor. intros [].
  - discriminate.
  - now left.
  - reflexivity.
  - reflexivity.
  - now left.
  - reflexivity.
  - right. now left.
Defined.

(* ===================================================================== *)
(** ** The labels of the prepared tables *)
(* ===================================================================== *)

Lemma same_frame_refl df : same_frame df df.
Proof. now split. Qed.

Lemma same_frame_trans a b c : same_frame a b -> same_frame b c -> same_frame a c.
Proof. intros [I1 N1] [I2 N2]. split; congruence. Qed.

Lemma lookup_names {A} (l : list (string * A)) k v : lookup k l = Some v -> In k (names l).
Proof.
  intros L. apply lookup_In in L. unfold names. apply in_map_iff. now exists (k, v).
Qed.

Lemma same_frame_setitem col s df :
  In col (names (columns df)) -> same_frame (setitem col s df) df.
Proof.
  intros I. split; [reflexivity|]. cbn [setitem columns]. now apply names_assign_present.
Qed.

Lemma getitem_names col df s : getitem col df = Ok s -> In col (names (columns df)).
Proof.
  unfold getitem. destruct (lookup col (columns df)) eqn:L; [|discriminate].
  intros _. eapply lookup_names; eauto.
Qed.

Lemma same_frame_fold_setitem converted df :
  (forall c, In c (names converted) -> In c (names (columns df))) ->
  same_frame (fold_left (fun d cs => setitem (fst cs) (snd cs) d) converted df) df.
Proof.
  revert df. induction converted as [|[c s] l IH]; intros df Hin; cbn [fold_left fst snd].
  - apply same_frame_refl.
  - assert (same_frame (setitem c s df) df) as S1.
    { apply same_frame_setitem. apply Hin. now left. }
    eapply same_frame_trans; [|exact S1]. apply IH.
    intros k I. destruct S1 as [_ ->]. apply Hin. now right.
Qed.

Lemma same_frame_convert cols f df df' :
  convert cols f df = Ok df' -> same_frame df' df.
Proof.
  unfold convert. intros E.
  match type of E with and_then ?m _ = _ => destruct m as [converted|] eqn:Ec end;
    cbn [and_then] in E; [|discriminate].
  injection E as <-. apply same_frame_fold_setitem.
  intros c I. unfold names in I. apply in_map_iff in I as [[k v] [Ek I]]. simpl in Ek. subst k.
  destruct (map_result_out _ _ _ Ec I) as [col [F _]].
  destruct (getitem col df) as [s|] eqn:G; cbn [and_then] in F; [|discriminate].
  destruct (f s); cbn [and_then] in F; [|discriminate].
  injection F as <- _. eapply getitem_names; eauto.
Qed.

Lemma same_frame_assign_rounded rounded :
  (forall p d col r, rounded p d col = Ok r -> In col (names (columns d))) ->
  forall cols p d p' d',
    names (columns p) = names (columns d) ->
    assign_rounded rounded cols p d = Ok (p', d') ->
    same_frame p' p /\ same_frame d' d.
Proof.
  intros R. induction cols as [|col cols IH]; intros p d p' d' Eq E; cbn [assign_rounded] in E.
  - injection E as <- <-. split; apply same_frame_refl.
  - destruct (rounded p d col) as [r|] eqn:Er; cbn [and_then] in E; [|discriminate].
    pose proof (R _ _ _ _ Er) as Id.
    assert (same_frame (setitem col r p) p) as Sp
        by (apply same_frame_setitem; now rewrite Eq).
    assert (same_frame (setitem col r d) d) as Sd by now apply same_frame_setitem.
    destruct (IH _ _ _ _ (eq_trans (proj2 Sp) (eq_trans Eq (eq_sym (proj2 Sd)))) E)
      as [Sp' Sd'].
    split; eapply same_frame_trans; eauto.
Qed.

Lemma same_frame_render `{Host} trim cols p p' (l l' : Log) :
  (if any_name cols then lift (render trim cols p) else ret p) l = (Ok p', l') ->
  same_frame p' p /\ l' = l.
Proof.
  intros E. destruct (any_name cols).
  - apply lift_inv in E as [E ->]. split; [|reflexivity].
    unfold render in E. eapply same_frame_convert; eauto.
  - apply ret_inv in E as [-> ->]. split; [apply same_frame_refl | reflexivity].
Qed.

Lemma prepare_time_frames `{Host} schema p d l p' d' l' :
  names (columns p) = names (columns d) ->
  prepare_time schema p d l = (Ok (p', d'), l') ->
  same_frame p' p /\ same_frame d' d.
Proof.
  intros Eq E. unfold prepare_time in E.
  invert_bind E as invalid s0 Ei. clear Ei.
  destruct (any (map snd invalid)); [discriminate|].
  invert_bind E as truncation s1 Et. clear Et.
  invert_bind E as u s3 Ew. clear Ew u.
  invert_bind E as tables s4 Ea. apply lift_inv in Ea as [Ea ->].
  destruct tables as [p1 d1].
  invert_bind E as p2 s5 Er.
  apply ret_inv in E as [E ->]. injection E as <- <-.
  apply same_frame_render in Er as [Sr _].
  apply same_frame_assign_rounded in Ea as [Sp Sd]; [| |assumption].
  - split; [eapply same_frame_trans; eauto | assumption].
  - intros q e col r G. destruct (getitem col e) eqn:Ge; cbn [and_then] in G; [|discriminate].
    eapply getitem_names; eauto.
Qed.

Lemma prepare_datetime_frames `{Host} schema p d l p' d' l' :
  names (columns p) = names (columns d) ->
  prepare_datetime schema p d l = (Ok (p', d'), l') ->
  same_frame p' p /\ same_frame d' d.
Proof.
  intros Eq E. unfold prepare_datetime in E.
  invert_bind E as adjust s0 Ei. clear Ei.
  invert_bind E as tables s1 Ea. destruct tables as [p1 d1].
  invert_bind E as p2 s2 Er.
  apply ret_inv in E as [E ->]. injection E as -> ->.
  apply same_frame_render in Er as [Sr _].
  assert (same_frame p1 p /\ same_frame d1 d) as [Sp Sd].
  { destruct (any_applied adjust).
    - invert_bind Ea as named s3 Ex. clear Ex.
      invert_bind Ea as u s4 Ew. clear Ew u. apply lift_inv in Ea as [Ea _].
      apply same_frame_assign_rounded in Ea; [assumption| |assumption].
      intros q e col r G.
      destruct (getitem col q); cbn [and_then] in G; [|discriminate].
      destruct (getitem col e) eqn:Ge; cbn [and_then] in G; [|discriminate].
      eapply getitem_names; eauto.
    - apply ret_inv in Ea as [Ea _]. injection Ea as <- <-.
      split; apply same_frame_refl. }
  split; [eapply same_frame_trans; eauto | assumption].
Qed.

Lemma prepare_datetime2_frames `{Host} schema p d l p' d' l' :
  names (columns p) = names (columns d) ->
  prepare_datetime2 schema p d l = (Ok (p', d'), l') ->
  same_frame p' p /\ same_frame d' d.
Proof.
  intros Eq E. unfold prepare_datetime2 in E.
  invert_bind E as truncation s0 Ei. clear Ei.
  invert_bind E as tables s1 Ea. destruct tables as [p1 d1].
  invert_bind E as p2 s2 Er.
  apply ret_inv in E as [E ->]. injection E as -> ->.
  apply same_frame_render in Er as [Sr _].
  assert (same_frame p1 p /\ same_frame d1 d) as [Sp Sd].
  { destruct (any_applied truncation).
    - invert_bind Ea as named s3 Ex. clear Ex.
      invert_bind Ea as u s4 Ew. clear Ew u. apply lift_inv in Ea as [Ea _].
      apply same_frame_assign_rounded in Ea; [assumption| |assumption].
      intros q e col r G.
      destruct (getitem col e) eqn:Ge; cbn [and_then] in G; [|discriminate].
      eapply getitem_names; eauto.
    - apply ret_inv in Ea as [Ea _]. injection Ea as <- <-.
      split; apply same_frame_refl. }
  split; [eapply same_frame_trans; eauto | assumption].
Qed.

Lemma offsets_step_frames cols :
  forall p d t p' d' t',
    names (columns p) = names (columns d) ->
    fold_left offsets_step cols (Ok (p, d, t)) = Ok (p', d', t') ->
    same_frame p' p /\ same_frame d' d.
Proof.
  induction cols as [|col cols IH]; intros p d t p' d' t' Eq E; cbn [fold_left] in E.
  - injection E as <- <- _. split; apply same_frame_refl.
  - unfold offsets_step at 2 in E. cbn [and_then] in E.
    destruct (getitem col d) as [s|e] eqn:G; cbn [and_then] in E;
      [|rewrite offsets_step_raise in E; discriminate].
    apply getitem_names in G.
    assert (same_frame (setitem col (apply assume_utc s) p) p) as Sp
        by (apply same_frame_setitem; now rewrite Eq).
    assert (same_frame (setitem col (apply assume_utc s) d) d) as Sd
        by now apply same_frame_setitem.
    destruct (IH _ _ _ _ _ _ (eq_trans (proj2 Sp) (eq_trans Eq (eq_sym (proj2 Sd)))) E)
      as [Sp' Sd'].
    split; eapply same_frame_trans; eauto.
Qed.

Lemma prepare_datetimeoffset_frames `{Host} schema p d l p' d' l' :
  names (columns p) = names (columns d) ->
  prepare_datetimeoffset schema p d l = (Ok (p', d'), l') ->
  same_frame p' p /\ same_frame d' d.
Proof.
  intros Eq E. unfold prepare_datetimeoffset in E.
  invert_bind E as first s0 Ef. apply lift_inv in Ef as [Ef _].
  destruct first as [[p0 d0] truncation].
  apply offsets_step_frames in Ef as [Sp0 Sd0]; [|assumption].
  invert_bind E as tables s1 Ea. destruct tables as [p1 d1].
  invert_bind E as p2 s2 Er.
  apply ret_inv in E as [E ->]. injection E as -> ->.
  apply same_frame_render in Er as [Sr _].
  assert (same_frame p1 p0 /\ same_frame d1 d0) as [Sp Sd].
  { destruct (any (map snd truncation)).
    - invert_bind Ea as u s3 Ew. clear Ew u. apply lift_inv in Ea as [Ea _].
      apply same_frame_assign_rounded in Ea; [assumption| |].
      + intros q e col r G.
        destruct (getitem col e) eqn:Ge; cbn [and_then] in G; [|discriminate].
        eapply getitem_names; eauto.
      + destruct Sp0 as [_ ->]. destruct Sd0 as [_ ->]. assumption.
    - apply ret_inv in Ea as [Ea _]. injection Ea as <- <-.
      split; apply same_frame_refl. }
  split; repeat (eapply same_frame_trans; eauto).
Qed.

Lemma numeric_steps_frames `{Host} schema cols :
  forall p d l p' d' l',
    names (columns p) = names (columns d) ->
    for_each cols (numeric_step schema) (p, d) l = (Ok (p', d'), l') ->
    same_frame p' p /\ same_frame d' d.
Proof.
  induction cols as [|col cols IH]; intros p d l p' d' l' Eq E; cbn [for_each] in E.
  - apply ret_inv in E as [E _]. injection E as <- <-. split; apply same_frame_refl.
  - invert_bind E as tables s0 Es. destruct tables as [p1 d1].
    unfold numeric_step in Es.
    invert_bind Es as s s1 G. apply lift_inv in G as [G ->].
    invert_bind Es as c s2 Lc. clear Lc.
    invert_bind Es as rounded s3 Ec. clear Ec.
    invert_bind Es as u s4 Ew. clear Ew u.
    apply ret_inv in Es as [Es _]. injection Es as -> ->.
    apply getitem_names in G.
    assert (same_frame (setitem col rounded p) p) as Sp
        by (apply same_frame_setitem; now rewrite Eq).
    assert (same_frame (setitem col (replace_NA s) d) d) as Sd0
        by now apply same_frame_setitem.
    assert (same_frame (setitem col rounded (setitem col (replace_NA s) d)) d) as Sd.
    { eapply same_frame_trans; [|exact Sd0]. apply same_frame_setitem.
      destruct Sd0 as [_ ->]. assumption. }
    destruct (IH _ _ _ _ _ _ (eq_trans (proj2 Sp) (eq_trans Eq (eq_sym (proj2 Sd)))) E)
      as [Sp' Sd'].
    split; eapply same_frame_trans; eauto.
Qed.

Lemma transpose_width n : forall cols row,
  In row (transpose n cols) -> length row = length cols.
Proof.
  induction n as [|n IH]; intros cols row I; cbn [transpose] in I; [contradiction|].
  destruct I as [<-|I].
  - apply length_map.
  - rewrite (IH _ _ I). apply length_map.
Qed.

Lemma tolist_width df row : In row (tolist df) -> length row = length (names (columns df)).
Proof.
  unfold tolist, names. destruct (columns df) as [|[k s] cs] eqn:C; [contradiction|].
  intros I. apply transpose_width in I. now rewrite I, !length_map.
Qed.

Lemma names_filter_fst {A} (p : string -> bool) (l : list (string * A)) :
  names (filter (fun c => p (fst c)) l) = filter p (names l).
Proof.
  unfold names. induction l as [|[k v] l IH]; cbn [filter map fst]; [reflexivity|].
  destruct (p k); cbn [map fst]; now rewrite IH.
Qed.

Lemma filter_apart keys cols :
  (forall col, In col keys -> ~ In col cols) ->
  filter (fun c => negb (isin c keys)) (keys +++ cols) = cols.
Proof.
  intros D. rewrite filter_app.
  assert (filter (fun c => negb (isin c keys)) keys = []) as ->.
  { assert (forall l, incl l keys -> filter (fun c => negb (isin c keys)) l = []) as G.
    { induction l as [|k l IH]; intros I; cbn [filter]; [reflexivity|].
      assert (isin k keys = true) as -> by (apply isin_In, I; now left).
      cbn [negb]. apply IH. intros x Hx. apply I. now right. }
    apply G, incl_refl. }
  cbn [app]. induction cols as [|c cols IH]; cbn [filter]; [reflexivity|].
  destruct (isin c keys) eqn:Ic.
  - exfalso. apply isin_In in Ic. apply (D _ Ic). now left.
  - cbn [negb]. f_equal. apply IH. intros col I J. apply (D _ I). now right.
Qed.

Lemma index_as_columns_frame index_ df q :
  index_ = names (index df) ->
  index_as_columns index_ df = Ok q ->
  names (index q) = names (index df)
  /\ names (columns q) = value_columns df.
Proof.
  intros -> E. unfold index_as_columns in E. unfold value_columns.
  destruct (any_name (names (index df))).
  - unfold set_index in E.
    destruct (getitems _ _) as [levels|] eqn:G; cbn [and_then] in E; [|discriminate].
    injection E as <-. cbn [index columns reset_index]. split.
    + now apply getitems_names in G.
    + unfold names. apply map_app.
  - injection E as <-. now split.
Qed.

Lemma prepare_values_frames `{Host} schema dataframe dataframe' values_ (log log' : Log) :
  prepare_values schema dataframe log = (Ok (dataframe', values_), log') ->
  (forall col, In col (names (index dataframe)) -> ~ In col (names (columns dataframe))) ->
  names (index dataframe') = names (index dataframe)
  /\ names (columns dataframe') = names (columns dataframe)
  /\ forall row, In row values_ -> length row = length (value_columns dataframe).
Proof.
  intros E D.
  unfold prepare_values in E.
  invert_bind E as p0 s0 E0. apply lift_inv in E0 as [E0 ->].
  invert_bind E as d0 s1 E1. apply lift_inv in E1 as [E1 ->].
  assert (d0 = p0) as -> by congruence. clear E1.
  destruct (index_as_columns_frame _ eq_refl E0) as [I0 C0].
  invert_bind E as t1 s2 T1. destruct t1 as [p1 d1].
  apply prepare_time_frames in T1 as [Sp1 Sd1]; [|reflexivity].
  invert_bind E as t2 s3 T2. destruct t2 as [p2 d2].
  apply prepare_datetime_frames in T2 as [Sp2 Sd2];
    [|rewrite (proj2 Sp1), (proj2 Sd1); reflexivity].
  pose proof (same_frame_trans Sp2 Sp1) as Sp. pose proof (same_frame_trans Sd2 Sd1) as Sd.
  clear Sp1 Sd1 Sp2 Sd2.
  invert_bind E as t3 s4 T3. destruct t3 as [p3 d3].
  apply prepare_datetime2_frames in T3 as [Sp3 Sd3];
    [|rewrite (proj2 Sp), (proj2 Sd); reflexivity].
  pose proof (same_frame_trans Sp3 Sp) as Sp'. pose proof (same_frame_trans Sd3 Sd) as Sd'.
  clear Sp Sd Sp3 Sd3.
  invert_bind E as t4 s5 T4. destruct t4 as [p4 d4].
  apply prepare_datetimeoffset_frames in T4 as [Sp4 Sd4];
    [|rewrite (proj2 Sp'), (proj2 Sd'); reflexivity].
  pose proof (same_frame_trans Sp4 Sp') as Sp. pose proof (same_frame_trans Sd4 Sd') as Sd.
  clear Sp' Sd' Sp4 Sd4.
  invert_bind E as t5 s6 T5. destruct t5 as [p5 d5].
  apply numeric_steps_frames in T5 as [Sp5 Sd5];
    [|rewrite (proj2 Sp), (proj2 Sd); reflexivity].
  pose proof (same_frame_trans Sp5 Sp) as [Ip Cp].
  pose proof (same_frame_trans Sd5 Sd) as [Id Cd].
  clear Sp Sd Sp5 Sd5.
  invert_bind E as d6 s7 E6. apply lift_inv in E6 as [E6 ->].
  apply ret_inv in E as [E _]. injection E as -> ->.
  assert (names (index d6) = names (index dataframe)
          /\ names (columns d6) = names (columns dataframe)) as [I6 C6].
  { unfold value_columns in C0. destruct (any_name (names (index dataframe))).
    - unfold set_index in E6.
      destruct (getitems _ _) as [levels|] eqn:G; cbn [and_then] in E6; [|discriminate].
      injection E6 as <-. cbn [index columns]. split.
      + now apply getitems_names in G.
      + rewrite (names_filter_fst (fun c => negb (isin c (names (index dataframe))))).
        rewrite Cd, C0. now apply filter_apart.
    - injection E6 as <-. split; congruence. }
  split; [assumption|]. split; [assumption|].
  intros row I. apply tolist_width in I. rewrite I, Cp, C0. reflexivity.
Qed.

(** X18: when [prepare_values] returns for a table whose index levels and
    columns bear different names, the table it returns has the index levels
    and the columns of the caller's, by name and in order, and every row of
    values holds one value for each named index level and each column. *)
Theorem prepared_rows_match_the_columns :
  forall (H : Host) (schema : Schema) (dataframe dataframe' : DataFrame)
         (values_ : list (list value)) (log log' : Log),
    prepare_values schema dataframe log = (Ok (dataframe', values_), log') ->
    (forall col, In col (names (index dataframe)) -> ~ In col (names (columns dataframe))) ->
    names (index dataframe') = names (index dataframe)
    /\ names (columns dataframe') = names (columns dataframe)
    /\ forall row, In row values_ -> length row = length (value_columns dataframe).
Proof. intros H schema dataframe dataframe' values_ log log'. apply prepare_values_frames. Qed.

(** A table keyed by [id] with one column [v] and two rows. *)
Lemma prepared_rows_match_the_columns_witness :
  ["id"] = ["id"] /\ ["v"] = ["v"]
  /\ forall row, In row [[Int 1; Int 10]; [Int 2; Int 20]] -> length row = 2%nat.
Proof.
  apply (@prepared_rows_match_the_columns plain_host
           [("id", described "int" 10); ("v", described "int" 10)]
           {| index := [("id", {| dtype := "Int64"; values := [Int 1; Int 2] |})];
              columns := [("v", {| dtype := "Int64"; values := [Int 10; Int 20] |})] |}
           {| index := [("id", {| dtype := "Int64"; values := [Int 1; Int 2] |})];
              columns := [("v", {| dtype := "Int64"; values := [Int 10; Int 20] |})] |}
           [[Int 1; Int 10]; [Int 2; Int 20]] [] []).
  - reflexivity.
  - intros col [<-|[]] [E|[]]. discriminate.
Defined.

Lemma map_result_length {A B} (f : A -> result B) xs ys :
  map_result f xs = Ok ys -> length ys = length xs.
Proof.
  revert ys. induction xs as [|a xs IH]; cbn [map_result]; intros ys E.
  - now injection E as <-.
  - destruct (f a); [|discriminate]. destruct (map_result f xs); [|discriminate].
    injection E as <-. cbn [length]. f_equal. now apply IH.
Qed.

Lemma count_char_placeholders n : count_char "?" (placeholders n) = n.
Proof.
  unfold placeholders. rewrite count_char_join_all with (k := 1%nat).
  - rewrite repeat_length. lia.
  - reflexivity.
  - apply Forall_forall. intros x I. apply repeat_spec in I. now subst.
Qed.

(** X19: when [insert_values] returns on a recording session, the session
    has received, in this order, the input sizes, one INSERT statement with
    the rows, and the commit; the sizes, the parameter markers of the
    statement and the values of every row are as many as the named index
    levels and columns of the table, which the returned table keeps. *)
Theorem insert_values_sends_rows_of_the_declared_width :
  forall (H : Host) (rows : list ColumnRow) (keys : list KeyRow) (table_name : string)
         (dataframe dataframe' : DataFrame) (include_metadata_timestamps : bool)
         (schema : Schema) (s s' : list event) (log log' : Log),
    insert_values (D := recording_database rows keys) table_name dataframe
      include_metadata_timestamps schema (s, log) = (Ok dataframe', (s', log')) ->
    (forall col, In col (names (index dataframe)) -> ~ In col (names (columns dataframe))) ->
    let n := length (value_columns dataframe) in
    let listed := join ", " (map (fun name => "[" ++ name ++ "]") (value_columns dataframe)) in
    let insert := if include_metadata_timestamps then "_time_insert, " ++ listed else listed in
    let params := if include_metadata_timestamps
                  then "GETDATE(), " ++ placeholders n else placeholders n in
    exists sizes values_,
      s' = s +++ [ SetInputSizes sizes;
                   ExecuteMany (insert_statement ("[" ++ table_name ++ "]") insert params) values_;
                   Commit ]
      /\ length sizes = n
      /\ count_char "?" params = n
      /\ (forall row, In row values_ -> length row = n)
      /\ value_columns dataframe' = value_columns dataframe.
Proof.
  intros H rows keys table_name dataframe dataframe' include schema s s' log log' E D n
         listed insert params.
  unfold insert_values in E. fold (value_columns dataframe) in E.
  invert_bind E as table st0 E0.
  unfold on_fst, run in E0. cbn [fst snd escape recording_database called] in E0. injection E0 as <- <-.
  invert_bind E as columns_ st1 E1.
  unfold on_fst, run in E1. cbn [fst snd escape_all recording_database called] in E1. injection E1 as <- <-.
  invert_bind E as prepared st2 E2. destruct prepared as [d1 values_].
  unfold on_snd in E2. cbn [fst snd] in E2.
  destruct (prepare_values schema dataframe log) as [r log1] eqn:Ep.
  injection E2 as -> <-.
  destruct (@prepare_values_frames _ _ _ _ _ _ _ Ep D) as [I1 [C1 W]].
  assert (value_columns d1 = value_columns dataframe) as V
      by (unfold value_columns; now rewrite I1, C1).
  invert_bind E as u st3 E3.
  unfold on_fst, prepare_cursor in E3. cbn [fst snd] in E3.
  fold (value_columns d1) in E3. rewrite V in E3.
  match type of E3 with context [map_result ?f ?xs] =>
    destruct (map_result f xs) as [sizes|] eqn:Es end.
  2:{ cbv [bind lift] in E3. discriminate. }
  cbv [bind lift run] in E3. cbn [cursor_setinputsizes recording_database called] in E3.
  injection E3 as _ <-. clear u.
  invert_bind E as u st4 E4.
  unfold on_fst, run in E4. cbn [fst snd cursor_executemany recording_database called] in E4. injection E4 as _ <-. clear u.
  invert_bind E as u st5 E5.
  unfold on_fst, run in E5. cbn [fst snd cursor_commit recording_database called] in E5. injection E5 as _ <-. clear u.
  apply ret_inv in E as [-> E]. injection E as -> ->.
  exists sizes, values_. split.
  { rewrite <- !app_assoc. cbn [app]. unfold insert, params, listed, n.
    rewrite length_map. reflexivity. }
  split; [now apply map_result_length in Es|].
  split.
  { unfold params. destruct include.
    - rewrite count_char_app, count_char_placeholders. reflexivity.
    - apply count_char_placeholders. }
  split; assumption.
Qed.

(** The same table inserted with the metadata timestamp into a session that
    has received nothing yet. *)
Lemma insert_values_sends_rows_of_the_declared_width_witness :
  exists sizes values_,
    [ SetInputSizes [(Some SQL_INTEGER, 10, 0); (Some SQL_INTEGER, 10, 0)];
      ExecuteMany
        (insert_statement "[t]" "_time_insert, [id], [v]" "GETDATE(), ?, ?")
        [[Int 1; Int 10]; [Int 2; Int 20]];
      Commit ]
    = [] +++ [ SetInputSizes sizes;
               ExecuteMany
                 (insert_statement "[t]" "_time_insert, [id], [v]" "GETDATE(), ?, ?") values_;
               Commit ]
    /\ length sizes = 2%nat
    /\ count_char "?" "GETDATE(), ?, ?" = 2%nat
    /\ (forall row, In row values_ -> length row = 2%nat)
    /\ ["id"; "v"] = ["id"; "v"].
Proof.
  apply (@insert_values_sends_rows_of_the_declared_width plain_host [] [] "t"
           {| index := [("id", {| dtype := "Int64"; values := [Int 1; Int 2] |})];
              columns := [("v", {| dtype := "Int64"; values := [Int 10; Int 20] |})] |}
           {| index := [("id", {| dtype := "Int64"; values := [Int 1; Int 2] |})];
              columns := [("v", {| dtype := "Int64"; values := [Int 10; Int 20] |})] |}
           true
           [("id", described "int" 10); ("v", described "int" 10)]
           [] _ [] []).
  - reflexivity.
  - intros col [<-|[]] [E|[]]. discriminate.
Defined.

(* ===================================================================== *)
(** ** The table the precheck returns *)
(* ===================================================================== *)

Lemma except_invalid_ok {A} cols (r : result A) a : except_invalid cols r = Ok a -> r = Ok a.
Proof. destruct r as [|[]]; cbn [except_invalid]; intros E; try discriminate; assumption. Qed.

Lemma same_frame_convert_largest `{Host} df schema df' :
  convert_largest_sql_category df schema = Ok df' -> same_frame df' df.
Proof.
  unfold convert_largest_sql_category. intros E.
  repeat match type of E with
         | and_then (where_schema ?s ?p ?c) _ = _ =>
             destruct (where_schema s p c); cbn [and_then] in E; [|discriminate]
         | and_then (except_invalid ?c ?r) _ = _ =>
             let d := fresh "d" in
             let Ed := fresh "Ed" in
             destruct (except_invalid c r) as [d|] eqn:Ed; cbn [and_then] in E; [|discriminate];
             apply except_invalid_ok, same_frame_convert in Ed
         end.
  injection E as <-.
  repeat (eapply same_frame_trans; [eassumption|]). apply same_frame_refl.
Qed.

Lemma same_frame_astype_rules `{Host} (schema : Schema) :
  forall acc d',
    fold_left
      (fun acc r =>
         df <~ acc ;;
         match conversion (snd r) with
         | Some rule => convert [fst r] (fun s => called (astype (pandas_type rule) s)) df
         | None => Raise TypeError
         end)
      schema acc = Ok d' ->
    exists d, acc = Ok d /\ same_frame d' d.
Proof.
  induction schema as [|r schema IH]; intros acc d' E; cbn [fold_left] in E.
  - exists d'. split; [assumption | apply same_frame_refl].
  - apply IH in E as [d1 [E S1]].
    destruct acc as [d|]; cbn [and_then] in E; [|discriminate].
    exists d. split; [reflexivity|].
    destruct (conversion (snd r)); [|discriminate].
    apply same_frame_convert in E. eapply same_frame_trans; eauto.
Qed.

Lemma value_columns_reset df :
  names (columns (if any_name (names (index df)) then reset_index df else df))
  = value_columns df.
Proof.
  unfold value_columns. destruct (any_name (names (index df))); [|reflexivity].
  cbn [reset_index columns]. unfold names. apply map_app.
Qed.

Lemma insert_by_seq_permutation k l : Permutation (k :: l) (insert_by_seq k l).
Proof.
  induction l as [|k' l IH]; cbn [insert_by_seq]; [apply Permutation_refl|].
  destruct (snd k <? snd k'); [apply Permutation_refl|].
  eapply perm_trans; [apply perm_swap|]. now apply perm_skip.
Qed.

Lemma insert_by_seq_sorted k l :
  StronglySorted by_seq l -> StronglySorted by_seq (insert_by_seq k l).
Proof.
  induction 1 as [|k' l Sl IH Fl]; cbn [insert_by_seq].
  - constructor; constructor.
  - destruct (Z.ltb_spec (snd k) (snd k')) as [Lt|Ge].
    + constructor; [now constructor|]. constructor; [unfold by_seq; lia|].
      eapply Forall_impl; [|exact Fl]. unfold by_seq. intros x Lx. lia.
    + constructor; [exact IH|].
      eapply Permutation_Forall; [apply insert_by_seq_permutation|].
      constructor; [unfold by_seq; lia | exact Fl].
Qed.

(** [primary_key] sorts: it lists the key columns by ascending [pk_seq]. *)
Lemma primary_key_sorts (schema : Schema) :
  exists keys,
    primary_key schema = names keys
    /\ Permutation keys (key_sequence schema)
    /\ StronglySorted by_seq keys.
Proof.
  unfold primary_key. fold (key_sequence schema).
  exists (fold_right insert_by_seq [] (key_sequence schema)). split; [reflexivity|].
  induction (key_sequence schema) as [|k l [P S]]; cbn [fold_right].
  - split; [apply perm_nil | constructor].
  - split; [|now apply insert_by_seq_sorted].
    eapply perm_trans; [apply Permutation_sym, insert_by_seq_permutation|].
    now apply perm_skip.
Qed.

(** X20: when [_precheck_dataframe] returns, the index of the table is
    decided by the schema rows of its columns and named index levels,
    whatever index the caller's table had.  If one of them has a [pk_seq],
    the index levels are the columns that have one, each once, in ascending
    [pk_seq], and the remaining named index levels and columns are the
    columns, in their order; if none has, a named index comes back as
    leading columns and an unnamed one is left alone. *)
Theorem precheck_indexes_by_the_primary_key :
  forall (H : Host) (schema : Schema) (dataframe dataframe' : DataFrame),
    _precheck_dataframe schema dataframe = Ok dataframe' ->
    let present := filter (fun r => isin (fst r) (value_columns dataframe)) schema in
    if any (map (fun r => match pk_seq (snd r) with Some _ => true | None => false end) present)
    then exists keys,
        names (index dataframe') = names keys
        /\ Permutation keys (key_sequence present)
        /\ StronglySorted by_seq keys
        /\ names (columns dataframe')
           = filter (fun c => negb (isin c (names keys))) (value_columns dataframe)
    else names (index dataframe')
         = (if any_name (names (index dataframe)) then [] else names (index dataframe))
         /\ names (columns dataframe') = value_columns dataframe.
Proof.
  intros H schema dataframe dataframe' E present.
  unfold _precheck_dataframe in E. rewrite value_columns_reset in E. fold present in E.
  set (d0 := if any_name (names (index dataframe)) then reset_index dataframe else dataframe)
    in E.
  assert (names (columns d0) = value_columns dataframe) as C0 by apply value_columns_reset.
  assert (names (index d0)
          = if any_name (names (index dataframe)) then [] else names (index dataframe)) as I0.
  { unfold d0. now destruct (any_name (names (index dataframe))). }
  clearbody d0.
  destruct (convert_largest_sql_category d0 present) as [d1|] eqn:E1;
    cbn [and_then] in E; [|discriminate].
  apply same_frame_convert_largest in E1 as [I1 C1].
  destruct (check_column_size d1 present); cbn [and_then] in E; [|discriminate].
  destruct (check_unicode d1 present); cbn [and_then] in E; [|discriminate].
  match type of E with and_then ?m _ = _ => destruct m as [d2|] eqn:E2 end;
    cbn [and_then] in E; [|discriminate].
  match type of E2 with match ?m with _ => _ end = _ =>
    assert (m = Ok d2) as E2' by (destruct m as [|[]]; try discriminate; assumption) end.
  clear E2. apply same_frame_astype_rules in E2' as [d [Ed [I2 C2]]].
  injection Ed as <-.
  destruct (any (map _ present)).
  - unfold set_index in E.
    destruct (getitems _ _) as [levels|] eqn:G; cbn [and_then] in E; [|discriminate].
    injection E as <-. cbn [index columns].
    destruct (primary_key_sorts present) as [keys [Ek [P S]]].
    exists keys. rewrite <- Ek. split; [now apply getitems_names in G|].
    split; [exact P|]. split; [exact S|].
    rewrite (names_filter_fst (fun c => negb (isin c (primary_key present)))).
    now rewrite C2, C1, C0.
  - injection E as <-. split; congruence.
Qed.

(** A table indexed by [v] for a schema whose primary key is [b] then [a],
    the schema listing [a] first: it comes back indexed by [b] and [a]. *)
Lemma precheck_indexes_by_the_primary_key_witness :
  let schema := [("a", keyed 2 "pk" (described "int" 10));
                 ("b", keyed 1 "pk" (described "int" 10));
                 ("v", described "int" 10); ("w", described "int" 10)] in
  let whole := fun t cells => {| dtype := t; values := cells |} in
  let dataframe := {| index := [("v", whole "Int64" [Int 10; Int 20])];
                      columns := [("a", whole "Int64" [Int 1; Int 2]);
                                  ("b", whole "Int64" [Int 3; Int 4])] |} in
  let dataframe' := {| index := [("b", whole "Int32" [Int 3; Int 4]);
                                 ("a", whole "Int32" [Int 1; Int 2])];
                       columns := [("v", whole "Int32" [Int 10; Int 20])] |} in
  _precheck_dataframe (H := plain_host) schema dataframe = Ok dataframe'
  /\ exists keys,
      ["b"; "a"] = names keys
      /\ Permutation keys [("a", 2); ("b", 1)]
      /\ StronglySorted by_seq keys
      /\ ["v"] = filter (fun c => negb (isin c (names keys))) ["v"; "a"; "b"].
Proof.
  intros schema whole dataframe dataframe'.
  assert (_precheck_dataframe (H := plain_host) schema dataframe = Ok dataframe') as E
      by reflexivity.
  split; [exact E|].
  exact (@precheck_indexes_by_the_primary_key plain_host schema dataframe dataframe' E).
Defined.

(* ===================================================================== *)
(** ** The errors of get_schema *)
(* ===================================================================== *)

Lemma bind_raise_inv {S A B} (m : M S A) (k : A -> M S B) s e s' :
  bind m k s = (Raise e, s') ->
  m s = (Raise e, s') \/ exists a s1, m s = (Ok a, s1) /\ k a s1 = (Raise e, s').
Proof.
  unfold bind. destruct (m s) as [[a|e0] s1]; cbv beta iota; intros E.
  - right. eauto.
  - left. injection E as -> ->. reflexivity.
Qed.

Lemma run_raises_foreign {S A} (c : Call S A) s e s' :
  run c s = (Raise e, s') -> not_about_table e.
Proof.
  unfold run. destruct (c s) as [[f|a] s1]; cbn [called]; intros E; [|discriminate].
  injection E as <- _. now destruct f.
Qed.

Lemma in_not_in present wanted col :
  In col (not_in present wanted) -> In col wanted /\ ~ In col present.
Proof.
  unfold not_in. intros I. apply filter_In in I as [I N]. split; [assumption|].
  intros J. apply isin_In in J. rewrite J in N. discriminate.
Qed.

(** X21: the two errors [get_schema] raises about the table are sound: it
    raises [SQLTableDoesNotExist] only when the query for the columns of the
    table returned no row, and [SQLColumnDoesNotExist] only when that query
    returned rows among which a column the caller named, as an additional
    column or as a column of the table passed in, is absent; in both cases
    the session is as that query left it. *)
Theorem get_schema_errors_about_the_table_are_sound :
  forall (H : Host) (D : Database) (table_name : string) (dataframe : option DataFrame)
         (additional_columns : option (list string)) (s s' : session) (e : exception),
    get_schema table_name dataframe additional_columns s = (Raise e, s') ->
    match e with
    | SQLTableDoesNotExist =>
        exists table catalog schema_name,
          cursor_columns table catalog schema_name s = (inr [], s')
    | SQLColumnDoesNotExist _ =>
        exists table catalog schema_name rows col,
          cursor_columns table catalog schema_name s = (inr rows, s')
          /\ rows <> []
          /\ ~ In col (map column_name rows)
          /\ (match additional_columns with
              | Some columns_ => In col columns_
              | None => False
              end
              \/ match dataframe with
                 | Some df => In col (names (columns df))
                 | None => False
                 end)
    | _ => True
    end.
Proof.
  intros H D table_name dataframe additional_columns s s' e E.
  unfold get_schema in E.
  apply bind_raise_inv in E as [E|[[schema_name table] [s0 [E0 E]]]].
  { unfold lift in E. injection E as E _.
    destruct (split_dot table_name) as [|a [|b [|c l]]]; try discriminate.
    injection E as <-. exact I. }
  apply lift_inv in E0 as [_ ->].
  set (catalog := if startswith "#" table then Some "tempdb" else None) in E.
  apply bind_raise_inv in E as [E|[rows [s1 [E1 E]]]].
  { apply run_raises_foreign in E. destruct e; try exact I; contradiction. }
  assert (cursor_columns table catalog schema_name s = (inr rows, s1)) as Q.
  { unfold run in E1. destruct (cursor_columns table catalog schema_name s) as [[f|r] s2];
      cbn [called] in E1; [discriminate|]. now injection E1 as -> ->. }
  clear E1.
  destruct (length rows =? 0)%nat eqn:L.
  { unfold raise in E. injection E as <- <-.
    apply Nat.eqb_eq in L. destruct rows; [|discriminate]. eauto. }
  assert (rows <> []) as Nr by (intros ->; discriminate).
  destruct (match additional_columns with
            | Some columns_ => not_in (map column_name rows) columns_
            | None => []
            end) as [|m1 ms1] eqn:M1.
  2:{ unfold raise in E. injection E as <- <-.
      exists table, catalog, schema_name, rows, m1. split; [assumption|]. split; [assumption|].
      destruct additional_columns as [cs|]; [|discriminate].
      destruct (@in_not_in (map column_name rows) cs m1) as [I N]; [rewrite M1; now left|].
      split; [assumption | now left]. }
  destruct (match dataframe with
            | Some df => not_in (map column_name rows) (names (columns df))
            | None => []
            end) as [|m2 ms2] eqn:M2.
  2:{ unfold raise in E. injection E as <- <-.
      exists table, catalog, schema_name, rows, m2. split; [assumption|]. split; [assumption|].
      destruct dataframe as [df|]; [|discriminate].
      destruct (@in_not_in (map column_name rows) (names (columns df)) m2) as [I N];
        [rewrite M2; now left|].
      split; [assumption | now right]. }
  apply bind_raise_inv in E as [E|[pk [s2 [E2 E]]]].
  { apply run_raises_foreign in E. destruct e; try exact I; contradiction. }
  destruct (any _).
  { unfold raise in E. injection E as <- _. exact I. }
  destruct dataframe as [df|]; [|discriminate].
  apply bind_raise_inv in E as [E|[df' [s3 [_ E]]]]; [|discriminate].
  unfold lift in E. injection E as E _.
  assert (not_about_table e) as Na.
  { pose proof (@raises_only_precheck not_about_table) as R.
    match type of E with _precheck_dataframe ?sc ?d = _ =>
      specialize (R ltac:(intros; exact I) ltac:(exact I) ltac:(intros; exact I)
                    ltac:(intros; exact I) ltac:(intros; exact I) ltac:(intros; exact I)
                    ltac:(exact I) H sc d) end.
    rewrite E in R. exact R. }
  destruct e; try exact I; contradiction.
Qed.

(** A database that reports no column for the table asked for. *)
Lemma get_schema_errors_about_the_table_are_sound_witness :
  exists table catalog schema_name,
    cursor_columns (Database := recording_database [] []) table catalog schema_name []
    = (inr [], []).
Proof.
  exact (@get_schema_errors_about_the_table_are_sound plain_host (recording_database [] [])
           "dbo.t" None None [] [] SQLTableDoesNotExist eq_refl).
Defined.
